(** * Save Finance: action builder and liquidator

    A shallow embedding of the transaction-composition code of the SDK
    ([solend-sdk/src/core/actions.ts]), of the liquidator's oracle reader
    ([getTokenOracleData]), of the liquidator's main loop ([runLiquidator])
    and of its secret reader ([readSecret]), followed by the properties
    established about them. *)

From Stdlib Require Import ZArith String List QArith Qround Lia Lqa Bool.
From Stdlib Require Import DecimalString DecimalZ DecimalNat DecimalPos.
From Stdlib Require HexadecimalString HexadecimalN Nnat.
Import ListNotations.
Open Scope string_scope.
Open Scope list_scope.
Open Scope Z_scope.

(** ** Numbers: [BN], [BigNumber] and the JavaScript [number] *)

Module Numeric.

(** [bn.js] integers are arbitrary-precision and signed. *)
Definition BN := Z.

(** [BN.prototype.toString()] in base 10. *)
Definition BN_toString (a : BN) : string := NilEmpty.string_of_int (Z.to_int a).

(** [new BN(s)] for a string [s]; [None] when [s] is not a decimal integer
    literal. *)
Definition new_BN (s : string) : option BN :=
  option_map Z.of_int (NilEmpty.int_of_string s).

(** IEEE-754 binary64 values as JavaScript sees them (signed zeros are not
    distinguished). *)
Inductive number :=
| Num (q : Q)
| PosInfinity
| NegInfinity
| NaN.

Definition pow2 (e : Z) : Q :=
  if 0 <=? e then inject_Z (2 ^ e) else 1 # Z.to_pos (2 ^ (- e)).

(** [ilog2 q] is the binary exponent of a positive rational:
    [2^(ilog2 q) <= q < 2^(ilog2 q + 1)]. *)
Definition ilog2 (q : Q) : Z :=
  let e0 := Z.log2 (Qnum q) - Z.log2 (Zpos (Qden q)) in
  if Qle_bool (pow2 e0) q then e0 else e0 - 1.

(** Round to the nearest integer, ties to even (the binary64 rounding). *)
Definition round_half_even (q : Q) : Z :=
  let f := Qfloor q in
  match (q - inject_Z f ?= 1 # 2)%Q with
  | Lt => f
  | Gt => f + 1
  | Eq => if Z.even f then f else f + 1
  end.

(** Round to the nearest integer, ties away from zero
    ([BigNumber.ROUND_HALF_UP], the library default). *)
Definition round_half_up (q : Q) : Z :=
  if Qle_bool 0 q then Qfloor (q + (1 # 2)) else - Qfloor (- q + (1 # 2)).

(** The binary64 nearest to a positive rational: 53 significant bits,
    exponents from -1022 (subnormals below) to 1023 (infinity above). *)
Definition to_double_pos (q : Q) : number :=
  let e := Z.max (ilog2 q) (-1022) in
  let ulp := pow2 (e - 52) in
  let v := (inject_Z (round_half_even (q / ulp)) * ulp)%Q in
  if Qle_bool (pow2 1024) v then PosInfinity else Num v.

Definition number_neg (n : number) : number :=
  match n with
  | Num q => Num (- q)
  | PosInfinity => NegInfinity
  | NegInfinity => PosInfinity
  | NaN => NaN
  end.

Definition to_double (q : Q) : number :=
  match (q ?= 0)%Q with
  | Eq => Num 0
  | Gt => to_double_pos q
  | Lt => number_neg (to_double_pos (- q))
  end.

(** [a + b] on numbers. *)
Definition number_add (a b : number) : number :=
  match a, b with
  | Num x, Num y => to_double (x + y)
  | NaN, _ | _, NaN => NaN
  | PosInfinity, NegInfinity | NegInfinity, PosInfinity => NaN
  | PosInfinity, _ | _, PosInfinity => PosInfinity
  | NegInfinity, _ | _, NegInfinity => NegInfinity
  end.

Definition Math_floor (n : number) : number :=
  match n with
  | Num q => Num (inject_Z (Qfloor q))
  | other => other
  end.

(** [parseInt(s, 10)] of the decimal digits of an integer. *)
Definition parseInt_decimal (z : Z) : number := to_double (inject_Z z).

Definition MAX_SAFE_INTEGER : Z := 2 ^ 53 - 1.

(** [bignumber.js] values.  Finite values are exact decimal fractions, held
    here as rationals; the others are [Infinity], [-Infinity] and [NaN].
    The sign of a zero is not kept: the zeros this code divides by are read
    from the string of an integer and are positive. *)
Inductive BigNumber :=
| Finite (q : Q)
| Infinite (negative : bool)
| NotANumber.

Definition BigNumber_of_BN (a : BN) : BigNumber := Finite (inject_Z a).

Definition DECIMAL_PLACES : Z := 20.

(** Rounding of a quotient to [DECIMAL_PLACES] decimals, half up. *)
Definition round_dp (q : Q) : Q :=
  (inject_Z (round_half_up (q * inject_Z (10 ^ DECIMAL_PLACES)))
   / inject_Z (10 ^ DECIMAL_PLACES))%Q.

Definition is_negative_Q (q : Q) : bool := negb (Qle_bool 0 q).

(** [x.multipliedBy(y)]: exact. *)
Definition multipliedBy (x y : BigNumber) : BigNumber :=
  match x, y with
  | NotANumber, _ | _, NotANumber => NotANumber
  | Finite a, Finite b => Finite (a * b)%Q
  | Infinite n, Finite b | Finite b, Infinite n =>
      if Qeq_bool b 0 then NotANumber else Infinite (xorb n (is_negative_Q b))
  | Infinite n, Infinite m => Infinite (xorb n m)
  end.

(** [x.dividedBy(y)]: a finite quotient is rounded to [DECIMAL_PLACES]; a
    division by zero gives an infinity, or [NaN] for a zero dividend. *)
Definition dividedBy (x y : BigNumber) : BigNumber :=
  match x, y with
  | NotANumber, _ | _, NotANumber => NotANumber
  | Finite a, Finite b =>
      if Qeq_bool b 0
      then if Qeq_bool a 0 then NotANumber else Infinite (is_negative_Q a)
      else Finite (round_dp (a / b))
  | Finite _, Infinite _ => Finite 0
  | Infinite n, Finite b => Infinite (xorb n (is_negative_Q b))
  | Infinite _, Infinite _ => NotANumber
  end.

(** [x.plus(y)]: exact. *)
Definition plus (x y : BigNumber) : BigNumber :=
  match x, y with
  | NotANumber, _ | _, NotANumber => NotANumber
  | Finite a, Finite b => Finite (a + b)%Q
  | Infinite n, Finite _ | Finite _, Infinite n => Infinite n
  | Infinite n, Infinite m => if Bool.eqb n m then Infinite n else NotANumber
  end.

(** [x.toNumber()]: the nearest binary64. *)
Definition toNumber (x : BigNumber) : number :=
  match x with
  | Finite a => to_double a
  | Infinite false => PosInfinity
  | Infinite true => NegInfinity
  | NotANumber => NaN
  end.

(** [x.isLessThanOrEqualTo(y)] and [x.gt(y)]: the order of the extended
    reals; every comparison with [NaN] is false. *)
Definition isLessThanOrEqualTo (a b : BigNumber) : bool :=
  match a, b with
  | NotANumber, _ | _, NotANumber => false
  | Finite x, Finite y => Qle_bool x y
  | Infinite true, _ => true
  | _, Infinite false => true
  | _, _ => false
  end.

Definition gt (a b : BigNumber) : bool :=
  match a, b with
  | NotANumber, _ | _, NotANumber => false
  | Finite x, Finite y => negb (Qle_bool x y)
  | Infinite true, _ => false
  | _, Infinite false => false
  | _, _ => true
  end.

End Numeric.

(** ** Exceptions and the state monad the methods run in *)

Module Js.

Inductive Error := mkError (message : string).

Inductive Result (E A : Type) :=
| Ok (a : A)
| Throw (e : E).
Arguments Ok {E A} a.
Arguments Throw {E A} e.

(** A computation over a mutable object of type [S]: the object is threaded
    through, and is kept as it was mutated when an exception is thrown. *)
Definition M (E S A : Type) := S -> Result E A * S.

Definition ret {E S A} (a : A) : M E S A := fun s => (Ok a, s).

Definition throw {E S A} (e : E) : M E S A := fun s => (Throw e, s).

Definition bind {E S A B} (c : M E S A) (k : A -> M E S B) : M E S B :=
  fun s =>
    match c s with
    | (Ok a, s') => k a s'
    | (Throw e, s') => (Throw e, s')
    end.

Definition get {E S} : M E S S := fun s => (Ok s, s).

Definition modify {E S} (f : S -> S) : M E S unit := fun s => (Ok tt, f s).

Definition lift {E S A} (r : Result E A) : M E S A := fun s => (r, s).

(** [for (const x of xs) { body x }] *)
Fixpoint for_of {E S A} (xs : list A) (body : A -> M E S unit) : M E S unit :=
  match xs with
  | [] => ret tt
  | x :: rest => bind (body x) (fun _ => for_of rest body)
  end.

End Js.

Declare Scope js_scope.
Delimit Scope js_scope with js.
Notation "x <- c ;; k" := (Js.bind c (fun x => k))
  (at level 61, c at next level, right associativity) : js_scope.
Notation "c ;;; k" := (Js.bind c (fun _ => k))
  (at level 61, right associativity) : js_scope.

(** ** The action builder ([SolendActionCore]) *)

Module Actions.
Import Numeric Js.

Definition PublicKey := string.

(** [e.toBase58()] and [new PublicKey(s)]: keys are held by their base-58
    text. *)
Definition toBase58 (k : PublicKey) : string := k.
Definition new_PublicKey (s : string) : PublicKey := s.

Definition EnvironmentType := string.

Inductive ActionType :=
| deposit
| borrow
| withdraw
| repay
| mint
| redeem
| depositCollateral
| withdrawCollateral
| forgive
| liquidate.

Inductive SupportType :=
| wrap
| unwrap
| refreshReserves
| refreshObligation
| createObligation
| cAta
| ata
| wrapUnwrapLiquidate
| wsol.

Definition ACTION_SUPPORT_REQUIREMENTS (a : ActionType) : list SupportType :=
  match a with
  | deposit => [wsol; wrap; createObligation; cAta]
  | borrow => [wsol; ata; refreshReserves; refreshObligation; unwrap]
  | withdraw =>
      [wsol; ata; cAta; refreshReserves; refreshObligation; unwrap]
  | repay => [wsol; wrap]
  | mint => [wsol; wrap; cAta]
  | redeem => [wsol; ata; refreshReserves; refreshObligation; unwrap]
  | depositCollateral => [createObligation]
  | withdrawCollateral => [cAta; refreshReserves; refreshObligation]
  | forgive => []
  | liquidate =>
      [wsol; ata; cAta; wrapUnwrapLiquidate; refreshReserves;
       refreshObligation]
  end.

Definition ActionType_eqb (a b : ActionType) : bool :=
  match a, b with
  | deposit, deposit | borrow, borrow | withdraw, withdraw | repay, repay
  | mint, mint | redeem, redeem | depositCollateral, depositCollateral
  | withdrawCollateral, withdrawCollateral | forgive, forgive
  | liquidate, liquidate => true
  | _, _ => false
  end.

(** *** Account and configuration data *)

Module ReserveType.
Record t := {
  address : string;
  mintAddress : string;
  cTokenMint : string;
  liquidityAddress : string;
  cTokenLiquidityAddress : string;
  liquidityFeeReceiverAddress : string;
  feeReceiverAddress : string;
  pythOracle : string;
  switchboardOracle : string;
  extraOracle : option string;
}.
End ReserveType.

Module PoolType.
Record t := {
  address : string;
  owner : string;
  authorityAddress : string;
  reserves : list ReserveType.t;
}.
End PoolType.

Module ObligationCollateral.
Record t := {
  depositReserve : PublicKey;
  depositedAmount : BN;
}.
End ObligationCollateral.

Module ObligationLiquidity.
Record t := {
  borrowReserve : PublicKey;
  cumulativeBorrowRateWads : BN;
  borrowedAmountWads : BN;
}.
End ObligationLiquidity.

Module Obligation.
Record t := {
  owner : PublicKey;
  deposits : list ObligationCollateral.t;
  borrows : list ObligationLiquidity.t;
}.
End Obligation.

(** The part of a parsed reserve that the builder reads:
    [info.liquidity.cumulativeBorrowRateWads]. *)
Module Reserve.
Record t := {
  cumulativeBorrowRateWads : BN;
}.
End Reserve.

Record AccountInfo := {
  account_owner : PublicKey;
  account_data : string;
}.

Record AddressLookupTableAccount := {
  lookup_key : PublicKey;
  lookup_addresses : list PublicKey;
}.

Record Wallet := {
  publicKey : PublicKey;
}.

(** The RPC connection, as the chain state it answers from. *)
Module Connection.
Record t := {
  getAccountInfo : PublicKey -> option AccountInfo;
  getMinimumBalanceForRentExemption : Z -> number;
  getAddressLookupTable : PublicKey -> option AddressLookupTableAccount;
}.
End Connection.

(** *** Instructions

    The instruction factories are external encoders; an instruction is held
    as the factory that made it and the arguments it was given, the accounts
    in the order of the call. *)

Inductive TransactionInstruction :=
| SystemProgram_createAccountWithSeed
    (fromPubkey newAccountPubkey basePubkey : PublicKey) (seed : string)
    (lamports : number) (space : Z) (programId : PublicKey)
| SystemProgram_transfer (fromPubkey toPubkey : PublicKey) (lamports : number)
| createAssociatedTokenAccountInstruction (accounts : list PublicKey)
| createAssociatedTokenAccountIdempotentInstruction (accounts : list PublicKey)
| createCloseAccountInstruction (accounts multiSigners : list PublicKey)
| createDepositAndMintWrapperTokensInstruction
    (accounts : list PublicKey) (amount : BN)
| createWithdrawAndBurnWrapperTokensInstruction
    (accounts : list PublicKey) (amount : BN)
| syncNative (account : PublicKey)
| initObligationInstruction (accounts : list PublicKey)
| refreshReserveInstruction
    (reserve programId pyth switchboard : PublicKey)
    (extra : option PublicKey)
| refreshObligationInstruction
    (obligation : PublicKey) (depositReserves borrowReserves : list PublicKey)
    (programId : PublicKey)
| forgiveDebtInstruction (accounts : list PublicKey) (amount : BN)
    (programId : PublicKey)
| depositMaxReserveLiquidityAndObligationCollateralInstruction
    (accounts : list PublicKey)
| depositReserveLiquidityAndObligationCollateralInstruction
    (amount : BN) (accounts : list PublicKey)
| depositReserveLiquidityInstruction (amount : BN) (accounts : list PublicKey)
| redeemReserveCollateralInstruction (amount : BN) (accounts : list PublicKey)
| withdrawObligationCollateralInstruction
    (amount : BN) (accounts depositReserves : list PublicKey)
| depositObligationCollateralInstruction
    (amount : BN) (accounts : list PublicKey)
| borrowObligationLiquidityInstruction
    (amount : BN) (accounts depositReserves : list PublicKey)
    (hostFeeReceiver : option PublicKey)
| withdrawObligationCollateralAndRedeemReserveLiquidity
    (amount : BN) (accounts depositReserves : list PublicKey)
| withdrawExact (amount : BN) (accounts depositReserves : list PublicKey)
| repayMaxObligationLiquidityInstruction (accounts : list PublicKey)
| repayObligationLiquidityInstruction (amount : BN) (accounts : list PublicKey)
| liquidateObligationAndRedeemReserveCollateral
    (amount : BN) (accounts : list PublicKey)
| ComputeBudgetProgram_setComputeUnitPrice (microLamports : Z)
| ComputeBudgetProgram_setComputeUnitLimit (units : Z)
| PullFeed_updateManyIx (feeds : list PublicKey) (numSignatures : Z).

(** What a bucket holds: the methods push both bare instructions and
    [{ signers: [], instruction }] objects. *)
Inductive BucketEntry :=
| Bare (instruction : TransactionInstruction)
| WithSigners (signers : list PublicKey) (instruction : TransactionInstruction).

Definition VersionedTransaction := list TransactionInstruction.

(** *** The builder object

    The class declares [lendingIxs], [preIxs] and [postIxs], and its
    constructor sets them to empty arrays.  [setupIxs], [cleanupIxs],
    [postTxnIxs] and [pullPriceTxns] are neither declared nor assigned
    anywhere in the class: on an object the class made they are
    [undefined], here [None], and a [push] on them throws a [TypeError]. *)
Record SolendActionCore := {
  programId : PublicKey;
  connection : Connection.t;
  reserve : ReserveType.t;
  pool : PoolType.t;
  this_publicKey : PublicKey;
  obligationAddress : PublicKey;
  obligationAccountInfo : option Obligation.t;
  userTokenAccountAddress : PublicKey;
  userCollateralAccountAddress : PublicKey;
  seed : string;
  positions : nat;
  amount : BN;
  hostAta : option PublicKey;
  lendingIxs : list BucketEntry;
  preIxs : list BucketEntry;
  postIxs : list BucketEntry;
  setupIxs : option (list BucketEntry);
  cleanupIxs : option (list BucketEntry);
  postTxnIxs : option (list BucketEntry);
  pullPriceTxns : option (list VersionedTransaction);
  depositReserves : list PublicKey;
  borrowReserves : list PublicKey;
  lookupTableAccount : option AddressLookupTableAccount;
  jitoTipAmount : Z;
  wallet : Wallet;
  userRepayTokenAccountAddress : option PublicKey;
  userRepayCollateralAccountAddress : option PublicKey;
  token2022Mint : option PublicKey;
  wrappedAta : option PublicKey;
}.

(** The object with its buckets replaced, every other field kept. *)
Definition with_buckets (t : SolendActionCore)
    (setup : option (list BucketEntry)) (pre lending post : list BucketEntry)
    (cleanup postTxn : option (list BucketEntry))
    : SolendActionCore :=
  {| programId := programId t; connection := connection t;
     reserve := reserve t; pool := pool t;
     this_publicKey := this_publicKey t;
     obligationAddress := obligationAddress t;
     obligationAccountInfo := obligationAccountInfo t;
     userTokenAccountAddress := userTokenAccountAddress t;
     userCollateralAccountAddress := userCollateralAccountAddress t;
     seed := seed t; positions := positions t; amount := amount t;
     hostAta := hostAta t;
     lendingIxs := lending; preIxs := pre; postIxs := post;
     setupIxs := setup; cleanupIxs := cleanup; postTxnIxs := postTxn;
     pullPriceTxns := pullPriceTxns t;
     depositReserves := depositReserves t;
     borrowReserves := borrowReserves t;
     lookupTableAccount := lookupTableAccount t;
     jitoTipAmount := jitoTipAmount t; wallet := wallet t;
     userRepayTokenAccountAddress := userRepayTokenAccountAddress t;
     userRepayCollateralAccountAddress := userRepayCollateralAccountAddress t;
     token2022Mint := token2022Mint t; wrappedAta := wrappedAta t |}.

(** [this.<bucket>.push(...xs)] on a bucket the constructor made. *)
Definition push_preIxs (xs : list BucketEntry) (t : SolendActionCore) :=
  with_buckets t (setupIxs t) (preIxs t ++ xs) (lendingIxs t) (postIxs t)
    (cleanupIxs t) (postTxnIxs t).

Definition push_lendingIxs (xs : list BucketEntry) (t : SolendActionCore) :=
  with_buckets t (setupIxs t) (preIxs t) (lendingIxs t ++ xs) (postIxs t)
    (cleanupIxs t) (postTxnIxs t).

Definition push_postIxs (xs : list BucketEntry) (t : SolendActionCore) :=
  with_buckets t (setupIxs t) (preIxs t) (lendingIxs t) (postIxs t ++ xs)
    (cleanupIxs t) (postTxnIxs t).

(** The error of [undefined.push]: the property is read before any
    argument is looked at. *)
Definition undefined_push : Error :=
  mkError "TypeError: Cannot read properties of undefined (reading 'push')".

(** [this.<bucket>.push(...xs)] on a bucket the constructor did not make:
    it throws unless the property has been given an array. *)
Definition push_setupIxs (xs : list BucketEntry)
    : M Error SolendActionCore unit :=
  fun t =>
    match setupIxs t with
    | None => (Throw undefined_push, t)
    | Some l =>
        (Ok tt,
         with_buckets t (Some (l ++ xs)) (preIxs t) (lendingIxs t) (postIxs t)
           (cleanupIxs t) (postTxnIxs t))
    end.

Definition push_cleanupIxs (xs : list BucketEntry)
    : M Error SolendActionCore unit :=
  fun t =>
    match cleanupIxs t with
    | None => (Throw undefined_push, t)
    | Some l =>
        (Ok tt,
         with_buckets t (setupIxs t) (preIxs t) (lendingIxs t) (postIxs t)
           (Some (l ++ xs)) (postTxnIxs t))
    end.

Definition push_postTxnIxs (xs : list BucketEntry)
    : M Error SolendActionCore unit :=
  fun t =>
    match postTxnIxs t with
    | None => (Throw undefined_push, t)
    | Some l =>
        (Ok tt,
         with_buckets t (setupIxs t) (preIxs t) (lendingIxs t) (postIxs t)
           (cleanupIxs t) (Some (l ++ xs)))
    end.

(** The instruction content of an object: every bucket, in the order
    setup, pre, lending, post, cleanup, with the two stores the methods
    also write to. *)
Definition buckets (t : SolendActionCore) :=
  (setupIxs t, preIxs t, lendingIxs t, postIxs t, cleanupIxs t,
   postTxnIxs t, pullPriceTxns t).

(** *** Constants *)

Definition SOL_PADDING_FOR_INTEREST : string := "1000000".

(** Modelled from the spec: the constant [U64_MAX] of [./constants], which
    is not among the sources; the amount sentinel, the maximum representable
    unsigned 64-bit integer, as the decimal string the code compares
    [amount.toString()] with. *)
Definition U64_MAX : string := "18446744073709551615".

(** Modelled from the spec: the constant [WAD] of [./constants], which is
    not among the sources; the 18-decimal fixed-point scaling factor. *)
Definition WAD : string := "1000000000000000000".

(** [new BN(s)] for a constant [s] that is a decimal literal. *)
Definition BN_const (s : string) : BN :=
  match new_BN s with
  | Some a => a
  | None => 0
  end.

(** [new BigNumber(s)] for the decimal string of an integer. *)
Definition new_BigNumber (s : string) : BigNumber :=
  match new_BN s with
  | Some z => Finite (inject_Z z)
  | None => NotANumber
  end.

(** *** What the builder takes from outside

    The constants of [./constants] whose value the sources do not give, the
    address derivations, the account decoders and the oracle clients. *)
Record Externals := {
  POSITION_LIMIT : nat;
  NATIVE_MINT : PublicKey;
  NULL_ORACLE : PublicKey;
  OBLIGATION_SIZE : Z;
  TOKEN_2022_PROGRAM_ID : PublicKey;
  getProgramId : EnvironmentType -> PublicKey;
  createWithSeed : PublicKey -> string -> PublicKey -> PublicKey;
  getAssociatedTokenAddress :
    PublicKey -> PublicKey -> option PublicKey -> PublicKey;
  parseObligation : AccountInfo -> option Obligation.t;
  parseReserve : PublicKey -> AccountInfo -> option Reserve.t;
  getMinimumBalanceForRentExemptAccount : Connection.t -> number;
  (** [buildPullPriceTxns] talks to the Switchboard and Pyth clients only;
      it is taken by what it does to the object. *)
  buildPullPriceTxns :
    list string -> M Error SolendActionCore unit;
  (** [new BN(n.toString())] for a number [n] that is not an integer of the
      safe range, where [toString] no longer prints the digits of the
      value. *)
  new_BN_of_unsafe_number : number -> Result Error BN;
  (** [new BN(s)] for a text [s] that is not a decimal literal: what the
      library does with it depends on its version. *)
  new_BN_of_other_string : string -> Result Error BN;
}.

(** The methods of the class: computations over [this]. *)
Definition Act := M Error SolendActionCore.

Section Builder.

Variable X : Externals.

Local Open Scope js_scope.

(** [Array.from(new Set(xs))]: the distinct elements, in the order of their
    first occurrence. *)
Definition Set_add (acc : list string) (x : string) : list string :=
  if existsb (String.eqb x) acc then acc else acc ++ [x].

Definition Array_from_Set (xs : list string) : list string :=
  fold_left Set_add xs [].

Definition nat_toString (n : nat) : string :=
  NilEmpty.string_of_uint (Nat.to_uint n).

(** Lines 279-292 of [initialize]. *)
Definition distinctReserveCount (action : ActionType)
    (reserve : ReserveType.t) (depositReserves borrowReserves : list PublicKey)
    : nat :=
  (List.length
     (Array_from_Set
        (map toBase58 borrowReserves
         ++ (if ActionType_eqb action borrow
             then [ReserveType.address reserve] else [])))
   + List.length
       (Array_from_Set
          (map toBase58 depositReserves
           ++ (if ActionType_eqb action deposit
               then [ReserveType.address reserve] else []))))%nat.

Definition position_limit_message : string :=
  String.append "Obligation already has max number of positions: "
    (nat_toString (POSITION_LIMIT X)).

(** Lines 255-277 of [initialize]: the obligation as it is on chain, with
    the reserves of its deposits and of its borrows. *)
Definition loadObligation (connection : Connection.t)
    (obligationAddress : PublicKey)
    : Result Error
        (option Obligation.t * list PublicKey * list PublicKey) :=
  let obligationAccountInfo :=
    Connection.getAccountInfo connection obligationAddress in
  match obligationAccountInfo with
  | Some info =>
      match parseObligation X info with
      | Some obligationDetails =>
          Ok (Some obligationDetails,
              map ObligationCollateral.depositReserve
                (Obligation.deposits obligationDetails),
              map ObligationLiquidity.borrowReserve
                (Obligation.borrows obligationDetails))
      | None =>
          Throw
            (mkError
               "TypeError: Cannot read properties of null (reading 'info')")
      end
  | None => Ok (None, [], [])
  end.

(** Lines 248-253 of [initialize]. *)
Definition obligationSeed (pool : PoolType.t)
    (customObligationSeed : option string) : string :=
  match customObligationSeed with
  | Some s => s
  | None => substring 0 32 (PoolType.address pool)
  end.

Definition resolveObligationAddress (wallet : Wallet) (seed : string)
    (programId : PublicKey) (customObligationAddress : option PublicKey)
    : PublicKey :=
  match customObligationAddress with
  | Some a => a
  | None => createWithSeed X (publicKey wallet) seed programId
  end.

(** The static [initialize]. *)
Definition initialize
    (pool : PoolType.t) (reserve : ReserveType.t) (action : ActionType)
    (amount : BN) (wallet : Wallet) (connection : Connection.t)
    (environment : EnvironmentType)
    (customObligationAddress hostAta : option PublicKey)
    (customObligationSeed : option string)
    (lookupTableAddress : option PublicKey) (tipAmount : option Z)
    (repayReserve : option ReserveType.t) (token2022Mint : option string)
    : Result Error SolendActionCore :=
  let seed := obligationSeed pool customObligationSeed in
  let programId := getProgramId X environment in
  let obligationAddress :=
    resolveObligationAddress wallet seed programId customObligationAddress in
  let loaded := loadObligation connection obligationAddress in
  match loaded with
  | Throw e => Throw e
  | Ok (obligationDetails, depositReserves, borrowReserves) =>
      let distinctReserveCount :=
        distinctReserveCount action reserve depositReserves borrowReserves in
      if (POSITION_LIMIT X <? distinctReserveCount)%nat
      then Throw (mkError position_limit_message)
      else
        let userTokenAccountAddress :=
          getAssociatedTokenAddress X
            (new_PublicKey (ReserveType.mintAddress reserve))
            (publicKey wallet) None in
        let userCollateralAccountAddress :=
          getAssociatedTokenAddress X
            (new_PublicKey (ReserveType.cTokenMint reserve))
            (publicKey wallet) None in
        let lookupTableAccount :=
          match lookupTableAddress with
          | Some a => Connection.getAddressLookupTable connection a
          | None => None
          end in
        let userRepayTokenAccountAddress :=
          option_map
            (fun r =>
               getAssociatedTokenAddress X
                 (new_PublicKey (ReserveType.mintAddress r))
                 (publicKey wallet) None)
            repayReserve in
        let userRepayCollateralAccountAddress :=
          option_map
            (fun r =>
               getAssociatedTokenAddress X
                 (new_PublicKey (ReserveType.cTokenMint r))
                 (publicKey wallet) None)
            repayReserve in
        Ok {| programId := programId;
              connection := connection;
              reserve := reserve;
              pool := pool;
              this_publicKey := publicKey wallet;
              obligationAddress := obligationAddress;
              obligationAccountInfo := obligationDetails;
              userTokenAccountAddress := userTokenAccountAddress;
              userCollateralAccountAddress := userCollateralAccountAddress;
              seed := seed;
              positions := distinctReserveCount;
              amount := amount;
              hostAta := hostAta;
              lendingIxs := [];
              preIxs := [];
              postIxs := [];
              setupIxs := None;
              cleanupIxs := None;
              postTxnIxs := None;
              pullPriceTxns := None;
              depositReserves := depositReserves;
              borrowReserves := borrowReserves;
              lookupTableAccount := lookupTableAccount;
              jitoTipAmount :=
                match tipAmount with Some t => t | None => 1000 end;
              wallet := wallet;
              userRepayTokenAccountAddress := userRepayTokenAccountAddress;
              userRepayCollateralAccountAddress :=
                userRepayCollateralAccountAddress;
              token2022Mint := option_map new_PublicKey token2022Mint;
              wrappedAta :=
                option_map
                  (fun m =>
                     getAssociatedTokenAddress X (new_PublicKey m)
                       (publicKey wallet) (Some (TOKEN_2022_PROGRAM_ID X)))
                  token2022Mint |}
  end.

(** *** The lending instructions *)

Definition addForgiveIx : Act unit :=
  this <- get ;;
  modify (push_lendingIxs
    [WithSigners []
       (forgiveDebtInstruction
          [obligationAddress this;
           new_PublicKey (ReserveType.address (reserve this));
           new_PublicKey (PoolType.address (pool this));
           new_PublicKey (PoolType.owner (pool this))]
          (amount this) (programId this))]).

Definition addDepositIx : Act unit :=
  this <- get ;;
  let accounts :=
    [userTokenAccountAddress this;
     userCollateralAccountAddress this;
     new_PublicKey (ReserveType.address (reserve this));
     new_PublicKey (ReserveType.liquidityAddress (reserve this));
     new_PublicKey (ReserveType.cTokenMint (reserve this));
     new_PublicKey (PoolType.address (pool this));
     new_PublicKey (PoolType.authorityAddress (pool this));
     new_PublicKey (ReserveType.cTokenLiquidityAddress (reserve this));
     obligationAddress this;
     this_publicKey this;
     new_PublicKey (ReserveType.pythOracle (reserve this));
     new_PublicKey (ReserveType.switchboardOracle (reserve this));
     this_publicKey this;
     programId this] in
  modify (push_lendingIxs
    [WithSigners []
       (if String.eqb (BN_toString (amount this)) U64_MAX
        then depositMaxReserveLiquidityAndObligationCollateralInstruction
               accounts
        else depositReserveLiquidityAndObligationCollateralInstruction
               (amount this) accounts)]).

Definition addDepositReserveLiquidityIx : Act unit :=
  this <- get ;;
  modify (push_lendingIxs
    [WithSigners []
       (depositReserveLiquidityInstruction (amount this)
          [userTokenAccountAddress this;
           userCollateralAccountAddress this;
           new_PublicKey (ReserveType.address (reserve this));
           new_PublicKey (ReserveType.liquidityAddress (reserve this));
           new_PublicKey (ReserveType.cTokenMint (reserve this));
           new_PublicKey (PoolType.address (pool this));
           new_PublicKey (PoolType.authorityAddress (pool this));
           this_publicKey this;
           programId this])]).

Definition addRedeemReserveCollateralIx : Act unit :=
  this <- get ;;
  modify (push_lendingIxs
    [WithSigners []
       (redeemReserveCollateralInstruction (amount this)
          [userCollateralAccountAddress this;
           userTokenAccountAddress this;
           new_PublicKey (ReserveType.address (reserve this));
           new_PublicKey (ReserveType.cTokenMint (reserve this));
           new_PublicKey (ReserveType.liquidityAddress (reserve this));
           new_PublicKey (PoolType.address (pool this));
           new_PublicKey (PoolType.authorityAddress (pool this));
           this_publicKey this;
           programId this])]).

Definition addWithdrawObligationCollateralIx : Act unit :=
  this <- get ;;
  modify (push_lendingIxs
    [WithSigners []
       (withdrawObligationCollateralInstruction (amount this)
          [new_PublicKey (ReserveType.cTokenLiquidityAddress (reserve this));
           userCollateralAccountAddress this;
           new_PublicKey (ReserveType.address (reserve this));
           obligationAddress this;
           new_PublicKey (PoolType.address (pool this));
           new_PublicKey (PoolType.authorityAddress (pool this));
           this_publicKey this;
           programId this]
          (map new_PublicKey (depositReserves this)))]).

Definition addDepositObligationCollateralIx : Act unit :=
  this <- get ;;
  modify (push_lendingIxs
    [WithSigners []
       (depositObligationCollateralInstruction (amount this)
          [userCollateralAccountAddress this;
           new_PublicKey (ReserveType.cTokenLiquidityAddress (reserve this));
           new_PublicKey (ReserveType.address (reserve this));
           obligationAddress this;
           new_PublicKey (PoolType.address (pool this));
           this_publicKey this;
           this_publicKey this;
           programId this])]).

Definition addBorrowIx : Act unit :=
  this <- get ;;
  modify (push_lendingIxs
    [WithSigners []
       (borrowObligationLiquidityInstruction (amount this)
          [new_PublicKey (ReserveType.liquidityAddress (reserve this));
           userTokenAccountAddress this;
           new_PublicKey (ReserveType.address (reserve this));
           new_PublicKey
             (ReserveType.liquidityFeeReceiverAddress (reserve this));
           obligationAddress this;
           new_PublicKey (PoolType.address (pool this));
           new_PublicKey (PoolType.authorityAddress (pool this));
           this_publicKey this;
           programId this]
          (map new_PublicKey (depositReserves this))
          (hostAta this))]).

Definition addWithdrawIx : Act unit :=
  this <- get ;;
  modify (push_lendingIxs
    [WithSigners []
       (if amount this =? BN_const U64_MAX
        then withdrawObligationCollateralAndRedeemReserveLiquidity
               (BN_const U64_MAX)
               [new_PublicKey
                  (ReserveType.cTokenLiquidityAddress (reserve this));
                userCollateralAccountAddress this;
                new_PublicKey (ReserveType.address (reserve this));
                obligationAddress this;
                new_PublicKey (PoolType.address (pool this));
                new_PublicKey (PoolType.authorityAddress (pool this));
                userTokenAccountAddress this;
                new_PublicKey (ReserveType.cTokenMint (reserve this));
                new_PublicKey (ReserveType.liquidityAddress (reserve this));
                this_publicKey this;
                this_publicKey this;
                programId this]
               (map new_PublicKey (depositReserves this))
        else withdrawExact (amount this)
               [new_PublicKey
                  (ReserveType.cTokenLiquidityAddress (reserve this));
                userCollateralAccountAddress this;
                new_PublicKey (ReserveType.address (reserve this));
                new_PublicKey (userTokenAccountAddress this);
                new_PublicKey (ReserveType.cTokenMint (reserve this));
                new_PublicKey (ReserveType.liquidityAddress (reserve this));
                new_PublicKey (obligationAddress this);
                new_PublicKey (PoolType.address (pool this));
                new_PublicKey (PoolType.authorityAddress (pool this));
                new_PublicKey (this_publicKey this);
                new_PublicKey (this_publicKey this);
                programId this]
               (map new_PublicKey (depositReserves this)))]).

Definition addRepayIx : Act unit :=
  this <- get ;;
  modify (push_lendingIxs
    [WithSigners []
       (if String.eqb (BN_toString (amount this)) U64_MAX
        then repayMaxObligationLiquidityInstruction
               [userTokenAccountAddress this;
                new_PublicKey (ReserveType.liquidityAddress (reserve this));
                new_PublicKey (ReserveType.address (reserve this));
                obligationAddress this;
                new_PublicKey (PoolType.address (pool this));
                this_publicKey this;
                programId this]
        else repayObligationLiquidityInstruction (amount this)
               [userTokenAccountAddress this;
                new_PublicKey (ReserveType.liquidityAddress (reserve this));
                new_PublicKey (ReserveType.address (reserve this));
                obligationAddress this;
                new_PublicKey (PoolType.address (pool this));
                this_publicKey this;
                programId this])]).

Definition addLiquidateIx (repayReserve : ReserveType.t) : Act unit :=
  this <- get ;;
  match userRepayCollateralAccountAddress this,
        userRepayTokenAccountAddress this with
  | Some _, Some userRepayTokenAccountAddress =>
      modify (push_lendingIxs
        [WithSigners []
           (liquidateObligationAndRedeemReserveCollateral (amount this)
              [userRepayTokenAccountAddress;
               userCollateralAccountAddress this;
               userTokenAccountAddress this;
               new_PublicKey (ReserveType.address repayReserve);
               new_PublicKey (ReserveType.liquidityAddress repayReserve);
               new_PublicKey (ReserveType.address (reserve this));
               new_PublicKey (ReserveType.cTokenMint (reserve this));
               new_PublicKey
                 (ReserveType.cTokenLiquidityAddress (reserve this));
               new_PublicKey (ReserveType.liquidityAddress (reserve this));
               new_PublicKey (ReserveType.feeReceiverAddress (reserve this));
               obligationAddress this;
               new_PublicKey (PoolType.address (pool this));
               new_PublicKey (PoolType.authorityAddress (pool this));
               this_publicKey this;
               programId this])])
  | _, _ =>
      throw (mkError "Not correctly initialized with a withdraw reserve.")
  end.

(** *** Support instructions *)

(** [this.positions === POSITION_LIMIT && this.hostAta &&
    !this.lookupTableAccount] *)
Definition full_with_host_no_lookup (this : SolendActionCore) : bool :=
  (positions this =? POSITION_LIMIT X)%nat
  && (match hostAta this with Some _ => true | None => false end)
  && (match lookupTableAccount this with Some _ => false | None => true end).

Definition addWrapIx : Act unit :=
  this <- get ;;
  match wrappedAta this, token2022Mint this with
  | Some wrappedAta, Some token2022Mint =>
      modify (push_preIxs
        [WithSigners []
           (createAssociatedTokenAccountIdempotentInstruction
              [this_publicKey this;
               userTokenAccountAddress this;
               this_publicKey this;
               new_PublicKey (ReserveType.mintAddress (reserve this))])]) ;;;
      modify (push_preIxs
        [WithSigners []
           (createDepositAndMintWrapperTokensInstruction
              [this_publicKey this; wrappedAta; token2022Mint]
              (amount this))])
  | _, _ => throw (mkError "Wrapped ATA not initialized")
  end.

Definition addUnwrapIx : Act unit :=
  this <- get ;;
  match wrappedAta this, token2022Mint this with
  | Some wrappedAta, Some token2022Mint =>
      modify (push_preIxs
        [WithSigners []
           (createAssociatedTokenAccountIdempotentInstruction
              [this_publicKey this;
               wrappedAta;
               this_publicKey this;
               token2022Mint;
               TOKEN_2022_PROGRAM_ID X])]) ;;;
      modify (push_postIxs
        [WithSigners []
           (createWithdrawAndBurnWrapperTokensInstruction
              [this_publicKey this; wrappedAta; token2022Mint]
              (amount this))])
  | _, _ => throw (mkError "Wrapped ATA not initialized")
  end.

Definition addWrapUnwrapLiquidateIxs : Act unit := ret tt.

(** [reserveMap[address]]: the object built by [reduce] keeps, for an
    address, the last reserve of the pool that has it. *)
Definition reserveMap (this : SolendActionCore) (address : string)
    : option ReserveType.t :=
  find (fun r => String.eqb (ReserveType.address r) address)
    (rev (PoolType.reserves (pool this))).

(** The error of reading a property of [undefined]. *)
Definition undefined_read (property : string) : Error :=
  mkError
    (String.append "TypeError: Cannot read properties of undefined (reading '"
       (String.append property "')")).

(** [addresses.map((address) => reserveMap[address].property)], which
    throws a [TypeError] at an address the map does not have; [f] reads the
    property. *)
Fixpoint map_reserveMap (this : SolendActionCore) (property : string)
    (f : ReserveType.t -> string) (addresses : list string)
    : Result Error (list string) :=
  match addresses with
  | [] => Ok []
  | a :: rest =>
      match reserveMap this a with
      | None => Throw (undefined_read property)
      | Some r =>
          match map_reserveMap this property f rest with
          | Ok l => Ok (f r :: l)
          | Throw e => Throw e
          end
      end
  end.

Definition addRefreshReservesIxs : Act unit :=
  this <- get ;;
  let allReserveAddresses :=
    Array_from_Set
      (map toBase58 (depositReserves this)
       ++ map toBase58 (borrowReserves this)
       ++ [ReserveType.address (reserve this)]) in
  pyth <- lift (map_reserveMap this "pythOracle" ReserveType.pythOracle
                  allReserveAddresses) ;;
  switchboard <- lift (map_reserveMap this "switchboardOracle"
                         ReserveType.switchboardOracle
                         allReserveAddresses) ;;
  extra <- lift (map_reserveMap this "extraOracle"
                   (fun r =>
                      match ReserveType.extraOracle r with
                      | Some o => o
                      | None => toBase58 (NULL_ORACLE X)
                      end)
                   allReserveAddresses) ;;
  buildPullPriceTxns X (pyth ++ switchboard ++ extra) ;;;
  for_of allReserveAddresses (fun reserveAddress =>
    this <- get ;;
    match find (fun r => String.eqb (ReserveType.address r) reserveAddress)
            (PoolType.reserves (pool this)) with
    | None =>
        throw (mkError
          (String.append "Could not find asset "
             (String.append reserveAddress " in reserves")))
    | Some reserveInfo =>
        push_setupIxs
          [Bare
             (refreshReserveInstruction
                (new_PublicKey reserveAddress)
                (programId this)
                (new_PublicKey (ReserveType.pythOracle reserveInfo))
                (new_PublicKey (ReserveType.switchboardOracle reserveInfo))
                (option_map new_PublicKey
                   (ReserveType.extraOracle reserveInfo)))]
    end).

Definition addRefreshObligationIxs : Act unit :=
  this <- get ;;
  push_setupIxs
    [Bare
       (refreshObligationInstruction
          (obligationAddress this)
          (depositReserves this)
          (borrowReserves this)
          (programId this))].

Definition addObligationIxs : Act unit :=
  this <- get ;;
  match obligationAccountInfo this with
  | Some _ => ret tt
  | None =>
      let obligationAccountInfoRentExempt :=
        Connection.getMinimumBalanceForRentExemption (connection this)
          (OBLIGATION_SIZE X) in
      push_setupIxs
        [Bare
           (SystemProgram_createAccountWithSeed
              (this_publicKey this)
              (obligationAddress this)
              (this_publicKey this)
              (seed this)
              obligationAccountInfoRentExempt
              (OBLIGATION_SIZE X)
              (programId this))] ;;;
      push_setupIxs
        [Bare
           (initObligationInstruction
              [obligationAddress this;
               new_PublicKey (PoolType.address (pool this));
               this_publicKey this;
               programId this])]
  end.

Definition addAtaIxs : Act unit :=
  this <- get ;;
  if negb (String.eqb (ReserveType.mintAddress (reserve this))
             (toBase58 (NATIVE_MINT X)))
  then
    let userTokenAccountInfo :=
      Connection.getAccountInfo (connection this)
        (userTokenAccountAddress this) in
    match userTokenAccountInfo with
    | Some _ => ret tt
    | None =>
        let createUserTokenAccountIx :=
          createAssociatedTokenAccountInstruction
            [this_publicKey this;
             userTokenAccountAddress this;
             this_publicKey this;
             new_PublicKey (ReserveType.mintAddress (reserve this))] in
        if full_with_host_no_lookup this
        then modify (push_preIxs [Bare createUserTokenAccountIx])
        else push_setupIxs [Bare createUserTokenAccountIx]
    end
  else ret tt.

Definition addCAtaIxs : Act unit :=
  this <- get ;;
  let userCollateralAccountInfo :=
    Connection.getAccountInfo (connection this)
      (userCollateralAccountAddress this) in
  match userCollateralAccountInfo with
  | Some _ => ret tt
  | None =>
      let createUserCollateralAccountIx :=
        createAssociatedTokenAccountInstruction
          [this_publicKey this;
           userCollateralAccountAddress this;
           this_publicKey this;
           new_PublicKey (ReserveType.cTokenMint (reserve this))] in
      if full_with_host_no_lookup this
      then modify (push_preIxs [Bare createUserCollateralAccountIx])
      else push_setupIxs [Bare createUserCollateralAccountIx]
  end.

(** *** Native-token funding *)

(** [new BN(n.toString())]: the digits of an integer of the safe range are
    printed as they are. *)
Definition new_BN_of_number (n : number) : Result Error BN :=
  match n with
  | Num q =>
      if Qeq_bool q (inject_Z (Qfloor q))
         && (Z.abs (Qfloor q) <=? MAX_SAFE_INTEGER)
      then Ok (Qfloor q)
      else new_BN_of_unsafe_number X n
  | _ => new_BN_of_unsafe_number X n
  end.

(** Lines 1365-1376 of [updateWSOLAccount]: the amount a full repay is
    funded with, from the borrow's [borrowedAmountWads] and
    [cumulativeBorrowRateWads] and the reserve's current
    [cumulativeBorrowRateWads]. *)
Definition safeRepay_number
    (borrowedAmountWads currentRateWads snapshotRateWads : BN) : number :=
  Math_floor
    (toNumber
       (plus
          (dividedBy
             (dividedBy
                (multipliedBy
                   (new_BigNumber (BN_toString borrowedAmountWads))
                   (new_BigNumber (BN_toString currentRateWads)))
                (new_BigNumber (BN_toString snapshotRateWads)))
             (new_BigNumber WAD))
          (new_BigNumber SOL_PADDING_FOR_INTEREST))).

Definition safeRepay_of
    (borrowedAmountWads currentRateWads snapshotRateWads : BN)
    : Result Error BN :=
  new_BN_of_number
    (safeRepay_number borrowedAmountWads currentRateWads snapshotRateWads).

Definition isSendAction (action : ActionType) : bool :=
  ActionType_eqb action deposit || ActionType_eqb action repay
  || ActionType_eqb action mint.

(** Lines 1330-1377: [safeRepay], the amount itself unless this is a
    full-balance repay on an existing obligation. *)
Definition computeSafeRepay (action : ActionType) : Act BN :=
  this <- get ;;
  match obligationAccountInfo this with
  | Some obligation =>
      if ActionType_eqb action repay && (amount this =? BN_const U64_MAX)
      then
        match Connection.getAccountInfo (connection this)
                (new_PublicKey (ReserveType.address (reserve this))) with
        | None =>
            throw (mkError
              (String.append "Unable to fetch reserve data for "
                 (ReserveType.address (reserve this))))
        | Some buffer =>
            match parseReserve X
                    (new_PublicKey (ReserveType.address (reserve this)))
                    buffer with
            | None =>
                throw (mkError
                  (String.append "Unable to parse data of reserve "
                     (ReserveType.address (reserve this))))
            | Some parsedData =>
                match find
                        (fun b =>
                           String.eqb
                             (toBase58 (ObligationLiquidity.borrowReserve b))
                             (ReserveType.address (reserve this)))
                        (Obligation.borrows obligation) with
                | None =>
                    throw (mkError
                      (String.append
                         "Unable to find obligation borrow to repay for "
                         (toBase58 (Obligation.owner obligation))))
                | Some b =>
                    lift (safeRepay_of
                            (ObligationLiquidity.borrowedAmountWads b)
                            (Reserve.cumulativeBorrowRateWads parsedData)
                            (ObligationLiquidity.cumulativeBorrowRateWads b))
                end
            end
        end
      else ret (amount this)
  | None => ret (amount this)
  end.

Definition updateWSOLAccount (action : ActionType) : Act unit :=
  this <- get ;;
  if negb (String.eqb (ReserveType.mintAddress (reserve this))
             (toBase58 (NATIVE_MINT X)))
  then ret tt
  else
    safeRepay <- computeSafeRepay action ;;
    let userWSOLAccountInfo :=
      Connection.getAccountInfo (connection this)
        (userTokenAccountAddress this) in
    let rentExempt :=
      getMinimumBalanceForRentExemptAccount X (connection this) in
    let sendAction := isSendAction action in
    let transferLamportsIx :=
      SystemProgram_transfer
        (this_publicKey this)
        (userTokenAccountAddress this)
        (number_add
           (match userWSOLAccountInfo with
            | Some _ => Num 0
            | None => rentExempt
            end)
           (if sendAction then parseInt_decimal safeRepay else Num 0)) in
    let closeWSOLAccountIx :=
      createCloseAccountInstruction
        [userTokenAccountAddress this;
         this_publicKey this;
         this_publicKey this]
        [] in
    let '(preIxs, postIxs) :=
      match userWSOLAccountInfo with
      | Some _ =>
          let syncIx := syncNative (userTokenAccountAddress this) in
          if sendAction
          then ([transferLamportsIx; syncIx], [])
          else ([transferLamportsIx], [closeWSOLAccountIx])
      | None =>
          let createUserWSOLAccountIx :=
            createAssociatedTokenAccountInstruction
              [this_publicKey this;
               userTokenAccountAddress this;
               this_publicKey this;
               NATIVE_MINT X] in
          ([transferLamportsIx; createUserWSOLAccountIx],
           [closeWSOLAccountIx])
      end in
    if full_with_host_no_lookup this
    then
      modify (push_preIxs (map Bare preIxs)) ;;;
      push_postTxnIxs (map Bare postIxs)
    else
      push_setupIxs (map Bare preIxs) ;;;
      push_cleanupIxs (map Bare postIxs).

(** *** Resolution of the support requirements *)

Definition resolveSupport (action : ActionType) (support : SupportType)
    : Act unit :=
  match support with
  | createObligation => addObligationIxs
  | wrap =>
      this <- get ;;
      match wrappedAta this with
      | Some _ => addWrapIx
      | None => ret tt
      end
  | unwrap =>
      this <- get ;;
      match wrappedAta this with
      | Some _ => addUnwrapIx
      | None => ret tt
      end
  | refreshReserves => addRefreshReservesIxs
  | refreshObligation => addRefreshObligationIxs
  | cAta => addCAtaIxs
  | ata => addAtaIxs
  | wrapUnwrapLiquidate =>
      this <- get ;;
      match wrappedAta this with
      | Some _ => addWrapUnwrapLiquidateIxs
      | None => ret tt
      end
  | wsol => updateWSOLAccount action
  end.

Definition addSupportIxs (action : ActionType) : Act unit :=
  let supports := ACTION_SUPPORT_REQUIREMENTS action in
  for_of supports (resolveSupport action).

(** *** The builders *)

(** [\s] on the characters a byte holds: the white space of the ASCII
    range and the no-break space. *)
Definition is_white_space (c : Ascii.ascii) : bool :=
  let n := Ascii.nat_of_ascii c in
  ((9 <=? n) && (n <=? 13) || (n =? 32) || (n =? 160))%nat.

(** [s.replace(/\s+/g, '')] *)
Fixpoint strip_white_space (s : string) : string :=
  match s with
  | EmptyString => EmptyString
  | String c rest =>
      if is_white_space c then strip_white_space rest
      else String c (strip_white_space rest)
  end.

(** A decimal literal: an optional minus sign, then one digit or more. *)
Definition decimal_literal (s : string) : option BN :=
  match s with
  | EmptyString => None
  | _ => if String.eqb s "-" then None else new_BN s
  end.

(** [new BN(amount)] on the caller's string: the library drops the white
    space, then reads the digits. *)
Definition parse_amount (amount : string) : Result Error BN :=
  let text := strip_white_space amount in
  match decimal_literal text with
  | Some a => Ok a
  | None => new_BN_of_other_string X text
  end.

(** The default value of the [environment] parameter. *)
Definition environment_or_default (environment : option EnvironmentType)
    : EnvironmentType :=
  match environment with
  | Some e => e
  | None => "production"
  end.

(** [const axn = await initialize(...); await steps; return axn]: the
    object is returned only if nothing threw. *)
Definition build (init : BN -> Result Error SolendActionCore)
    (amount : string) (steps : Act unit) : Result Error SolendActionCore :=
  match parse_amount amount with
  | Throw e => Throw e
  | Ok a =>
      match init a with
      | Throw e => Throw e
      | Ok axn =>
          match steps axn with
          | (Ok _, axn') => Ok axn'
          | (Throw e, _) => Throw e
          end
      end
  end.

Definition buildForgiveTxns (pool : PoolType.t) (reserve : ReserveType.t)
    (connection : Connection.t) (amount : string) (wallet : Wallet)
    (obligationAddress : PublicKey) (environment : option EnvironmentType)
    (lookupTableAddress : option PublicKey) :=
  build
    (fun a =>
       initialize pool reserve deposit a wallet connection
         (environment_or_default environment) (Some obligationAddress) None
         None lookupTableAddress None None None)
    amount
    (addSupportIxs forgive ;;; addForgiveIx).

Definition buildDepositTxns (pool : PoolType.t) (reserve : ReserveType.t)
    (connection : Connection.t) (amount : string) (wallet : Wallet)
    (environment : option EnvironmentType)
    (obligationAddress : option PublicKey) (obligationSeed : option string)
    (lookupTableAddress : option PublicKey) (token2022Mint : option string) :=
  build
    (fun a =>
       initialize pool reserve deposit a wallet connection
         (environment_or_default environment) obligationAddress None
         obligationSeed lookupTableAddress None None token2022Mint)
    amount
    (addSupportIxs deposit ;;; addDepositIx).

Definition buildBorrowTxns (pool : PoolType.t) (reserve : ReserveType.t)
    (connection : Connection.t) (amount : string) (wallet : Wallet)
    (environment : option EnvironmentType)
    (customObligationAddress hostAta lookupTableAddress : option PublicKey)
    (tipAmount : option Z) (token2022Mint : option string) :=
  build
    (fun a =>
       initialize pool reserve borrow a wallet connection
         (environment_or_default environment) customObligationAddress hostAta
         None lookupTableAddress tipAmount None token2022Mint)
    amount
    (addSupportIxs borrow ;;; addBorrowIx).

Definition buildDepositReserveLiquidityTxns (pool : PoolType.t)
    (reserve : ReserveType.t) (connection : Connection.t) (amount : string)
    (wallet : Wallet) (environment : option EnvironmentType)
    (lookupTableAddress : option PublicKey) (token2022Mint : option string) :=
  build
    (fun a =>
       initialize pool reserve mint a wallet connection
         (environment_or_default environment) None None None
         lookupTableAddress None None token2022Mint)
    amount
    (addSupportIxs mint ;;; addDepositReserveLiquidityIx).

Definition buildRedeemReserveCollateralTxns (pool : PoolType.t)
    (reserve : ReserveType.t) (connection : Connection.t) (amount : string)
    (wallet : Wallet) (environment : option EnvironmentType)
    (lookupTableAddress : option PublicKey) (token2022Mint : option string) :=
  build
    (fun a =>
       initialize pool reserve redeem a wallet connection
         (environment_or_default environment) None None None
         lookupTableAddress None None token2022Mint)
    amount
    (addSupportIxs redeem ;;; addRedeemReserveCollateralIx).

Definition buildDepositObligationCollateralTxns (pool : PoolType.t)
    (reserve : ReserveType.t) (connection : Connection.t) (amount : string)
    (wallet : Wallet) (environment : option EnvironmentType)
    (lookupTableAddress customObligationAddress : option PublicKey) :=
  build
    (fun a =>
       initialize pool reserve depositCollateral a wallet connection
         (environment_or_default environment) customObligationAddress None
         None lookupTableAddress None None None)
    amount
    (addSupportIxs depositCollateral ;;; addDepositObligationCollateralIx).

Definition buildWithdrawCollateralTxns (pool : PoolType.t)
    (reserve : ReserveType.t) (connection : Connection.t) (amount : string)
    (wallet : Wallet) (environment : option EnvironmentType)
    (lookupTableAddress customObligationAddress : option PublicKey) :=
  build
    (fun a =>
       initialize pool reserve withdrawCollateral a wallet connection
         (environment_or_default environment) customObligationAddress None
         None lookupTableAddress None None None)
    amount
    (addSupportIxs withdrawCollateral ;;; addWithdrawIx).

Definition buildWithdrawTxns (pool : PoolType.t) (reserve : ReserveType.t)
    (connection : Connection.t) (amount : string) (wallet : Wallet)
    (environment : option EnvironmentType)
    (obligationAddress : option PublicKey) (obligationSeed : option string)
    (lookupTableAddress : option PublicKey) (tipAmount : option Z)
    (token2022Mint : option string) :=
  build
    (fun a =>
       initialize pool reserve withdraw a wallet connection
         (environment_or_default environment) obligationAddress None
         obligationSeed lookupTableAddress tipAmount None token2022Mint)
    amount
    (addSupportIxs withdraw ;;; addWithdrawIx).

Definition buildRepayTxns (pool : PoolType.t) (reserve : ReserveType.t)
    (connection : Connection.t) (amount : string) (wallet : Wallet)
    (environment : option EnvironmentType)
    (customObligationAddress lookupTableAddress : option PublicKey)
    (token2022Mint : option string) :=
  build
    (fun a =>
       initialize pool reserve repay a wallet connection
         (environment_or_default environment) customObligationAddress None
         None lookupTableAddress None None token2022Mint)
    amount
    (addSupportIxs repay ;;; addRepayIx).

Definition buildLiquidateTxns (pool : PoolType.t)
    (repayReserve withdrawReserve : ReserveType.t)
    (connection : Connection.t) (amount : string) (wallet : Wallet)
    (environment : option EnvironmentType)
    (customObligationAddress lookupTableAddress : option PublicKey)
    (tipAmount : option Z) (token2022Mint : option string) :=
  build
    (fun a =>
       initialize pool withdrawReserve liquidate a wallet connection
         (environment_or_default environment) customObligationAddress None
         None lookupTableAddress tipAmount (Some repayReserve) token2022Mint)
    amount
    (addSupportIxs liquidate ;;; addLiquidateIx repayReserve).

End Builder.

End Actions.

(** ** The liquidator: oracle reader and main loop *)

Module Liquidator.
Import Numeric Js.

Definition PublicKey := Actions.PublicKey.

Definition NULL_ORACLE : string :=
  "nu11111111111111111111111111111111111111111".
Definition SWITCHBOARD_V1_ADDRESS : string :=
  "DtmE9D2CSB4L5D6A15mraeEjrGMm6auWVzgaD8hK2tZM".
Definition SWITCHBOARD_V2_ADDRESS : string :=
  "SW1TCH7qEPTdLsDHRgPuMQjbQxKdH2aBStViMFnt64f".

Module LiquidityToken.
Record t := {
  symbol : string;
  mint : string;
  decimals : Z;
}.
End LiquidityToken.

Module MarketConfigReserve.
Record t := {
  liquidityToken : LiquidityToken.t;
  address : string;
  switchboardOracle : string;
}.
End MarketConfigReserve.

Module MarketConfig.
Record t := {
  address : string;
  reserves : list MarketConfigReserve.t;
}.
End MarketConfig.

(** [decimals] and [price] are [BigNumber]s made from a number; they are
    held as that number. *)
Module TokenOracleData.
Record t := {
  symbol : string;
  reserveAddress : string;
  mintAddress : string;
  decimals : number;
  price : number;
}.
End TokenOracleData.

Module Deposit.
Record t := {
  symbol : string;
  marketValue : BigNumber;
}.
End Deposit.

Module Borrow.
Record t := {
  symbol : string;
  mintAddress : string;
  marketValue : BigNumber;
}.
End Borrow.

Module RefreshedObligation.
Record t := {
  borrowedValue : BigNumber;
  unhealthyBorrowValue : BigNumber;
  deposits : list Deposit.t;
  borrows : list Borrow.t;
}.
End RefreshedObligation.

(** A parsed obligation account: [{ pubkey, info }]. *)
Module ParsedObligation.
Record t := {
  pubkey : PublicKey;
  info : Actions.Obligation.t;
}.
End ParsedObligation.

(** [!priceData] for [priceData] a number or [undefined]. *)
Definition falsy (priceData : option number) : bool :=
  match priceData with
  | None => true
  | Some (Num q) => Qeq_bool q 0
  | Some NaN => true
  | Some _ => false
  end.

(** [balanceBase === 0] and [balanceBase < 0] *)
Definition is_zero (n : number) : bool :=
  match n with
  | Num q => Qeq_bool q 0
  | _ => false
  end.

Definition is_negative (n : number) : bool :=
  match n with
  | Num q => negb (Qle_bool 0 q)
  | NegInfinity => true
  | _ => false
  end.

(** [buffer.slice(1)] *)
Definition slice1 (data : string) : string :=
  match data with
  | EmptyString => EmptyString
  | String _ rest => rest
  end.

Section Program.

(** The chain behind the RPC endpoint, the decoded reserves of a market, the
    liquidator's keypair and the Switchboard client are opaque to this
    code. *)
Context {Chain Reserves Account SwitchboardProgram : Type}.

(** What the loop calls outside itself.  A call may throw; only the
    liquidation changes the chain. *)
Record Externals := {
  getAccountInfo :
    PublicKey -> Chain -> Result Error (option Actions.AccountInfo);
  (** [AggregatorState.decodeDelimited(data)?.lastRoundResult?.result] *)
  decodeDelimited_result : string -> Result Error (option number);
  SwitchboardProgram_loadMainnet : Chain -> Result Error SwitchboardProgram;
  (** [program.decodeLatestAggregatorValue(info)?.toNumber()] *)
  decodeLatestAggregatorValue :
    SwitchboardProgram -> Actions.AccountInfo -> Result Error (option number);
  getObligations :
    string -> Chain -> Result Error (list (option ParsedObligation.t));
  getReserves : string -> Chain -> Result Error Reserves;
  calculateRefreshedObligation :
    Actions.Obligation.t -> Reserves -> list TokenOracleData.t ->
    Result Error RefreshedObligation.t;
  sortBorrows : list Borrow.t -> list Borrow.t;
  (** The [balanceBase] of [getWalletTokenData(...)]. *)
  getWalletTokenData :
    MarketConfig.t -> Account -> string -> string -> Chain ->
    Result Error number;
  liquidateAndRedeem :
    Account -> number -> string -> string -> MarketConfig.t ->
    ParsedObligation.t -> Chain -> Result Error unit * Chain;
  parseObligation :
    PublicKey -> option Actions.AccountInfo ->
    Result Error (option ParsedObligation.t);
  (** [process.env.THROTTLE] and [wait(ms)] *)
  THROTTLE : option string;
  wait : string -> Chain -> Chain;
}.

(** A call the loop made: an evaluation of an obligation, or a submitted
    liquidation with the amount it was given. *)
Inductive Call :=
| Evaluate (obligation : ParsedObligation.t)
| LiquidateAndRedeem (amount : number) (repaySymbol withdrawSymbol : string)
    (market : MarketConfig.t) (obligation : ParsedObligation.t).

(** The state the program runs in: the chain, the module variable
    [switchboardV2], the loop variable [obligation], the console, and the
    record of the calls made. *)
Record World := {
  chain : Chain;
  switchboardV2 : option SwitchboardProgram;
  obligation : option ParsedObligation.t;
  console : list string;
  calls : list Call;
}.

(** An exception, or the end of the fuel that bounds the [while] loop. *)
Inductive Signal :=
| Exception (e : Error)
| OutOfFuel.

Definition Run := M Signal World.

Variable X : Externals.

Local Open Scope js_scope.

Definition call {A} (r : Result Error A) : Run A :=
  fun w =>
    match r with
    | Ok a => (Ok a, w)
    | Throw e => (Throw (Exception e), w)
    end.

(** A read of the chain. *)
Definition read {A} (f : Chain -> Result Error A) : Run A :=
  w <- get ;; call (f (chain w)).

Definition console_write (line : string) : Run unit :=
  modify (fun w =>
    {| chain := chain w; switchboardV2 := switchboardV2 w;
       obligation := obligation w; console := console w ++ [line];
       calls := calls w |}).

Definition record (c : Call) : Run unit :=
  modify (fun w =>
    {| chain := chain w; switchboardV2 := switchboardV2 w;
       obligation := obligation w; console := console w;
       calls := calls w ++ [c] |}).

Definition set_obligation (o : option ParsedObligation.t) : Run unit :=
  modify (fun w =>
    {| chain := chain w; switchboardV2 := switchboardV2 w;
       obligation := o; console := console w; calls := calls w |}).

Definition set_switchboardV2 (p : SwitchboardProgram) : Run unit :=
  modify (fun w =>
    {| chain := chain w; switchboardV2 := Some p;
       obligation := obligation w; console := console w;
       calls := calls w |}).

Definition set_chain (c : Chain) : Run unit :=
  modify (fun w =>
    {| chain := c; switchboardV2 := switchboardV2 w;
       obligation := obligation w; console := console w;
       calls := calls w |}).

(** [try { body } catch (err) { handler err }]: exceptions are caught, the
    end of the fuel is not. *)
Definition try_catch {A} (body : Run A) (handler : Error -> Run A) : Run A :=
  fun w =>
    match body w with
    | (Throw (Exception e), w') => handler e w'
    | other => other
    end.

(** *** [getTokenOracleData] *)

(** Lines 25-46: the value of [priceData] after the owner dispatch. *)
Definition readPriceData (reserve : MarketConfigReserve.t)
    : Run (option number) :=
  let pricePublicKey :=
    Actions.new_PublicKey (MarketConfigReserve.switchboardOracle reserve) in
  info <- read (getAccountInfo X pricePublicKey) ;;
  match info with
  | Some i =>
      if String.eqb (Actions.account_owner i) SWITCHBOARD_V1_ADDRESS
      then call (decodeDelimited_result X (slice1 (Actions.account_data i)))
      else if String.eqb (Actions.account_owner i) SWITCHBOARD_V2_ADDRESS
      then
        w <- get ;;
        program <-
          match switchboardV2 w with
          | Some p => ret p
          | None =>
              p <- read (SwitchboardProgram_loadMainnet X) ;;
              set_switchboardV2 p ;;;
              ret p
          end ;;
        call (decodeLatestAggregatorValue X program i)
      else
        console_write
          (String.append "unrecognized switchboard owner address: "
             (Actions.account_owner i)) ;;;
        ret None
  | None =>
      console_write "unrecognized switchboard owner address: undefined" ;;;
      ret None
  end.

Definition failed_price_message (reserve : MarketConfigReserve.t) : string :=
  String.append "failed to get price for "
    (String.append
       (LiquidityToken.symbol (MarketConfigReserve.liquidityToken reserve))
       (String.append " | reserve " (MarketConfigReserve.address reserve))).

Definition getTokenOracleData (reserve : MarketConfigReserve.t)
    : Run TokenOracleData.t :=
  priceData <- readPriceData reserve ;;
  priceData <-
    (if falsy priceData
     then console_write (failed_price_message reserve) ;;; ret (Num 0)
     else ret (match priceData with Some p => p | None => Num 0 end)) ;;
  ret {| TokenOracleData.symbol :=
           LiquidityToken.symbol
             (MarketConfigReserve.liquidityToken reserve);
         TokenOracleData.reserveAddress := MarketConfigReserve.address reserve;
         TokenOracleData.mintAddress :=
           LiquidityToken.mint (MarketConfigReserve.liquidityToken reserve);
         TokenOracleData.decimals :=
           to_double
             (Qpower 10
                (LiquidityToken.decimals
                   (MarketConfigReserve.liquidityToken reserve)));
         TokenOracleData.price := priceData |}.

(** [Promise.all(market.reserves.map(getTokenOracleData))], the reads taken
    one reserve after the other. *)
Fixpoint getTokensOracleData_list (reserves : list MarketConfigReserve.t)
    : Run (list TokenOracleData.t) :=
  match reserves with
  | [] => ret []
  | r :: rest =>
      d <- getTokenOracleData r ;;
      ds <- getTokensOracleData_list rest ;;
      ret (d :: ds)
  end.

Definition getTokensOracleData (market : MarketConfig.t)
    : Run (list TokenOracleData.t) :=
  getTokensOracleData_list (MarketConfig.reserves market).

(** *** [runLiquidator] *)

Section Market.

Variable payer : Account.
Variable market : MarketConfig.t.
Variable tokensOracle : list TokenOracleData.t.
Variable allReserves : Reserves.

(** Lines 68-76: the deposit of greatest market value, the first one among
    equals. *)
Definition selectDeposit (deposits : list Deposit.t) : option Deposit.t :=
  fold_left
    (fun selectedDeposit deposit =>
       match selectedDeposit with
       | None => Some deposit
       | Some s =>
           if gt (Deposit.marketValue deposit) (Deposit.marketValue s)
           then Some deposit
           else selectedDeposit
       end)
    deposits None.

Definition pubkey_toString (o : ParsedObligation.t) : string :=
  Actions.toBase58 (ParsedObligation.pubkey o).

(** How a pass of the [while] body ends: by [break], or at the end of the
    body with the loop variable reassigned. *)
Inductive Pass :=
| Break
| Again.

(** Lines 52-133: one pass of the body of [while (obligation)], on the
    current value of the loop variable.  The console lines are abridged to
    the text that names the obligation. *)
Definition pass (obligation : ParsedObligation.t) : Run Pass :=
  record (Evaluate obligation) ;;;
  refreshed <-
    call (calculateRefreshedObligation X (ParsedObligation.info obligation)
            allReserves tokensOracle) ;;
  let borrowedValue := RefreshedObligation.borrowedValue refreshed in
  let unhealthyBorrowValue :=
    RefreshedObligation.unhealthyBorrowValue refreshed in
  if isLessThanOrEqualTo borrowedValue unhealthyBorrowValue
  then ret Break
  else
    let selectedBorrow :=
      hd_error (sortBorrows X (RefreshedObligation.borrows refreshed)) in
    let selectedDeposit :=
      selectDeposit (RefreshedObligation.deposits refreshed) in
    match selectedBorrow, selectedDeposit with
    | Some selectedBorrow, Some selectedDeposit =>
        console_write
          (String.append "Obligation "
             (String.append (pubkey_toString obligation) " is underwater")) ;;;
        balanceBase <-
          read (getWalletTokenData X market payer
                  (Borrow.mintAddress selectedBorrow)
                  (Borrow.symbol selectedBorrow)) ;;
        if is_zero balanceBase
        then
          console_write
            (String.append "insufficient "
               (String.append (Borrow.symbol selectedBorrow)
                  (String.append " to liquidate obligation "
                     (pubkey_toString obligation)))) ;;;
          ret Break
        else if is_negative balanceBase
        then
          console_write
            (String.append "failed to get wallet balance for "
               (String.append (Borrow.symbol selectedBorrow)
                  (String.append " to liquidate obligation "
                     (pubkey_toString obligation)))) ;;;
          ret Break
        else
          record
            (LiquidateAndRedeem balanceBase (Borrow.symbol selectedBorrow)
               (Deposit.symbol selectedDeposit) market obligation) ;;;
          w <- get ;;
          (let '(r, c) :=
             liquidateAndRedeem X payer balanceBase
               (Borrow.symbol selectedBorrow)
               (Deposit.symbol selectedDeposit) market obligation (chain w) in
           set_chain c ;;; call r) ;;;
          postLiquidationObligation <-
            read (getAccountInfo X
                    (Actions.new_PublicKey
                       (ParsedObligation.pubkey obligation))) ;;
          parsed <-
            call (parseObligation X (ParsedObligation.pubkey obligation)
                    postLiquidationObligation) ;;
          set_obligation parsed ;;;
          ret Again
    | _, _ => ret Break
    end.

(** [while (obligation) { ... }], at most [fuel] passes. *)
Fixpoint while_obligation (fuel : nat) : Run unit :=
  w <- get ;;
  match obligation w with
  | None => ret tt
  | Some o =>
      match fuel with
      | O => throw OutOfFuel
      | S fuel' =>
          p <- pass o ;;
          match p with
          | Break => ret tt
          | Again => while_obligation fuel'
          end
      end
  end.

(** Lines 135-141: the [catch] block, which reads [obligation!.pubkey]. *)
Definition on_error (err : Error) : Run unit :=
  w <- get ;;
  match obligation w with
  | Some o =>
      console_write
        (String.append "error liquidating " (pubkey_toString o))
  | None =>
      throw (Exception
               (mkError "TypeError: Cannot read properties of null"))
  end.

(** Lines 49-142: [for (let obligation of allObligations) { try ... }]. *)
Definition for_obligations (fuel : nat)
    (allObligations : list (option ParsedObligation.t)) : Run unit :=
  for_of allObligations (fun o =>
    set_obligation o ;;;
    try_catch (while_obligation fuel) on_error).

End Market.

(** Lines 45-147: the body of [for (const market of markets)]. *)
Definition scan_market (payer : Account) (fuel : nat)
    (market : MarketConfig.t) : Run unit :=
  tokensOracle <- getTokensOracleData market ;;
  allObligations <- read (getObligations X (MarketConfig.address market)) ;;
  allReserves <- read (getReserves X (MarketConfig.address market)) ;;
  for_obligations payer market tokensOracle allReserves fuel allObligations ;;;
  match THROTTLE X with
  | Some EmptyString | None => ret tt
  | Some ms => w <- get ;; set_chain (wait X ms (chain w))
  end.

(** [for (let epoch = 0; ; epoch += 1)], for [epochs] rounds. *)
Fixpoint run_epochs (payer : Account) (fuel : nat)
    (markets : list MarketConfig.t) (epochs : nat) : Run unit :=
  match epochs with
  | O => throw OutOfFuel
  | S n =>
      for_of markets (scan_market payer fuel) ;;;
      run_epochs payer fuel markets n
  end.

End Program.

Arguments Externals : clear implicits.
Arguments World : clear implicits.
Arguments Run : clear implicits.

End Liquidator.

(** ** Concrete chains and objects the properties are exercised on *)

Module Fixtures.
Import Numeric Js.

Module Sdk.
Import Actions.

Definition SOL_MINT : PublicKey :=
  "So11111111111111111111111111111111111111112".

Definition mkReserve (name mint : string) : ReserveType.t :=
  {| ReserveType.address := name;
     ReserveType.mintAddress := mint;
     ReserveType.cTokenMint := String.append "c" mint;
     ReserveType.liquidityAddress := String.append name "-liquidity";
     ReserveType.cTokenLiquidityAddress := String.append name "-collateral";
     ReserveType.liquidityFeeReceiverAddress := String.append name "-fees";
     ReserveType.feeReceiverAddress := String.append name "-fee-receiver";
     ReserveType.pythOracle := String.append name "-pyth";
     ReserveType.switchboardOracle := String.append name "-switchboard";
     ReserveType.extraOracle := None |}.

Definition reserveA := mkReserve "reserveA" "mintA".
Definition reserveB := mkReserve "reserveB" "mintB".
Definition reserveC := mkReserve "reserveC" "mintC".
Definition reserveD := mkReserve "reserveD" "mintD".
Definition reserveSOL := mkReserve "reserveSOL" SOL_MINT.

Definition main_pool : PoolType.t :=
  {| PoolType.address := "4UpD2fh7xH3VP9QQaXtsS1YY3bxzWhtfpks7FatyKvdY";
     PoolType.owner := "pool-owner";
     PoolType.authorityAddress := "pool-authority";
     PoolType.reserves :=
       [reserveA; reserveB; reserveC; reserveD; reserveSOL] |}.

Definition user : Wallet := {| publicKey := "user" |}.

Definition mkDeposit (r : string) : ObligationCollateral.t :=
  {| ObligationCollateral.depositReserve := r;
     ObligationCollateral.depositedAmount := 1000 |}.

Definition mkBorrow (r : string) (amountWads rateWads : BN)
    : ObligationLiquidity.t :=
  {| ObligationLiquidity.borrowReserve := r;
     ObligationLiquidity.cumulativeBorrowRateWads := rateWads;
     ObligationLiquidity.borrowedAmountWads := amountWads |}.

(** Three deposits and three borrows on the same three reserves. *)
Definition obligation_three_by_three : Obligation.t :=
  {| Obligation.owner := "user";
     Obligation.deposits :=
       [mkDeposit "reserveA"; mkDeposit "reserveB"; mkDeposit "reserveC"];
     Obligation.borrows :=
       [mkBorrow "reserveA" 1 (10 ^ 18); mkBorrow "reserveB" 1 (10 ^ 18);
        mkBorrow "reserveC" 1 (10 ^ 18)] |}.

(** A debt of 1049.999999999999999999 SOL lamports, in WAD. *)
Definition obligation_sol_fraction : Obligation.t :=
  {| Obligation.owner := "user";
     Obligation.deposits := [mkDeposit "reserveA"];
     Obligation.borrows :=
       [mkBorrow "reserveSOL" 1049999999999999999999 (10 ^ 18)] |}.

(** The debt of the sizing example: 1000 in WAD at snapshot rate 1. *)
Definition obligation_sol_example : Obligation.t :=
  {| Obligation.owner := "user";
     Obligation.deposits := [mkDeposit "reserveA"];
     Obligation.borrows :=
       [mkBorrow "reserveSOL" (1000 * 10 ^ 18) (10 ^ 18)] |}.

Definition account (data : string) : AccountInfo :=
  {| account_owner := "So1endDq2YkqhipRh3WViPa8hdiSpxWy6z3Z6tMCpAo";
     account_data := data |}.

(** A chain given by the list of its accounts. *)
Definition chain_of (accounts : list (PublicKey * AccountInfo))
    : Connection.t :=
  {| Connection.getAccountInfo :=
       fun k =>
         option_map snd
           (find (fun entry => String.eqb (fst entry) k) accounts);
     Connection.getMinimumBalanceForRentExemption := fun _ => Num 9938880;
     Connection.getAddressLookupTable := fun _ => None |}.

Definition externals : Externals :=
  {| POSITION_LIMIT := 6;
     NATIVE_MINT := SOL_MINT;
     NULL_ORACLE := "nu11111111111111111111111111111111111111111";
     OBLIGATION_SIZE := 1300;
     TOKEN_2022_PROGRAM_ID := "TokenzQdBNbLqP5VEhdkAS6EPFLC1PHnBqCXEpPxuEb";
     getProgramId := fun _ => "So1endDq2YkqhipRh3WViPa8hdiSpxWy6z3Z6tMCpAo";
     createWithSeed :=
       fun base seed program => String.append base (String.append "/" seed);
     getAssociatedTokenAddress :=
       fun mint owner _ => String.append owner (String.append "/" mint);
     parseObligation :=
       fun info =>
         if String.eqb (account_data info) "three-by-three"
         then Some obligation_three_by_three
         else if String.eqb (account_data info) "sol-fraction"
         then Some obligation_sol_fraction
         else if String.eqb (account_data info) "sol-example"
         then Some obligation_sol_example
         else None;
     parseReserve :=
       fun _ info =>
         if String.eqb (account_data info) "rate-1.00"
         then Some {| Reserve.cumulativeBorrowRateWads := 10 ^ 18 |}
         else if String.eqb (account_data info) "rate-1.05"
         then Some {| Reserve.cumulativeBorrowRateWads := 105 * 10 ^ 16 |}
         else None;
     getMinimumBalanceForRentExemptAccount := fun _ => Num 2039280;
     buildPullPriceTxns := fun _ => ret tt;
     new_BN_of_unsafe_number :=
       fun _ => Throw (mkError "Invalid character");
     new_BN_of_other_string :=
       fun _ => Throw (mkError "Invalid character") |}.

(** An object as [initialize] leaves it, for a reserve, an obligation, an
    amount and a position count, when it is given the obligation address
    ["user-obligation"]. *)
Definition axn (connection : Connection.t) (reserve : ReserveType.t)
    (obligation : option Obligation.t) (amount : BN) (positions : nat)
    (hostAta : option PublicKey)
    (lookupTableAccount : option AddressLookupTableAccount)
    : SolendActionCore :=
  {| programId := "So1endDq2YkqhipRh3WViPa8hdiSpxWy6z3Z6tMCpAo";
     connection := connection;
     reserve := reserve;
     pool := main_pool;
     this_publicKey := "user";
     obligationAddress := "user-obligation";
     obligationAccountInfo := obligation;
     userTokenAccountAddress :=
       getAssociatedTokenAddress externals
         (ReserveType.mintAddress reserve) "user" None;
     userCollateralAccountAddress :=
       getAssociatedTokenAddress externals
         (ReserveType.cTokenMint reserve) "user" None;
     seed := "4UpD2fh7xH3VP9QQaXtsS1YY3bxzWhtf";
     positions := positions;
     amount := amount;
     hostAta := hostAta;
     lendingIxs := [];
     preIxs := [];
     postIxs := [];
     setupIxs := None;
     cleanupIxs := None;
     postTxnIxs := None;
     pullPriceTxns := None;
     depositReserves :=
       match obligation with
       | Some o =>
           map ObligationCollateral.depositReserve (Obligation.deposits o)
       | None => []
       end;
     borrowReserves :=
       match obligation with
       | Some o =>
           map ObligationLiquidity.borrowReserve (Obligation.borrows o)
       | None => []
       end;
     lookupTableAccount := lookupTableAccount;
     jitoTipAmount := 1000;
     wallet := user;
     userRepayTokenAccountAddress := None;
     userRepayCollateralAccountAddress := None;
     token2022Mint := None;
     wrappedAta := None |}.

(** A chain where the user's obligation holds three deposits and three
    borrows on the same reserves. *)
Definition chain_three_by_three : Connection.t :=
  chain_of [("user-obligation", account "three-by-three")].

(** A chain where the user owes a fractional amount of SOL and the reserve
    rate has not moved since the snapshot. *)
Definition chain_sol_fraction : Connection.t :=
  chain_of [("user-obligation", account "sol-fraction");
            ("reserveSOL", account "rate-1.00")].

(** The chain of the sizing example: rate 1.05 against a snapshot of 1. *)
Definition chain_sol_example : Connection.t :=
  chain_of [("user-obligation", account "sol-example");
            ("reserveSOL", account "rate-1.05")].

(** A chain with none of the user's token accounts. *)
Definition chain_empty : Connection.t := chain_of [].

(** A chain with the user's token and collateral accounts for reserve A. *)
Definition chain_with_accounts : Connection.t :=
  chain_of [("user/mintA", account "token"); ("user/cmintA", account "token")].

(** A chain with the user's obligation, three deposits and three borrows on
    the same reserves, and the user's token and collateral accounts for
    reserve A. *)
Definition chain_ready : Connection.t :=
  chain_of [("user-obligation", account "three-by-three");
            ("user/mintA", account "token");
            ("user/cmintA", account "token")].

End Sdk.

Module Bot.
Import Liquidator.

(** The chain is the number of liquidations it has settled; the other
    opaque values carry nothing. *)
Definition Chain := nat.

Definition X0 := Externals Chain unit unit unit.

Definition usdc_reserve : MarketConfigReserve.t :=
  {| MarketConfigReserve.liquidityToken :=
       {| LiquidityToken.symbol := "USDC";
          LiquidityToken.mint := "mintUSDC";
          LiquidityToken.decimals := 6 |};
     MarketConfigReserve.address := "reserveUSDC";
     MarketConfigReserve.switchboardOracle := "oracle-usdc" |}.

Definition sol_reserve : MarketConfigReserve.t :=
  {| MarketConfigReserve.liquidityToken :=
       {| LiquidityToken.symbol := "SOL";
          LiquidityToken.mint := "mintSOL";
          LiquidityToken.decimals := 9 |};
     MarketConfigReserve.address := "reserveSOL";
     MarketConfigReserve.switchboardOracle := "oracle-sol" |}.

Definition market : MarketConfig.t :=
  {| MarketConfig.address := "main-market";
     MarketConfig.reserves := [usdc_reserve; sol_reserve] |}.

(** An obligation is told apart by its owner. *)
Definition mkObligation (key owner : string) : ParsedObligation.t :=
  {| ParsedObligation.pubkey := key;
     ParsedObligation.info :=
       {| Actions.Obligation.owner := owner;
          Actions.Obligation.deposits := [];
          Actions.Obligation.borrows := [] |} |}.

Definition unreadable := mkObligation "obligation-1" "unreadable".
Definition underwater := mkObligation "obligation-2" "underwater".
Definition solvent := mkObligation "obligation-3" "healthy".

Definition underwater_values : RefreshedObligation.t :=
  {| RefreshedObligation.borrowedValue := Finite (inject_Z 110);
     RefreshedObligation.unhealthyBorrowValue := Finite (inject_Z 80);
     RefreshedObligation.deposits :=
       [{| Deposit.symbol := "BTC";
           Deposit.marketValue := Finite (inject_Z 10) |};
        {| Deposit.symbol := "SOL";
           Deposit.marketValue := Finite (inject_Z 50) |};
        {| Deposit.symbol := "ETH";
           Deposit.marketValue := Finite (inject_Z 5) |}];
     RefreshedObligation.borrows :=
       [{| Borrow.symbol := "USDT"; Borrow.mintAddress := "mintUSDT";
           Borrow.marketValue := Finite (inject_Z 30) |};
        {| Borrow.symbol := "USDC"; Borrow.mintAddress := "mintUSDC";
           Borrow.marketValue := Finite (inject_Z 80) |}] |}.

Definition healthy_values : RefreshedObligation.t :=
  {| RefreshedObligation.borrowedValue := Finite (inject_Z 60);
     RefreshedObligation.unhealthyBorrowValue := Finite (inject_Z 80);
     RefreshedObligation.deposits :=
       RefreshedObligation.deposits underwater_values;
     RefreshedObligation.borrows :=
       RefreshedObligation.borrows underwater_values |}.

(** Borrows by decreasing market value. *)
Fixpoint insert_borrow (b : Borrow.t) (l : list Borrow.t) : list Borrow.t :=
  match l with
  | [] => [b]
  | x :: rest =>
      if gt (Borrow.marketValue b) (Borrow.marketValue x)
      then b :: l
      else x :: insert_borrow b rest
  end.

Definition sort_borrows (l : list Borrow.t) : list Borrow.t :=
  fold_right insert_borrow [] l.

Definition SYSTEM_PROGRAM : string := "11111111111111111111111111111111".

(** The liquidator holds 5 base units of every token; one liquidation
    restores the health of the obligation it is applied to; the SOL oracle
    account is owned by neither Switchboard program. *)
Definition externals : X0 :=
  {| getAccountInfo :=
       fun key settled =>
         if String.eqb key "oracle-usdc"
         then Ok (Some {| Actions.account_owner := SWITCHBOARD_V2_ADDRESS;
                          Actions.account_data := "feed" |})
         else if String.eqb key "oracle-sol"
         then Ok (Some {| Actions.account_owner := SYSTEM_PROGRAM;
                          Actions.account_data := "" |})
         else if String.eqb key "obligation-2"
         then Ok (Some {| Actions.account_owner := "program";
                          Actions.account_data :=
                            match settled with
                            | O => "underwater"
                            | S _ => "healthy"
                            end |})
         else Ok None;
     decodeDelimited_result := fun _ => Ok None;
     SwitchboardProgram_loadMainnet := fun _ => Ok tt;
     decodeLatestAggregatorValue := fun _ _ => Ok (Some (Num 1));
     getObligations :=
       fun _ _ => Ok [Some unreadable; Some underwater; Some solvent];
     getReserves := fun _ _ => Ok tt;
     calculateRefreshedObligation :=
       fun info _ _ =>
         if String.eqb (Actions.Obligation.owner info) "unreadable"
         then Throw (mkError "StateReadError")
         else if String.eqb (Actions.Obligation.owner info) "underwater"
         then Ok underwater_values
         else Ok healthy_values;
     sortBorrows := sort_borrows;
     getWalletTokenData := fun _ _ _ _ _ => Ok (Num 5);
     liquidateAndRedeem := fun _ _ _ _ _ _ settled => (Ok tt, S settled);
     parseObligation :=
       fun key info =>
         match info with
         | Some i => Ok (Some (mkObligation key (Actions.account_data i)))
         | None => Throw (mkError "TypeError: Cannot read properties of null")
         end;
     THROTTLE := None;
     wait := fun _ settled => settled |}.

Definition World0 := World Chain unit.

Definition start : World0 :=
  {| chain := 0%nat;
     switchboardV2 := None;
     obligation := None;
     console := [];
     calls := [] |}.

(** The start, the loop variable set to an obligation. *)
Definition at_obligation (o : ParsedObligation.t) : World0 :=
  {| chain := 0%nat;
     switchboardV2 := None;
     obligation := Some o;
     console := [];
     calls := [] |}.

End Bot.

End Fixtures.

(** ** The vocabulary of the properties *)

Module Spec.
Import Numeric Js.

Module Sdk.
Import Actions.

(** The position count of an obligation for an action on a reserve: its
    distinct borrow reserves, with the reserve when the action borrows it,
    plus its distinct deposit reserves, with the reserve when the action
    deposits it. *)
Definition position_count (action : ActionType) (reserve : ReserveType.t)
    (depositReserves borrowReserves : list PublicKey) : nat :=
  (List.length
     (nodup string_dec
        (borrowReserves
         ++ (if ActionType_eqb action borrow
             then [ReserveType.address reserve] else [])))
   + List.length
       (nodup string_dec
          (depositReserves
           ++ (if ActionType_eqb action deposit
               then [ReserveType.address reserve] else []))))%nat.

(** The number of distinct reserves among the deposits, the borrows and the
    reserve of the action. *)
Definition distinct_reserves (reserve : ReserveType.t)
    (depositReserves borrowReserves : list PublicKey) : nat :=
  List.length
    (nodup string_dec
       (depositReserves ++ borrowReserves ++ [ReserveType.address reserve])).

(** No instruction in any bucket: the buckets the constructor makes are
    empty, the others do not exist. *)
Definition no_instructions (t : SolendActionCore) : Prop :=
  buckets t = (None, [], [], [], None, None, None).

(** The object with its lending bucket, its pre bucket or its setup bucket
    replaced, every other field as it is. *)
Definition set_lendingIxs (l : list BucketEntry) (t : SolendActionCore)
    : SolendActionCore :=
  {| programId := programId t; connection := connection t;
     reserve := reserve t; pool := pool t;
     this_publicKey := this_publicKey t;
     obligationAddress := obligationAddress t;
     obligationAccountInfo := obligationAccountInfo t;
     userTokenAccountAddress := userTokenAccountAddress t;
     userCollateralAccountAddress := userCollateralAccountAddress t;
     seed := seed t; positions := positions t; amount := amount t;
     hostAta := hostAta t;
     lendingIxs := l; preIxs := preIxs t; postIxs := postIxs t;
     setupIxs := setupIxs t; cleanupIxs := cleanupIxs t;
     postTxnIxs := postTxnIxs t; pullPriceTxns := pullPriceTxns t;
     depositReserves := depositReserves t;
     borrowReserves := borrowReserves t;
     lookupTableAccount := lookupTableAccount t;
     jitoTipAmount := jitoTipAmount t; wallet := wallet t;
     userRepayTokenAccountAddress := userRepayTokenAccountAddress t;
     userRepayCollateralAccountAddress := userRepayCollateralAccountAddress t;
     token2022Mint := token2022Mint t; wrappedAta := wrappedAta t |}.

Definition set_preIxs (l : list BucketEntry) (t : SolendActionCore)
    : SolendActionCore :=
  {| programId := programId t; connection := connection t;
     reserve := reserve t; pool := pool t;
     this_publicKey := this_publicKey t;
     obligationAddress := obligationAddress t;
     obligationAccountInfo := obligationAccountInfo t;
     userTokenAccountAddress := userTokenAccountAddress t;
     userCollateralAccountAddress := userCollateralAccountAddress t;
     seed := seed t; positions := positions t; amount := amount t;
     hostAta := hostAta t;
     lendingIxs := lendingIxs t; preIxs := l; postIxs := postIxs t;
     setupIxs := setupIxs t; cleanupIxs := cleanupIxs t;
     postTxnIxs := postTxnIxs t; pullPriceTxns := pullPriceTxns t;
     depositReserves := depositReserves t;
     borrowReserves := borrowReserves t;
     lookupTableAccount := lookupTableAccount t;
     jitoTipAmount := jitoTipAmount t; wallet := wallet t;
     userRepayTokenAccountAddress := userRepayTokenAccountAddress t;
     userRepayCollateralAccountAddress := userRepayCollateralAccountAddress t;
     token2022Mint := token2022Mint t; wrappedAta := wrappedAta t |}.

Definition set_setupIxs (l : list BucketEntry) (t : SolendActionCore)
    : SolendActionCore :=
  {| programId := programId t; connection := connection t;
     reserve := reserve t; pool := pool t;
     this_publicKey := this_publicKey t;
     obligationAddress := obligationAddress t;
     obligationAccountInfo := obligationAccountInfo t;
     userTokenAccountAddress := userTokenAccountAddress t;
     userCollateralAccountAddress := userCollateralAccountAddress t;
     seed := seed t; positions := positions t; amount := amount t;
     hostAta := hostAta t;
     lendingIxs := lendingIxs t; preIxs := preIxs t; postIxs := postIxs t;
     setupIxs := Some l; cleanupIxs := cleanupIxs t;
     postTxnIxs := postTxnIxs t; pullPriceTxns := pullPriceTxns t;
     depositReserves := depositReserves t;
     borrowReserves := borrowReserves t;
     lookupTableAccount := lookupTableAccount t;
     jitoTipAmount := jitoTipAmount t; wallet := wallet t;
     userRepayTokenAccountAddress := userRepayTokenAccountAddress t;
     userRepayCollateralAccountAddress := userRepayCollateralAccountAddress t;
     token2022Mint := token2022Mint t; wrappedAta := wrappedAta t |}.

(** A bucket has been made: it is an array, not [undefined]. *)
Definition made {A} (bucket : option A) : bool :=
  match bucket with
  | Some _ => true
  | None => false
  end.

(** A computation that leaves a part [f] of the object as it is, whether
    it returns or throws. *)
Definition retains {T A} (f : SolendActionCore -> T) (c : Act A) : Prop :=
  forall t, f (snd (c t)) = f t.


Definition SENTINEL : BN := 18446744073709551615.




(** The obligation is at the Position Limit, a host referral account is
    set and the object holds no lookup table. *)
Definition full_host_no_lookup (X : Externals) (t : SolendActionCore)
    : Prop :=
  positions t = POSITION_LIMIT X
  /\ hostAta t <> None
  /\ lookupTableAccount t = None.

(** The creation instructions of [addAtaIxs] and [addCAtaIxs]. *)
Definition createUserTokenAccountIx (t : SolendActionCore)
    : TransactionInstruction :=
  createAssociatedTokenAccountInstruction
    [this_publicKey t;
     userTokenAccountAddress t;
     this_publicKey t;
     new_PublicKey (ReserveType.mintAddress (reserve t))].

Definition createUserCollateralAccountIx (t : SolendActionCore)
    : TransactionInstruction :=
  createAssociatedTokenAccountInstruction
    [this_publicKey t;
     userCollateralAccountAddress t;
     this_publicKey t;
     new_PublicKey (ReserveType.cTokenMint (reserve t))].

(** The account a capability would create is already there. *)
Definition target_exists (s : SupportType) (t : SolendActionCore) : Prop :=
  match s with
  | createObligation => obligationAccountInfo t <> None
  | ata =>
      Connection.getAccountInfo (connection t) (userTokenAccountAddress t)
      <> None
  | cAta =>
      Connection.getAccountInfo (connection t)
        (userCollateralAccountAddress t)
      <> None
  | _ => False
  end.

Definition is_creation (e : BucketEntry) : bool :=
  match e with
  | Bare (createAssociatedTokenAccountInstruction _)
  | Bare (SystemProgram_createAccountWithSeed _ _ _ _ _ _ _) => true
  | _ => false
  end.

(** The padding of a full repay, and the amount the sizing rule names:
    [floor(B * r1 / r0 / WAD) + P]. *)
Definition PADDING : Z := 1000000.

Definition WAD_SCALE : Z := 10 ^ 18.

Definition floor_sizing (B r1 r0 : BN) : Z :=
  B * r1 / (r0 * WAD_SCALE) + PADDING.

(** The value the code rounds to a binary64 before it takes the floor: the
    quotient, rounded to 20 decimals at each division, plus the padding. *)
Definition sizing_value (B r1 r0 : BN) : Q :=
  (round_dp
     (round_dp (inject_Z B * inject_Z r1 / inject_Z r0) / inject_Z (10 ^ 18))
   + inject_Z 1000000)%Q.

End Sdk.

Module Bot.
Import Liquidator.

Section Health.

Context {Chain Reserves Account SwitchboardProgram : Type}.
Variable X : Externals Chain Reserves Account SwitchboardProgram.
Variable payer : Account.
Variable market : MarketConfig.t.
Variable tokensOracle : list TokenOracleData.t.
Variable allReserves : Reserves.

(** The evaluation of an obligation finds it healthy:
    [borrowedValue <= unhealthyBorrowValue]. *)
Definition healthy (o : ParsedObligation.t) : bool :=
  match calculateRefreshedObligation X (ParsedObligation.info o)
          allReserves tokensOracle with
  | Ok refreshed =>
      isLessThanOrEqualTo
        (RefreshedObligation.borrowedValue refreshed)
        (RefreshedObligation.unhealthyBorrowValue refreshed)
  | Throw _ => false
  end.

(** A liquidation is submitted only for an obligation that evaluates as
    not healthy. *)
Definition justified (c : Call) : Prop :=
  match c with
  | Evaluate _ => True
  | LiquidateAndRedeem _ _ _ _ o => healthy o = false
  end.

(** The amount of a liquidation is a wallet balance the liquidator read. *)
Definition amount_is_balance (c : Call) : Prop :=
  match c with
  | Evaluate _ => True
  | LiquidateAndRedeem amount _ _ _ _ =>
      exists mint symbol chain,
        getWalletTokenData X market payer mint symbol chain = Ok amount
  end.

End Health.

(** A computation only appends calls, each satisfying [P]. *)
Definition appends {Chain SwitchboardProgram A : Type} (P : Call -> Prop)
    (c : Run Chain SwitchboardProgram A) : Prop :=
  forall w,
    exists new, calls (snd (c w)) = calls w ++ new /\ Forall P new.




(** The world after an obligation was evaluated and found healthy. *)
Definition after_healthy {Chain SwitchboardProgram : Type}
    (w : World Chain SwitchboardProgram) (o : ParsedObligation.t)
    : World Chain SwitchboardProgram :=
  {| chain := chain w;
     switchboardV2 := switchboardV2 w;
     obligation := obligation w;
     console := console w;
     calls := calls w ++ [Evaluate o] |}.

(** The data returned for a reserve whose price did not resolve. *)
Definition zero_price_data (reserve : MarketConfigReserve.t)
    : TokenOracleData.t :=
  {| TokenOracleData.symbol :=
       LiquidityToken.symbol (MarketConfigReserve.liquidityToken reserve);
     TokenOracleData.reserveAddress := MarketConfigReserve.address reserve;
     TokenOracleData.mintAddress :=
       LiquidityToken.mint (MarketConfigReserve.liquidityToken reserve);
     TokenOracleData.decimals :=
       to_double
         (Qpower 10
            (LiquidityToken.decimals
               (MarketConfigReserve.liquidityToken reserve)));
     TokenOracleData.price := Num 0 |}.

Definition logged {Chain SwitchboardProgram : Type}
    (w : World Chain SwitchboardProgram) (line : string)
    : World Chain SwitchboardProgram :=
  {| chain := chain w;
     switchboardV2 := switchboardV2 w;
     obligation := obligation w;
     console := console w ++ [line];
     calls := calls w |}.

End Bot.

End Spec.

(** ** More of the code: hexadecimal ids, the price refresh, the secret
    reader *)

Module NumericMore.
Import Numeric.

(** An integer the runtime hands over as a number, and [Number(s)] for the
    decimal digits [s] of an integer: the nearest binary64. *)
Definition number_of_Z (z : Z) : number := to_double (inject_Z z).

(** [a - b], [a / b] and [a > b] on numbers. *)
Definition number_sub (a b : number) : number :=
  number_add a (number_neg b).

Definition number_div (a b : number) : number :=
  match a, b with
  | NaN, _ | _, NaN => NaN
  | Num x, Num y =>
      if Qeq_bool y 0
      then match (x ?= 0)%Q with
           | Eq => NaN
           | Gt => PosInfinity
           | Lt => NegInfinity
           end
      else to_double (x / y)
  | Num _, _ => Num 0
  | _, Num y => if Qle_bool 0 y then a else number_neg a
  | _, _ => NaN
  end.

Definition number_gt (a b : number) : bool :=
  match a, b with
  | NaN, _ | _, NaN => false
  | Num x, Num y => negb (Qle_bool x y)
  | PosInfinity, PosInfinity => false
  | PosInfinity, _ => true
  | NegInfinity, _ => false
  | Num _, NegInfinity => true
  | Num _, PosInfinity => false
  end.

(** [Math.ceil(n)] *)
Definition Math_ceil (n : number) : number :=
  match n with
  | Num q => Num (inject_Z (Qceiling q))
  | other => other
  end.

(** [Math.max(...ns)]: minus infinity for no argument, [NaN] as soon as an
    argument is. *)
Definition number_max (a b : number) : number :=
  match a, b with
  | NaN, _ | _, NaN => NaN
  | _, _ => if number_gt b a then b else a
  end.

Definition Math_max (ns : list number) : number :=
  fold_left number_max ns NegInfinity.

End NumericMore.

(** *** [toHexString] *)

Module Hex.
Import Ascii.

(** [n.toString(16)] for a non-negative integer: lower-case digits, ["0"]
    for zero. *)
Definition toString16 (n : N) : string :=
  HexadecimalString.NilZero.string_of_uint (N.to_hex_uint n).

(** [s.padStart(targetLength, "0")] *)
Fixpoint zeros (n : nat) : string :=
  match n with
  | O => EmptyString
  | S k => String "0"%char (zeros k)
  end.

Definition padStart0 (targetLength : nat) (s : string) : string :=
  String.append (zeros (targetLength - String.length s)) s.

(** Lines 110-117. *)
Definition toHexString (byteArray : list N) : string :=
  String.append "0x"
    (String.concat ""
       (map (fun byte => padStart0 2 (toString16 byte)) byteArray)).

End Hex.

(** *** [buildPullPriceTxns] *)

Module PullPrice.
Import Numeric NumericMore Js Actions.

(** What [loadData] gives for a Switchboard feed and the decoded
    [priceUpdateV2] account of Pyth, as far as they are read:
    [minSampleSize] is an integer field of the feed, [publishTime] a [BN],
    [feedId] an array of bytes. *)
Record PullFeedData := {
  minSampleSize : Z;
}.

Record PriceUpdateV2 := {
  publishTime : BN;
  feedId : list N;
}.

(** An element of what [buildVersionedTransactions] returns. *)
Record TransactionWithSigners := {
  tx : VersionedTransaction;
  tx_signers : option (list PublicKey);
}.

(** The Switchboard and Pyth clients, the clock and the random source.
    [Date_now i] and [Math_random i] are the values read while the [i]-th
    Pyth account is mapped. *)
Record Clients := {
  (** [new Program((await Program.fetchIdl(SB_ON_DEMAND_PID, provider))!,
      provider).programId] *)
  sbod_programId : Result Error PublicKey;
  (** [Promise.all(feedAccounts.map((acc) => acc.loadData()))] *)
  loadData_all : list PublicKey -> Result Error (list PullFeedData);
  (** The instruction of [PullFeed.fetchUpdateManyIx]. *)
  fetchUpdateManyIx :
    list PublicKey -> number -> Result Error TransactionInstruction;
  loadLookupTables : list PublicKey -> Result Error unit;
  getLatestBlockhashAndContext : Result Error unit;
  compileToV0Message :
    PublicKey -> list TransactionInstruction -> Result Error unit;
  (** [pythSolanaReceiver.receiver.programId] *)
  receiver_programId : PublicKey;
  (** [coder.accounts.decode("priceUpdateV2", data).priceMessage] *)
  decode_priceUpdateV2 : string -> Result Error PriceUpdateV2;
  Date_now : nat -> Z;
  Math_random : nat -> Q;
  getLatestVaas : list string -> Result Error (list string);
  (** [addUpdatePriceFeed(data, 0)] followed by
      [buildVersionedTransactions({ tightComputeBudget: true,
      jitoTipLamports })] *)
  buildVersionedTransactions :
    list string -> option Z -> Result Error (list TransactionWithSigners);
  (** [tx.sign(signers)], which leaves [tx] signed. *)
  sign : VersionedTransaction -> list PublicKey ->
         Result Error VersionedTransaction;
}.

(** [this.pullPriceTxns.push(tx)], on a property the constructor did not
    make. *)
Definition push_pullPriceTxns (txs : list VersionedTransaction)
    : M Error SolendActionCore unit :=
  fun t =>
    match pullPriceTxns t with
    | None => (Throw undefined_push, t)
    | Some l =>
        (Ok tt,
         {| programId := programId t; connection := connection t;
            reserve := reserve t; pool := pool t;
            this_publicKey := this_publicKey t;
            obligationAddress := obligationAddress t;
            obligationAccountInfo := obligationAccountInfo t;
            userTokenAccountAddress := userTokenAccountAddress t;
            userCollateralAccountAddress := userCollateralAccountAddress t;
            seed := seed t; positions := positions t; amount := amount t;
            hostAta := hostAta t;
            lendingIxs := lendingIxs t; preIxs := preIxs t;
            postIxs := postIxs t;
            setupIxs := setupIxs t; cleanupIxs := cleanupIxs t;
            postTxnIxs := postTxnIxs t;
            pullPriceTxns := Some (l ++ txs);
            depositReserves := depositReserves t;
            borrowReserves := borrowReserves t;
            lookupTableAccount := lookupTableAccount t;
            jitoTipAmount := jitoTipAmount t; wallet := wallet t;
            userRepayTokenAccountAddress := userRepayTokenAccountAddress t;
            userRepayCollateralAccountAddress :=
              userRepayCollateralAccountAddress t;
            token2022Mint := token2022Mint t; wrappedAta := wrappedAta t |})
    end.

(** [xs.sort((a, b) => a.key - b.key)]: the sort is stable, so its result
    is the one of an insertion that keeps equal keys in their order. *)
Fixpoint insert_by_key (x : Q * string) (l : list (Q * string))
    : list (Q * string) :=
  match l with
  | [] => [x]
  | y :: rest =>
      if Qle_bool (fst x) (fst y)
      then x :: l
      else y :: insert_by_key x rest
  end.

Definition sort_by_key (l : list (Q * string)) : list (Q * string) :=
  fold_right insert_by_key [] l.

Section Builder.

Variable C : Clients.

Local Open Scope js_scope.

(** [o?.owner.toBase58() === program.toBase58()] *)
Definition owned_by (program : PublicKey) (o : option AccountInfo) : bool :=
  match o with
  | Some info => String.eqb (toBase58 (account_owner info)) (toBase58 program)
  | None => false
  end.

(** [f.minSampleSize + Math.ceil(f.minSampleSize / 3)] *)
Definition signatures_for (f : PullFeedData) : number :=
  number_add (number_of_Z (minSampleSize f))
    (Math_ceil (number_div (number_of_Z (minSampleSize f)) (Num 3))).

(** Lines 1078-1083. *)
Definition numSignatures (loadedFeedAccounts : list PullFeedData) : number :=
  Math_max (map signatures_for loadedFeedAccounts ++ [Num 1]).

(** [Date.now() / 1000 - Number(publishTime.toString()) > 30] *)
Definition needUpdate (now : Z) (priceUpdate : PriceUpdateV2) : bool :=
  number_gt
    (number_sub (number_div (number_of_Z now) (Num 1000))
       (number_of_Z (publishTime priceUpdate)))
    (Num 30).

(** Lines 1127-1149: the [map] over the Pyth accounts, from index [index]
    on, and the [filter(Boolean)] that drops the [undefined] of a fresh
    price.  The accounts are there: [pythPulledOracles] holds none that is
    [null]. *)
Fixpoint stale_feeds (index : nat) (pythPulledOracles : list AccountInfo)
    : Result Error (list (Q * string)) :=
  match pythPulledOracles with
  | [] => Ok []
  | pythOracleData :: rest =>
      match decode_priceUpdateV2 C (account_data pythOracleData) with
      | Throw e => Throw e
      | Ok priceUpdate =>
          let entry :=
            if needUpdate (Date_now C index) priceUpdate
            then [(Math_random C index,
                   Hex.toHexString (feedId priceUpdate))]
            else [] in
          match stale_feeds (S index) rest with
          | Throw e => Throw e
          | Ok entries => Ok (entry ++ entries)
          end
      end
  end.

(** [accounts.filter((o) => o?.owner.toBase58() === program)]: the accounts
    that are there and owned by the program. *)
Fixpoint present_owned_by (program : PublicKey)
    (accounts : list (option AccountInfo)) : list AccountInfo :=
  match accounts with
  | [] => []
  | Some info :: rest =>
      if owned_by program (Some info)
      then info :: present_owned_by program rest
      else present_owned_by program rest
  | None :: rest => present_owned_by program rest
  end.

(** Lines 1071-1120: the Switchboard update. *)
Definition updateSwitchboard (sbPulledOracles : list string) : Act unit :=
  match sbPulledOracles with
  | [] => ret tt
  | _ =>
      let feeds := map new_PublicKey sbPulledOracles in
      loadedFeedAccounts <- lift (loadData_all C feeds) ;;
      ix <- lift (fetchUpdateManyIx C feeds
                    (numSignatures loadedFeedAccounts)) ;;
      lift (loadLookupTables C feeds) ;;;
      let instructions :=
        [ComputeBudgetProgram_setComputeUnitPrice 1000000;
         ComputeBudgetProgram_setComputeUnitLimit 1000000;
         ix] in
      lift (getLatestBlockhashAndContext C) ;;;
      this <- get ;;
      lift (compileToV0Message C (this_publicKey this) instructions) ;;;
      modify (push_preIxs (map (WithSigners []) instructions))
  end.

(** Lines 1158-1184: the Pyth update transactions. *)
Definition updatePyth (sbPulledOracles shuffledPriceIds : list string)
    : Act unit :=
  match shuffledPriceIds with
  | [] => ret tt
  | _ =>
      this <- get ;;
      priceFeedUpdateData <- lift (getLatestVaas C shuffledPriceIds) ;;
      transactionsWithSigners <-
        lift (buildVersionedTransactions C priceFeedUpdateData
                (match sbPulledOracles with
                 | [] => Some (jitoTipAmount this)
                 | _ => None
                 end)) ;;
      for_of transactionsWithSigners (fun transaction =>
        signed <-
          lift (match tx_signers transaction with
                | Some signers => sign C (tx transaction) signers
                | None => Ok (tx transaction)
                end) ;;
        push_pullPriceTxns [signed])
  end.

(** Lines 1046-1185. *)
Definition buildPullPriceTxns (oracleKeys : list string) : Act unit :=
  this <- get ;;
  let oracleAccounts :=
    map (fun o => Connection.getAccountInfo (connection this)
                    (new_PublicKey o))
      oracleKeys in
  sbod <- lift (sbod_programId C) ;;
  let sbPulledOracles :=
    map fst
      (filter (fun entry => owned_by sbod (snd entry))
         (combine oracleKeys oracleAccounts)) in
  updateSwitchboard sbPulledOracles ;;;
  let pythPulledOracles :=
    present_owned_by (receiver_programId C) oracleAccounts in
  stale <- lift (stale_feeds 0 pythPulledOracles) ;;
  let shuffledPriceIds := map snd (sort_by_key stale) in
  updatePyth sbPulledOracles shuffledPriceIds.

End Builder.

(** The externals of the builder, the price refresh being the method
    above. *)
Definition with_clients (C : Clients) (X : Externals) : Externals :=
  {| POSITION_LIMIT := POSITION_LIMIT X;
     NATIVE_MINT := NATIVE_MINT X;
     NULL_ORACLE := NULL_ORACLE X;
     OBLIGATION_SIZE := OBLIGATION_SIZE X;
     TOKEN_2022_PROGRAM_ID := TOKEN_2022_PROGRAM_ID X;
     getProgramId := getProgramId X;
     createWithSeed := createWithSeed X;
     getAssociatedTokenAddress := getAssociatedTokenAddress X;
     parseObligation := parseObligation X;
     parseReserve := parseReserve X;
     getMinimumBalanceForRentExemptAccount :=
       getMinimumBalanceForRentExemptAccount X;
     Actions.buildPullPriceTxns := buildPullPriceTxns C;
     new_BN_of_unsafe_number := new_BN_of_unsafe_number X;
     new_BN_of_other_string := new_BN_of_other_string X |}.

End PullPrice.

(** *** [readSecret] *)

Module Secret.
Import Numeric Js.

(** A parsed JSON value; an object holds each of its keys once. *)
#[local] Unset Elimination Schemes.
Inductive Json :=
| JNull
| JBool (b : bool)
| JNumber (n : number)
| JString (s : string)
| JArray (items : list Json)
| JObject (fields : list (string * Json)).
#[local] Set Elimination Schemes.

(** A thrown error object: [err.code], which the errors of the file system
    carry, and the text of [`${err}`]. *)
Record ErrorObject := {
  code : option string;
  text : string;
}.

Inductive Level :=
| error
| debug.

Definition Console := list (Level * string).

(** The process the function runs in. *)
Record Host := {
  SECRET_PATH : option string;
  readFileSync : string -> Result ErrorObject string;
  JSON_parse : string -> Result ErrorObject Json;
}.

Definition Io := M ErrorObject Console.

Definition console_write (level : Level) (line : string) : Io unit :=
  modify (fun c => c ++ [(level, line)]).

Definition try_catch {A} (body : Io A) (handler : ErrorObject -> Io A)
    : Io A :=
  fun c =>
    match body c with
    | (Throw e, c') => handler e c'
    | other => other
    end.

(** [json.privKey]: a [TypeError] on [null], the field of an object,
    [undefined] ([None]) on anything else. *)
Definition privKey (json : Json) : Result ErrorObject (option Json) :=
  match json with
  | JNull =>
      Throw
        {| code := None;
           text :=
             "TypeError: Cannot read properties of null (reading 'privKey')" |}
  | JObject fields =>
      Ok (option_map snd
            (find (fun field => String.eqb (fst field) "privKey") fields))
  | _ => Ok None
  end.

(** [process.env.SECRET_PATH || `/run/secrets/${secretName}`] *)
Definition secret_path (H : Host) (secretName : string) : string :=
  match SECRET_PATH H with
  | Some EmptyString | None => String.append "/run/secrets/" secretName
  | Some p => p
  end.

Local Open Scope js_scope.

Definition readSecret (H : Host) (secretName : string)
    : Io (option Json) :=
  let path := secret_path H secretName in
  try_catch
    (str <- lift (readFileSync H path) ;;
     json <- lift (JSON_parse H str) ;;
     lift (privKey json))
    (fun err =>
       (if match code err with
           | Some c => negb (String.eqb c "ENOENT")
           | None => true
           end
        then
          console_write error
            (String.append
               "An error occurred while trying to read the secret path: "
               (String.append path
                  (String.append ". Err: " (text err))))
        else
          console_write debug
            (String.append "Could not find the secret,: "
               (String.append secretName
                  (String.append ". Err: " (text err))))) ;;;
       ret (Some (JString ""))).

End Secret.

(** ** More vocabulary *)

Module SpecMore.
Import Numeric Js.

Module Hex.
Import Ascii.

(** Reading an id back: two hexadecimal digits a byte, after ["0x"]. *)
Definition byte_of_digits (hi lo : ascii) : option N :=
  option_map N.of_hex_uint
    (HexadecimalString.NilZero.uint_of_string
       (String hi (String lo EmptyString))).

Fixpoint bytes_of_digits (s : string) : option (list N) :=
  match s with
  | EmptyString => Some []
  | String hi (String lo rest) =>
      match byte_of_digits hi lo, bytes_of_digits rest with
      | Some b, Some bs => Some (b :: bs)
      | _, _ => None
      end
  | String _ EmptyString => None
  end.

Definition fromHexString (s : string) : option (list N) :=
  match s with
  | String "0" (String "x" digits) => bytes_of_digits digits
  | _ => None
  end.

(** The two digits of a byte are read back as the byte. *)
Definition reads_back (b : N) : bool :=
  match Hex.padStart0 2 (Hex.toString16 b) with
  | String hi (String lo EmptyString) =>
      match byte_of_digits hi lo with
      | Some b' => N.eqb b' b
      | None => false
      end
  | _ => false
  end.

End Hex.

Module Sdk.
Import Actions Spec.Sdk.

(** The object with its post bucket replaced, every other field as it
    is. *)
Definition set_postIxs (l : list BucketEntry) (t : SolendActionCore)
    : SolendActionCore :=
  {| programId := programId t; connection := connection t;
     reserve := reserve t; pool := pool t;
     this_publicKey := this_publicKey t;
     obligationAddress := obligationAddress t;
     obligationAccountInfo := obligationAccountInfo t;
     userTokenAccountAddress := userTokenAccountAddress t;
     userCollateralAccountAddress := userCollateralAccountAddress t;
     seed := seed t; positions := positions t; amount := amount t;
     hostAta := hostAta t;
     lendingIxs := lendingIxs t; preIxs := preIxs t; postIxs := l;
     setupIxs := setupIxs t; cleanupIxs := cleanupIxs t;
     postTxnIxs := postTxnIxs t; pullPriceTxns := pullPriceTxns t;
     depositReserves := depositReserves t;
     borrowReserves := borrowReserves t;
     lookupTableAccount := lookupTableAccount t;
     jitoTipAmount := jitoTipAmount t; wallet := wallet t;
     userRepayTokenAccountAddress := userRepayTokenAccountAddress t;
     userRepayCollateralAccountAddress := userRepayCollateralAccountAddress t;
     token2022Mint := token2022Mint t; wrappedAta := wrappedAta t |}.

(** The instruction of [addLiquidateIx] for a repay reserve and the user's
    token account of its mint. *)
Definition liquidateIx (repayReserve : ReserveType.t)
    (userRepayTokenAccountAddress : PublicKey) (t : SolendActionCore)
    : TransactionInstruction :=
  liquidateObligationAndRedeemReserveCollateral (amount t)
    [userRepayTokenAccountAddress;
     userCollateralAccountAddress t;
     userTokenAccountAddress t;
     new_PublicKey (ReserveType.address repayReserve);
     new_PublicKey (ReserveType.liquidityAddress repayReserve);
     new_PublicKey (ReserveType.address (reserve t));
     new_PublicKey (ReserveType.cTokenMint (reserve t));
     new_PublicKey (ReserveType.cTokenLiquidityAddress (reserve t));
     new_PublicKey (ReserveType.liquidityAddress (reserve t));
     new_PublicKey (ReserveType.feeReceiverAddress (reserve t));
     obligationAddress t;
     new_PublicKey (PoolType.address (pool t));
     new_PublicKey (PoolType.authorityAddress (pool t));
     this_publicKey t;
     programId t].

(** The transfer that funds the wrapped-SOL account: the rent when the
    account is to be created, plus the amount when the action sends
    tokens. *)
Definition transferLamportsIx (X : Externals) (action : ActionType)
    (safeRepay : BN) (t : SolendActionCore) : TransactionInstruction :=
  SystemProgram_transfer (this_publicKey t) (userTokenAccountAddress t)
    (number_add
       (match Connection.getAccountInfo (connection t)
                (userTokenAccountAddress t) with
        | Some _ => Num 0
        | None => getMinimumBalanceForRentExemptAccount X (connection t)
        end)
       (if isSendAction action then parseInt_decimal safeRepay else Num 0)).

(** The reserves an action refreshes: those of the deposits, of the borrows
    and the reserve of the action, each once, in the order of their first
    occurrence. *)
Definition refreshed_reserves (t : SolendActionCore) : list string :=
  Array_from_Set
    (map toBase58 (depositReserves t)
     ++ map toBase58 (borrowReserves t)
     ++ [ReserveType.address (reserve t)]).

(** What [updateWSOLAccount] queues after the transfer, before the
    lending instruction: the synchronisation of an account that is there
    and receives tokens, or the creation of an account that is not. *)
Definition after_transfer (X : Externals) (action : ActionType)
    (t : SolendActionCore) : list BucketEntry :=
  match Connection.getAccountInfo (connection t)
          (userTokenAccountAddress t) with
  | Some _ =>
      if isSendAction action
      then [Bare (syncNative (userTokenAccountAddress t))]
      else []
  | None =>
      [Bare
         (createAssociatedTokenAccountInstruction
            [this_publicKey t; userTokenAccountAddress t; this_publicKey t;
             NATIVE_MINT X])]
  end.

(** The object with its store of price transactions replaced, every other
    field as it is. *)
Definition set_pullPriceTxns (l : option (list VersionedTransaction))
    (t : SolendActionCore) : SolendActionCore :=
  {| programId := programId t; connection := connection t;
     reserve := reserve t; pool := pool t;
     this_publicKey := this_publicKey t;
     obligationAddress := obligationAddress t;
     obligationAccountInfo := obligationAccountInfo t;
     userTokenAccountAddress := userTokenAccountAddress t;
     userCollateralAccountAddress := userCollateralAccountAddress t;
     seed := seed t; positions := positions t; amount := amount t;
     hostAta := hostAta t;
     lendingIxs := lendingIxs t; preIxs := preIxs t; postIxs := postIxs t;
     setupIxs := setupIxs t; cleanupIxs := cleanupIxs t;
     postTxnIxs := postTxnIxs t; pullPriceTxns := l;
     depositReserves := depositReserves t;
     borrowReserves := borrowReserves t;
     lookupTableAccount := lookupTableAccount t;
     jitoTipAmount := jitoTipAmount t; wallet := wallet t;
     userRepayTokenAccountAddress := userRepayTokenAccountAddress t;
     userRepayCollateralAccountAddress := userRepayCollateralAccountAddress t;
     token2022Mint := token2022Mint t; wrappedAta := wrappedAta t |}.

(** What the price refresh queues for the Switchboard feeds: the price of
    the compute unit, the limit of compute units and the update of the
    feeds, each without signers. *)
Definition switchboard_update (ix : TransactionInstruction)
    : list BucketEntry :=
  [WithSigners [] (ComputeBudgetProgram_setComputeUnitPrice 1000000);
   WithSigners [] (ComputeBudgetProgram_setComputeUnitLimit 1000000);
   WithSigners [] ix].

(** The object after the price refresh queued [pre] and stored [txs]:
    nothing else differs, and nothing is stored where the store was never
    made. *)
Definition after_refresh (pre : list BucketEntry)
    (txs : list VersionedTransaction) (t : SolendActionCore)
    : SolendActionCore :=
  set_pullPriceTxns
    (match pullPriceTxns t with
     | Some l => Some (l ++ txs)
     | None => None
     end)
    (set_preIxs (preIxs t ++ pre) t).

(** The signatures a feed asks for, [m + ceil(m / 3)] for its
    [minSampleSize] [m], and the greatest over the feeds, 1 at least, on
    integers. *)
Definition signatures_of (f : PullPrice.PullFeedData) : Z :=
  PullPrice.minSampleSize f + (PullPrice.minSampleSize f + 2) / 3.

Definition most_signatures (loaded : list PullPrice.PullFeedData) : Z :=
  fold_right Z.max 1 (map signatures_of loaded).

(** Clients for the examples: every call answers; the Pyth account whose
    data is ["fresh"] was published 10 seconds before the clock, any other
    100 seconds before; one transaction is built, without signers. *)
Definition clients : PullPrice.Clients :=
  {| PullPrice.sbod_programId :=
       Ok "SBondMDrcV3K4kxZR1HNVT7osZxAHVHgYXL5Ze1oMUv";
     PullPrice.loadData_all :=
       fun feeds => Ok (map (fun _ => {| PullPrice.minSampleSize := 3 |}) feeds);
     PullPrice.fetchUpdateManyIx :=
       fun feeds n =>
         Ok (PullFeed_updateManyIx feeds
               (match n with Num q => Qfloor q | _ => 0 end));
     PullPrice.loadLookupTables := fun _ => Ok tt;
     PullPrice.getLatestBlockhashAndContext := Ok tt;
     PullPrice.compileToV0Message := fun _ _ => Ok tt;
     PullPrice.receiver_programId :=
       "rec5EKMGg6MxZYaMdyBfgwp4d5rB9T1VQH5pJv5LtFJ";
     PullPrice.decode_priceUpdateV2 :=
       fun data =>
         if String.eqb data "fresh"
         then Ok {| PullPrice.publishTime := 1700000090;
                    PullPrice.feedId := [239; 13; 139]%N |}
         else Ok {| PullPrice.publishTime := 1700000000;
                    PullPrice.feedId := [255; 97; 7]%N |};
     PullPrice.Date_now := fun _ => 1700000100000;
     PullPrice.Math_random := fun _ => 1 # 2;
     PullPrice.getLatestVaas := fun ids => Ok ids;
     PullPrice.buildVersionedTransactions :=
       fun _ _ => Ok [{| PullPrice.tx := []; PullPrice.tx_signers := None |}];
     PullPrice.sign := fun tx _ => Ok tx |}.

(** A chain with a Pyth price account and a Switchboard feed for reserve
    A. *)
Definition chain_with_oracles (pythData : string) : Connection.t :=
  Fixtures.Sdk.chain_of
    [("reserveA-pyth",
      {| account_owner := "rec5EKMGg6MxZYaMdyBfgwp4d5rB9T1VQH5pJv5LtFJ";
         account_data := pythData |});
     ("reserveA-switchboard",
      {| account_owner := "SBondMDrcV3K4kxZR1HNVT7osZxAHVHgYXL5Ze1oMUv";
         account_data := "feed" |})].

End Sdk.

Module Bot.
Import Liquidator.

Section Run.

Context {Chain Reserves Account SwitchboardProgram : Type}.
Variable X : Externals Chain Reserves Account SwitchboardProgram.
Variable payer : Account.

(** A liquidation is submitted for cause: some evaluation of the obligation
    found it not healthy, the symbols are those of the first borrow in the
    order of [sortBorrows] and of the deposit [selectDeposit] gives, and the
    amount is the wallet balance read for that borrow, which was neither
    zero nor negative. *)
Definition submitted_for_cause (c : Call) : Prop :=
  match c with
  | Evaluate _ => True
  | LiquidateAndRedeem amount repaySymbol withdrawSymbol market o =>
      is_zero amount = false
      /\ is_negative amount = false
      /\ exists tokensOracle allReserves refreshed selectedBorrow
                selectedDeposit chain,
           calculateRefreshedObligation X (ParsedObligation.info o)
             allReserves tokensOracle
           = Ok refreshed
           /\ isLessThanOrEqualTo
                (RefreshedObligation.borrowedValue refreshed)
                (RefreshedObligation.unhealthyBorrowValue refreshed)
              = false
           /\ hd_error (sortBorrows X (RefreshedObligation.borrows refreshed))
              = Some selectedBorrow
           /\ selectDeposit (RefreshedObligation.deposits refreshed)
              = Some selectedDeposit
           /\ repaySymbol = Borrow.symbol selectedBorrow
           /\ withdrawSymbol = Deposit.symbol selectedDeposit
           /\ getWalletTokenData X market payer
                (Borrow.mintAddress selectedBorrow)
                (Borrow.symbol selectedBorrow) chain
              = Ok amount
  end.

End Run.

(** The oracle data of a reserve: the names of the reserve, ten to the
    power of its decimals, and a price that is zero or a number the code
    takes as set. *)
Definition describes (reserve : MarketConfigReserve.t)
    (d : TokenOracleData.t) : Prop :=
  TokenOracleData.symbol d
  = LiquidityToken.symbol (MarketConfigReserve.liquidityToken reserve)
  /\ TokenOracleData.reserveAddress d = MarketConfigReserve.address reserve
  /\ TokenOracleData.mintAddress d
     = LiquidityToken.mint (MarketConfigReserve.liquidityToken reserve)
  /\ TokenOracleData.decimals d
     = to_double
         (Qpower 10
            (LiquidityToken.decimals
               (MarketConfigReserve.liquidityToken reserve)))
  /\ (TokenOracleData.price d = Num 0
      \/ falsy (Some (TokenOracleData.price d)) = false).

(** The console after a computation holds the lines it held, then new
    ones. *)
Definition console_grows {Chain SwitchboardProgram : Type}
    (w w' : World Chain SwitchboardProgram) : Prop :=
  exists lines, console w' = console w ++ lines.

(** A computation that reads: the chain, the loop variable and the record
    of the calls are as they were, the console has grown, a Switchboard
    client that was loaded is still the one in place, and the end is not
    the end of the fuel. *)
Definition reads_only {Chain SwitchboardProgram A : Type}
    (c : Run Chain SwitchboardProgram A) : Prop :=
  forall w,
    chain (snd (c w)) = chain w
    /\ obligation (snd (c w)) = obligation w
    /\ calls (snd (c w)) = calls w
    /\ console_grows w (snd (c w))
    /\ (forall p, switchboardV2 w = Some p ->
                  switchboardV2 (snd (c w)) = Some p)
    /\ fst (c w) <> Throw OutOfFuel.

(** Closes the frame conditions left at the end of a branch. *)
Ltac settle_frame :=
  repeat split; simpl; auto;
  try discriminate;
  try (intros; congruence);
  try (exists []; simpl; now rewrite app_nil_r);
  try (eexists; simpl; rewrite <- ?app_assoc; reflexivity).

(** The externals of [Fixtures.Bot], the node refusing to list the
    obligations of a market. *)
Definition externals_down : Fixtures.Bot.X0 :=
  {| getAccountInfo := getAccountInfo Fixtures.Bot.externals;
     decodeDelimited_result :=
       decodeDelimited_result Fixtures.Bot.externals;
     SwitchboardProgram_loadMainnet :=
       SwitchboardProgram_loadMainnet Fixtures.Bot.externals;
     decodeLatestAggregatorValue :=
       decodeLatestAggregatorValue Fixtures.Bot.externals;
     getObligations := fun _ _ => Throw (mkError "429 Too Many Requests");
     getReserves := getReserves Fixtures.Bot.externals;
     calculateRefreshedObligation :=
       calculateRefreshedObligation Fixtures.Bot.externals;
     sortBorrows := sortBorrows Fixtures.Bot.externals;
     getWalletTokenData := getWalletTokenData Fixtures.Bot.externals;
     liquidateAndRedeem := liquidateAndRedeem Fixtures.Bot.externals;
     parseObligation := parseObligation Fixtures.Bot.externals;
     THROTTLE := THROTTLE Fixtures.Bot.externals;
     wait := wait Fixtures.Bot.externals |}.

End Bot.

Module Secret.
Import Secret.

(** A host with one secret file, for the key pair. *)
Definition host : Host :=
  {| SECRET_PATH := None;
     readFileSync :=
       fun path =>
         if String.eqb path "/run/secrets/keypair"
         then Ok "{ privKey: 4uQeVj5tqViQh7yWWGStvkEG1Zmhx6uasJtWCJziofM }"
         else if String.eqb path "/run/secrets/empty"
         then Ok "null"
         else
           Throw
             {| code := Some "ENOENT";
                text :=
                  String.append
                    "Error: ENOENT: no such file or directory, open '"
                    (String.append path "'") |};
     JSON_parse :=
       fun str =>
         if String.eqb str "null"
         then Ok JNull
         else
           Ok (JObject
                 [("privKey",
                   JString "4uQeVj5tqViQh7yWWGStvkEG1Zmhx6uasJtWCJziofM")]) |}.

End Secret.

End SpecMore.

(** * Properties *)

(** ** Rounding *)

Module NumericFacts.
Import Numeric.

Lemma new_BN_toString (z : BN) : new_BN (BN_toString z) = Some z.
Proof.
  unfold new_BN, BN_toString.
  rewrite NilEmpty.isi. simpl. now rewrite DecimalZ.of_to.
Qed.

Lemma Qfloor_between (a b : Z) (q : Q) :
  (inject_Z a <= q)%Q -> (q < inject_Z (b + 1))%Q -> a <= Qfloor q <= b.
Proof.
  intros Ha Hb. split.
  - rewrite <- (Qfloor_Z a). now apply Qfloor_resp_le.
  - assert (H : (inject_Z (Qfloor q) < inject_Z (b + 1))%Q).
    { eapply Qle_lt_trans; [apply Qfloor_le | exact Hb]. }
    rewrite <- Zlt_Qlt in H. lia.
Qed.

Lemma round_half_up_between (a b : Z) (q : Q) :
  (inject_Z a <= q)%Q -> (q <= inject_Z b)%Q -> a <= round_half_up q <= b.
Proof.
  intros Ha Hb. unfold round_half_up.
  destruct (Qle_bool 0 q).
  - apply Qfloor_between.
    + lra.
    + rewrite inject_Z_plus. change (inject_Z 1) with 1%Q. lra.
  - assert (H : - b <= Qfloor (- q + (1 # 2)) <= - a); [| lia].
    apply Qfloor_between.
    + rewrite inject_Z_opp. lra.
    + rewrite inject_Z_plus, inject_Z_opp. change (inject_Z 1) with 1%Q. lra.
Qed.

Lemma round_half_even_between (a b : Z) (q : Q) :
  (inject_Z a <= q)%Q -> (q <= inject_Z b)%Q -> a <= round_half_even q <= b.
Proof.
  intros Ha Hb. unfold round_half_even.
  assert (Hf := Qfloor_le q). assert (Hl := Qlt_floor q).
  rewrite inject_Z_plus in Hl. change (inject_Z 1) with 1%Q in Hl.
  assert (Hfa : a <= Qfloor q).
  { rewrite <- (Qfloor_Z a). now apply Qfloor_resp_le. }
  assert (Hfb : Qfloor q <= b).
  { rewrite <- (Qfloor_Z b). now apply Qfloor_resp_le. }
  assert (Hup : (inject_Z (Qfloor q) < q)%Q -> Qfloor q + 1 <= b).
  { intros Hlt. assert (H : (inject_Z (Qfloor q) < inject_Z b)%Q) by lra.
    rewrite <- Zlt_Qlt in H. lia. }
  destruct (q - inject_Z (Qfloor q) ?= 1 # 2)%Q eqn:E.
  - apply Qeq_alt in E.
    destruct (Z.even (Qfloor q)); [lia |].
    split; [lia |]. apply Hup. lra.
  - lia.
  - apply Qgt_alt in E. split; [lia |]. apply Hup. lra.
Qed.

Lemma round_dp_between (a b : Z) (q : Q) :
  (inject_Z a <= q)%Q -> (q <= inject_Z b)%Q ->
  (inject_Z a <= round_dp q)%Q /\ (round_dp q <= inject_Z b)%Q.
Proof.
  intros Ha Hb. unfold round_dp.
  set (s := 10 ^ DECIMAL_PLACES).
  assert (Hs : (0 < inject_Z s)%Q).
  { change 0%Q with (inject_Z 0). rewrite <- Zlt_Qlt. reflexivity. }
  assert (H : a * s <= round_half_up (q * inject_Z s) <= b * s).
  { apply round_half_up_between; rewrite inject_Z_mult.
    - apply Qmult_le_compat_r; lra.
    - apply Qmult_le_compat_r; lra. }
  destruct H as [H1 H2].
  rewrite Zle_Qle, inject_Z_mult in H1, H2.
  split.
  - apply Qle_shift_div_l; assumption.
  - apply Qle_shift_div_r; assumption.
Qed.

Lemma pow2_nonneg (e : Z) : 0 <= e -> pow2 e = inject_Z (2 ^ e).
Proof.
  intros H. unfold pow2. destruct (Z.leb_spec 0 e); [reflexivity | lia].
Qed.

Lemma pow2_neg (e : Z) : e < 0 -> pow2 e = 1 # Z.to_pos (2 ^ (- e)).
Proof.
  intros H. unfold pow2. destruct (Z.leb_spec 0 e); [lia | reflexivity].
Qed.

Lemma pow2_inv (k : Z) :
  0 <= k -> (pow2 (- k) * inject_Z (2 ^ k) == 1)%Q.
Proof.
  intros Hk. destruct (Z.eq_dec k 0) as [-> | Hne].
  - reflexivity.
  - rewrite pow2_neg by lia. rewrite Z.opp_involutive.
    assert (Hp : 0 < 2 ^ k) by (apply Z.pow_pos_nonneg; lia).
    unfold Qeq, Qmult, inject_Z. cbn [Qnum Qden].
    rewrite Pos.mul_1_r, Z2Pos.id by lia. lia.
Qed.

Lemma pow2_pos (e : Z) : (0 < pow2 e)%Q.
Proof.
  unfold pow2. destruct (Z.leb_spec 0 e).
  - change 0%Q with (inject_Z 0). rewrite <- Zlt_Qlt.
    apply Z.pow_pos_nonneg; lia.
  - reflexivity.
Qed.

Lemma ilog2_le (q : Q) (k : Z) :
  0 <= k -> (0 < q)%Q -> (q < inject_Z (2 ^ (k + 1)))%Q -> ilog2 q <= k.
Proof.
  intros Hk Hq Hlt. unfold ilog2.
  destruct q as [n d]. simpl Qnum; simpl Qden.
  assert (Hn : 0 < n).
  { unfold Qlt in Hq. simpl in Hq. lia. }
  assert (Hnd : n < 2 ^ (k + 1) * Zpos d).
  { unfold Qlt, inject_Z in Hlt. simpl in Hlt. lia. }
  set (e0 := Z.log2 n - Z.log2 (Zpos d)).
  assert (He0 : e0 <= k + 1).
  { assert (H : Z.log2 n <= Z.log2 (Zpos d * 2 ^ (k + 1))).
    { apply Z.log2_le_mono. lia. }
    rewrite Z.log2_mul_pow2 in H by lia. unfold e0. lia. }
  destruct (Qle_bool (pow2 e0) (n # d)) eqn:E; [| lia].
  apply Qle_bool_iff in E.
  destruct (Z.eq_dec e0 (k + 1)) as [Heq | Hne]; [| lia].
  exfalso. rewrite Heq, pow2_nonneg in E by lia. lra.
Qed.

Lemma Qdiv_le_mono_r (a b c : Q) : (0 < c)%Q -> (a <= b)%Q -> (a / c <= b / c)%Q.
Proof.
  intros Hc H. unfold Qdiv. apply Qmult_le_compat_r; [exact H |].
  apply Qinv_le_0_compat. lra.
Qed.

Lemma Qdiv_le_scale (a q c : Q) :
  (0 < c)%Q -> (a / c <= q)%Q -> (a <= q * c)%Q.
Proof.
  intros Hc H.
  setoid_replace a with (a / c * c)%Q by (field; lra).
  apply Qmult_le_compat_r; lra.
Qed.

Lemma Qle_div_scale (b q c : Q) :
  (0 < c)%Q -> (q <= b / c)%Q -> (q * c <= b)%Q.
Proof.
  intros Hc H.
  setoid_replace b with (b / c * c)%Q by (field; lra).
  apply Qmult_le_compat_r; lra.
Qed.

Lemma round_dp_between_decimal (a b : Z) (q : Q) :
  (inject_Z a / inject_Z (10 ^ DECIMAL_PLACES) <= q)%Q ->
  (q <= inject_Z b / inject_Z (10 ^ DECIMAL_PLACES))%Q ->
  (inject_Z a / inject_Z (10 ^ DECIMAL_PLACES) <= round_dp q)%Q
  /\ (round_dp q <= inject_Z b / inject_Z (10 ^ DECIMAL_PLACES))%Q.
Proof.
  intros Ha Hb. unfold round_dp.
  set (s := inject_Z (10 ^ DECIMAL_PLACES)) in *.
  assert (Hs : (0 < s)%Q) by reflexivity.
  assert (H : a <= round_half_up (q * s) <= b).
  { apply round_half_up_between.
    - now apply Qdiv_le_scale.
    - now apply Qle_div_scale. }
  destruct H as [H1 H2]. rewrite Zle_Qle in H1, H2.
  split; apply Qdiv_le_mono_r; assumption.
Qed.

Lemma to_double_between_dyadic (j a b : Z) (q : Q) :
  0 <= j <= 52 -> 1 <= a -> b < 2 ^ 53 ->
  (inject_Z a / inject_Z (2 ^ j) <= q)%Q ->
  (q <= inject_Z b / inject_Z (2 ^ j))%Q ->
  exists v,
    to_double q = Num v
    /\ (inject_Z a / inject_Z (2 ^ j) <= v)%Q
    /\ (v <= inject_Z b / inject_Z (2 ^ j))%Q.
Proof.
  intros Hj Ha Hb Haq Hqb.
  assert (Hpj : 0 < 2 ^ j) by (apply Z.pow_pos_nonneg; lia).
  set (sj := inject_Z (2 ^ j)) in *.
  assert (Hsj : (0 < sj)%Q).
  { unfold sj. change 0%Q with (inject_Z 0). now rewrite <- Zlt_Qlt. }
  assert (Ha1 : (0 < inject_Z a / sj)%Q).
  { apply Qlt_shift_div_l; [exact Hsj |].
    setoid_replace (0 * sj)%Q with (inject_Z 0) by ring.
    rewrite <- Zlt_Qlt. lia. }
  assert (Hq : (0 < q)%Q) by lra.
  assert (Hqs : (q * sj <= inject_Z b)%Q) by now apply Qle_div_scale.
  assert (Hqlt : (q < inject_Z (2 ^ (52 - j + 1)))%Q).
  { apply Qle_lt_trans with (inject_Z b / sj)%Q; [exact Hqb |].
    apply Qlt_shift_div_r; [exact Hsj |].
    unfold sj. rewrite <- inject_Z_mult, <- Zlt_Qlt.
    rewrite <- Z.pow_add_r by lia. replace (52 - j + 1 + j) with 53 by lia.
    exact Hb. }
  unfold to_double.
  assert (Hc : (q ?= 0)%Q = Gt) by (apply Qgt_alt; exact Hq).
  rewrite Hc. unfold to_double_pos.
  set (e := Z.max (ilog2 q) (-1022)).
  assert (He : e <= 52 - j).
  { assert (ilog2 q <= 52 - j); [| lia].
    apply ilog2_le; [lia | exact Hq | exact Hqlt]. }
  set (k := 52 - e).
  replace (e - 52) with (- k) by lia.
  assert (Hk : j <= k) by lia.
  assert (Hk0 : 0 <= k) by lia.
  assert (Hinv := pow2_inv k Hk0). assert (Hpos := pow2_pos (- k)).
  set (ulp := pow2 (- k)) in *.
  set (s := inject_Z (2 ^ k)) in *.
  assert (Hs : (0 < s)%Q).
  { unfold s. change 0%Q with (inject_Z 0). rewrite <- Zlt_Qlt.
    apply Z.pow_pos_nonneg; lia. }
  set (c := 2 ^ (k - j)).
  assert (Hc0 : 0 < c) by (apply Z.pow_pos_nonneg; lia).
  assert (Hsc : (s == sj * inject_Z c)%Q).
  { unfold s, sj, c. rewrite <- inject_Z_mult, <- Z.pow_add_r by lia.
    replace (j + (k - j)) with k by lia. reflexivity. }
  assert (Hcq : (0 < inject_Z c)%Q).
  { change 0%Q with (inject_Z 0). now rewrite <- Zlt_Qlt. }
  assert (Hdiv : (q / ulp == q * s)%Q).
  { apply (Qmult_inj_r _ _ ulp); [lra |].
    setoid_replace (q / ulp * ulp)%Q with q by (field; lra).
    setoid_replace (q * s * ulp)%Q with (q * (ulp * s))%Q by ring.
    rewrite Hinv. ring. }
  assert (Hlo : (inject_Z (a * c) <= q * s)%Q).
  { rewrite inject_Z_mult, Hsc.
    setoid_replace (q * (sj * inject_Z c))%Q with (q * sj * inject_Z c)%Q
      by ring.
    apply Qmult_le_compat_r; [| lra]. now apply Qdiv_le_scale. }
  assert (Hhi : (q * s <= inject_Z (b * c))%Q).
  { rewrite inject_Z_mult, Hsc.
    setoid_replace (q * (sj * inject_Z c))%Q with (q * sj * inject_Z c)%Q
      by ring.
    apply Qmult_le_compat_r; lra. }
  assert (Hm : a * c <= round_half_even (q / ulp) <= b * c).
  { apply round_half_even_between; rewrite Hdiv; assumption. }
  destruct Hm as [Hm1 Hm2].
  rewrite Zle_Qle, inject_Z_mult in Hm1, Hm2.
  set (m := inject_Z (round_half_even (q / ulp))) in *.
  assert (Hunit : (inject_Z c * ulp == / sj)%Q).
  { apply (Qmult_inj_r _ _ sj); [lra |].
    setoid_replace (inject_Z c * ulp * sj)%Q with (ulp * (sj * inject_Z c))%Q
      by ring.
    rewrite <- Hsc, Hinv. field. lra. }
  assert (Hv1 : (inject_Z a / sj <= m * ulp)%Q).
  { unfold Qdiv. rewrite <- Hunit.
    setoid_replace (inject_Z a * (inject_Z c * ulp))%Q
      with (inject_Z a * inject_Z c * ulp)%Q by ring.
    apply Qmult_le_compat_r; lra. }
  assert (Hv2 : (m * ulp <= inject_Z b / sj)%Q).
  { unfold Qdiv. rewrite <- Hunit.
    setoid_replace (inject_Z b * (inject_Z c * ulp))%Q
      with (inject_Z b * inject_Z c * ulp)%Q by ring.
    apply Qmult_le_compat_r; lra. }
  assert (Hov : Qle_bool (pow2 1024) (m * ulp) = false).
  { destruct (Qle_bool (pow2 1024) (m * ulp)) eqn:E; [| reflexivity].
    apply Qle_bool_iff in E. exfalso.
    assert (H : (inject_Z (2 ^ 53) < pow2 1024)%Q) by reflexivity.
    assert (Hb53 : (inject_Z b < inject_Z (2 ^ 53))%Q)
      by now rewrite <- Zlt_Qlt.
    assert (H1 : (1 <= sj)%Q).
    { unfold sj. change 1%Q with (inject_Z 1). rewrite <- Zle_Qle. lia. }
    assert (H' : (inject_Z b / sj < inject_Z (2 ^ 53))%Q).
    { apply Qlt_shift_div_r; [exact Hsj |].
      assert (HP : (0 < inject_Z (2 ^ 53))%Q) by reflexivity.
      nra. }
    lra. }
  rewrite Hov. exists (m * ulp)%Q. auto.
Qed.

Lemma Qdiv_scale_eq (a c d : Z) :
  0 < c -> 0 < d ->
  (inject_Z (a * d) / inject_Z (c * d) == inject_Z a / inject_Z c)%Q.
Proof.
  intros Hc Hd. rewrite !inject_Z_mult.
  assert (Hc' : ~ (inject_Z c == 0)%Q).
  { intros E. unfold Qeq in E. simpl in E. lia. }
  assert (Hd' : ~ (inject_Z d == 0)%Q).
  { intros E. unfold Qeq in E. simpl in E. lia. }
  field. auto.
Qed.


End NumericFacts.

(** ** The action builder *)

Module ActionFacts.
Import Numeric Js Actions Spec.Sdk NumericFacts.

(** *** Counting positions *)

Lemma existsb_eqb_In (x : string) (l : list string) :
  existsb (String.eqb x) l = true <-> In x l.
Proof.
  rewrite existsb_exists. split.
  - intros (y & Hy & E). apply String.eqb_eq in E. now subst.
  - intros H. exists x. split; [exact H | apply String.eqb_refl].
Qed.

Lemma Set_add_In (acc : list string) (x y : string) :
  In y (Set_add acc x) <-> In y acc \/ y = x.
Proof.
  unfold Set_add. destruct (existsb (String.eqb x) acc) eqn:E.
  - apply existsb_eqb_In in E. split; [auto |]. intros [H | ->]; auto.
  - rewrite in_app_iff. simpl. intuition auto.
Qed.

Lemma Set_add_NoDup (acc : list string) (x : string) :
  NoDup acc -> NoDup (Set_add acc x).
Proof.
  intros H. unfold Set_add. destruct (existsb (String.eqb x) acc) eqn:E.
  - exact H.
  - assert (Hx : ~ In x acc).
    { intros Hin. apply existsb_eqb_In in Hin. congruence. }
    apply NoDup_app; [exact H | repeat constructor; auto |].
    intros a Ha [<- | []]. contradiction.
Qed.

Lemma fold_Set_add_spec (xs acc : list string) :
  NoDup acc ->
  NoDup (fold_left Set_add xs acc)
  /\ (forall y, In y (fold_left Set_add xs acc) <-> In y acc \/ In y xs).
Proof.
  revert acc. induction xs as [| x xs IH]; intros acc Hacc; simpl.
  - split; [exact Hacc | intuition auto].
  - destruct (IH (Set_add acc x) (Set_add_NoDup acc x Hacc)) as [Hnd Hin].
    split; [exact Hnd |]. intros y. rewrite Hin, Set_add_In.
    intuition auto.
Qed.

Lemma Array_from_Set_length (xs : list string) :
  List.length (Array_from_Set xs) = List.length (nodup string_dec xs).
Proof.
  destruct (fold_Set_add_spec xs [] (NoDup_nil _)) as [Hnd Hin].
  fold (Array_from_Set xs) in Hnd, Hin.
  apply Nat.le_antisymm; apply NoDup_incl_length.
  - exact Hnd.
  - intros y Hy. apply nodup_In. apply Hin in Hy. destruct Hy as [[] | Hy].
    exact Hy.
  - apply NoDup_nodup.
  - intros y Hy. apply nodup_In in Hy. apply Hin. now right.
Qed.

Lemma distinctReserveCount_spec (action : ActionType) (reserve : ReserveType.t)
    (depositReserves borrowReserves : list PublicKey) :
  distinctReserveCount action reserve depositReserves borrowReserves
  = position_count action reserve depositReserves borrowReserves.
Proof.
  unfold distinctReserveCount, position_count.
  rewrite !Array_from_Set_length. unfold toBase58. now rewrite !map_id.
Qed.

Lemma nodup_snoc_new (xs : list string) (r : string) :
  ~ In r xs ->
  List.length (nodup string_dec (xs ++ [r]))
  = S (List.length (nodup string_dec xs)).
Proof.
  induction xs as [| x xs IH]; intros Hr; simpl.
  - reflexivity.
  - assert (Hxr : x <> r) by (intros ->; apply Hr; now left).
    assert (Hr' : ~ In r xs) by (intros H; apply Hr; now right).
    destruct (in_dec string_dec x (xs ++ [r])) as [Hin | Hnin];
      destruct (in_dec string_dec x xs) as [Hin' | Hnin'].
    + now apply IH.
    + exfalso. apply in_app_iff in Hin. destruct Hin as [H | [H | []]];
        [contradiction | congruence].
    + exfalso. apply Hnin. apply in_app_iff. now left.
    + simpl. f_equal. now apply IH.
Qed.

Lemma position_count_new_reserve (action : ActionType)
    (reserve : ReserveType.t)
    (depositReserves borrowReserves : list PublicKey) :
  (action = deposit /\ ~ In (ReserveType.address reserve) depositReserves)
  \/ (action = borrow /\ ~ In (ReserveType.address reserve) borrowReserves) ->
  position_count action reserve depositReserves borrowReserves
  = S (List.length (nodup string_dec borrowReserves)
       + List.length (nodup string_dec depositReserves)).
Proof.
  unfold position_count. intros [[-> Hnew] | [-> Hnew]]; simpl.
  - rewrite app_nil_r, nodup_snoc_new by exact Hnew. lia.
  - rewrite app_nil_r, nodup_snoc_new by exact Hnew. lia.
Qed.

(** *** The Position Limit *)

(** C1, as the code has it.  Once the obligation is loaded, [initialize]
    throws exactly when the position count exceeds the Position Limit, and
    then returns no object, hence no instruction; the position count is the
    number of distinct borrow reserves (with the target reserve for a
    borrow) plus the number of distinct deposit reserves (with the target
    reserve for a deposit).  Below or at the limit the object is returned
    with every bucket empty.  In particular, at a count equal to the limit,
    a deposit (borrow) of a reserve that is not among the deposits (borrows)
    throws. *)
Theorem initialize_position_limit (X : Externals)
    (pool : PoolType.t) (reserve : ReserveType.t) (action : ActionType)
    (amount : BN) (wallet : Wallet) (connection : Connection.t)
    (environment : EnvironmentType)
    (customObligationAddress hostAta : option PublicKey)
    (customObligationSeed : option string)
    (lookupTableAddress : option PublicKey) (tipAmount : option Z)
    (repayReserve : option ReserveType.t) (token2022Mint : option string)
    (obligationDetails : option Obligation.t)
    (depositReserves borrowReserves : list PublicKey) :
  loadObligation X connection
    (resolveObligationAddress X wallet
       (obligationSeed pool customObligationSeed)
       (getProgramId X environment) customObligationAddress)
  = Ok (obligationDetails, depositReserves, borrowReserves) ->
  ((POSITION_LIMIT X
    < position_count action reserve depositReserves borrowReserves)%nat ->
   initialize X pool reserve action amount wallet connection environment
     customObligationAddress hostAta customObligationSeed lookupTableAddress
     tipAmount repayReserve token2022Mint
   = Throw (mkError (position_limit_message X)))
  /\ ((position_count action reserve depositReserves borrowReserves
       <= POSITION_LIMIT X)%nat ->
      exists axn,
        initialize X pool reserve action amount wallet connection environment
          customObligationAddress hostAta customObligationSeed
          lookupTableAddress tipAmount repayReserve token2022Mint
        = Ok axn
        /\ positions axn
           = position_count action reserve depositReserves borrowReserves
        /\ no_instructions axn)
  /\ ((action = deposit
       /\ ~ In (ReserveType.address reserve) depositReserves)
      \/ (action = borrow
          /\ ~ In (ReserveType.address reserve) borrowReserves) ->
      (List.length (nodup string_dec borrowReserves)
       + List.length (nodup string_dec depositReserves))%nat
      = POSITION_LIMIT X ->
      initialize X pool reserve action amount wallet connection environment
        customObligationAddress hostAta customObligationSeed
        lookupTableAddress tipAmount repayReserve token2022Mint
      = Throw (mkError (position_limit_message X))).
Proof.
  intros Hload.
  assert (Hthrow :
    (POSITION_LIMIT X
     < position_count action reserve depositReserves borrowReserves)%nat ->
    initialize X pool reserve action amount wallet connection environment
      customObligationAddress hostAta customObligationSeed lookupTableAddress
      tipAmount repayReserve token2022Mint
    = Throw (mkError (position_limit_message X))).
  { intros Hc. unfold initialize. rewrite Hload, distinctReserveCount_spec.
    apply Nat.ltb_lt in Hc. now rewrite Hc. }
  split; [exact Hthrow |]. split.
  - intros Hc. unfold initialize. rewrite Hload, distinctReserveCount_spec.
    assert (E : (POSITION_LIMIT X
                 <? position_count action reserve depositReserves
                      borrowReserves)%nat = false)
      by (apply Nat.ltb_ge; exact Hc).
    rewrite E. eexists. split; [reflexivity |]. split; reflexivity.
  - intros Hnew Hk. apply Hthrow.
    rewrite (position_count_new_reserve _ _ _ _ Hnew). lia.
Qed.

(** A builder returns nothing when [initialize] throws. *)
Lemma build_throws (X : Externals)
    (init : BN -> Result Error SolendActionCore)
    (amount : string) (steps : Act unit) (a : BN) (e : Error) :
  parse_amount X amount = Ok a -> init a = Throw e ->
  build X init amount steps = Throw e.
Proof. intros Hp Hi. unfold build. now rewrite Hp, Hi. Qed.

(** At the limit with three deposits and three borrows, borrowing a fourth
    reserve is refused. *)
Lemma initialize_position_limit_witness :
  loadObligation Fixtures.Sdk.externals Fixtures.Sdk.chain_three_by_three
    "user-obligation"
  = Ok (Some Fixtures.Sdk.obligation_three_by_three,
        ["reserveA"; "reserveB"; "reserveC"],
        ["reserveA"; "reserveB"; "reserveC"])
  /\ initialize Fixtures.Sdk.externals Fixtures.Sdk.main_pool
       Fixtures.Sdk.reserveD borrow 5 Fixtures.Sdk.user
       Fixtures.Sdk.chain_three_by_three "production"
       (Some "user-obligation") None None None None None None
     = Throw (mkError "Obligation already has max number of positions: 6").
Proof.
  split; [reflexivity |].
  refine (proj2 (proj2
    (initialize_position_limit Fixtures.Sdk.externals Fixtures.Sdk.main_pool
       Fixtures.Sdk.reserveD borrow 5 Fixtures.Sdk.user
       Fixtures.Sdk.chain_three_by_three "production"
       (Some "user-obligation") None None None None None None
       (Some Fixtures.Sdk.obligation_three_by_three)
       ["reserveA"; "reserveB"; "reserveC"]
       ["reserveA"; "reserveB"; "reserveC"] eq_refl)) _ _).
  - right. split; [reflexivity |]. simpl.
    intros [H | [H | [H | []]]]; discriminate H.
  - reflexivity.
Defined.

(** C1 as stated does not hold: an obligation holding three reserves,
    each as deposit and as borrow, has three distinct reserves; a deposit of
    a fourth makes four, below the limit of six, and [initialize] throws. *)
Lemma position_limit_counts_sides_not_reserves :
  (distinct_reserves Fixtures.Sdk.reserveD
     ["reserveA"; "reserveB"; "reserveC"]
     ["reserveA"; "reserveB"; "reserveC"]
   <= POSITION_LIMIT Fixtures.Sdk.externals)%nat
  /\ initialize Fixtures.Sdk.externals Fixtures.Sdk.main_pool
       Fixtures.Sdk.reserveD deposit 5 Fixtures.Sdk.user
       Fixtures.Sdk.chain_three_by_three "production"
       (Some "user-obligation") None None None None None None
     = Throw (mkError "Obligation already has max number of positions: 6").
Proof. split; [vm_compute; lia | reflexivity]. Qed.

(** *** Parts of the object a method leaves alone *)

Section Retains.

Context {T : Type}.
Variable f : SolendActionCore -> T.

Lemma retains_ret {A} (a : A) : retains f (ret a : Act A).
Proof. now intros t. Qed.

Lemma retains_throw {A} (e : Error) : retains f (throw e : Act A).
Proof. now intros t. Qed.

Lemma retains_get : retains f (get : Act SolendActionCore).
Proof. now intros t. Qed.

Lemma retains_lift {A} (r : Result Error A) : retains f (lift r : Act A).
Proof. now intros t. Qed.

Lemma retains_modify (g : SolendActionCore -> SolendActionCore) :
  (forall t, f (g t) = f t) -> retains f (modify g : Act unit).
Proof. intros H t. apply H. Qed.

Lemma retains_bind {A B} (c : Act A) (k : A -> Act B) :
  retains f c -> (forall a, retains f (k a)) -> retains f (bind c k).
Proof.
  intros Hc Hk t. unfold bind. specialize (Hc t).
  destruct (c t) as [[a | e] t1]; simpl in Hc.
  - now rewrite Hk.
  - exact Hc.
Qed.

Lemma retains_for_of {A} (xs : list A) (body : A -> Act unit) :
  (forall x, In x xs -> retains f (body x)) -> retains f (for_of xs body).
Proof.
  induction xs as [| x xs IH]; intros Hb; simpl.
  - apply retains_ret.
  - apply retains_bind; [apply Hb; now left |].
    intros _. apply IH. intros y Hy. apply Hb. now right.
Qed.

(** The pushes to the buckets the constructor did not make change those
    buckets only, when they do not throw. *)
Lemma retains_push_setupIxs (xs : list BucketEntry) :
  (forall t setup,
     f (with_buckets t setup (preIxs t) (lendingIxs t) (postIxs t)
          (cleanupIxs t) (postTxnIxs t)) = f t) ->
  retains f (push_setupIxs xs).
Proof.
  intros H t. unfold push_setupIxs. destruct (setupIxs t); [apply H | easy].
Qed.

Lemma retains_push_cleanupIxs (xs : list BucketEntry) :
  (forall t cleanup,
     f (with_buckets t (setupIxs t) (preIxs t) (lendingIxs t) (postIxs t)
          cleanup (postTxnIxs t)) = f t) ->
  retains f (push_cleanupIxs xs).
Proof.
  intros H t. unfold push_cleanupIxs. destruct (cleanupIxs t); [apply H | easy].
Qed.

Lemma retains_push_postTxnIxs (xs : list BucketEntry) :
  (forall t postTxn,
     f (with_buckets t (setupIxs t) (preIxs t) (lendingIxs t) (postIxs t)
          (cleanupIxs t) postTxn) = f t) ->
  retains f (push_postTxnIxs xs).
Proof.
  intros H t. unfold push_postTxnIxs. destruct (postTxnIxs t); [apply H | easy].
Qed.

End Retains.




(** *** What a builder returns *)

Lemma initialize_starts_empty (X : Externals)
    (pool : PoolType.t) (reserve : ReserveType.t) (action : ActionType)
    (amount : BN) (wallet : Wallet) (connection : Connection.t)
    (environment : EnvironmentType)
    (customObligationAddress hostAta : option PublicKey)
    (customObligationSeed : option string)
    (lookupTableAddress : option PublicKey) (tipAmount : option Z)
    (repayReserve : option ReserveType.t) (token2022Mint : option string)
    (axn : SolendActionCore) :
  initialize X pool reserve action amount wallet connection environment
    customObligationAddress hostAta customObligationSeed lookupTableAddress
    tipAmount repayReserve token2022Mint
  = Ok axn ->
  no_instructions axn /\ Actions.amount axn = amount.
Proof.
  unfold initialize.
  destruct (loadObligation X connection _) as [[[details deps] bors] | e];
    [| discriminate].
  destruct (_ <? _)%nat; [discriminate |].
  intros H. injection H as <-. split; reflexivity.
Qed.



(** *** The amount sentinel *)







(** *** Routing of account creation *)

Lemma full_with_host_no_lookup_iff (X : Externals) (this : SolendActionCore) :
  full_with_host_no_lookup X this = true <-> full_host_no_lookup X this.
Proof.
  unfold full_with_host_no_lookup, full_host_no_lookup.
  rewrite !andb_true_iff, Nat.eqb_eq.
  destruct (hostAta this), (lookupTableAccount this);
    intuition (discriminate || congruence).
Qed.

Lemma full_with_host_no_lookup_false (X : Externals)
    (this : SolendActionCore) :
  ~ full_host_no_lookup X this -> full_with_host_no_lookup X this = false.
Proof.
  intros H. destruct (full_with_host_no_lookup X this) eqn:F; [| reflexivity].
  exfalso. apply H. now apply full_with_host_no_lookup_iff.
Qed.

(** Resolving a capability other than the refresh of the reserves does not
    make the setup bucket. *)
Lemma resolveSupport_retains_made_setup (X : Externals) (action : ActionType)
    (s : SupportType) :
  s <> refreshReserves ->
  retains (fun t => made (setupIxs t)) (resolveSupport X action s).
Proof.
  intros Hs.
  assert (Hpush : forall xs,
            retains (fun t => made (setupIxs t)) (push_setupIxs xs)).
  { intros xs t. unfold push_setupIxs.
    destruct (setupIxs t) eqn:E; simpl; now rewrite ?E. }
  destruct s; try congruence;
    cbv beta iota zeta delta
      [resolveSupport addObligationIxs addWrapIx addUnwrapIx
       addRefreshObligationIxs addCAtaIxs addAtaIxs
       addWrapUnwrapLiquidateIxs updateWSOLAccount computeSafeRepay];
    repeat
      (first
         [ apply Hpush
         | apply retains_ret
         | apply retains_throw
         | apply retains_get
         | apply retains_lift
         | apply retains_modify; intros; reflexivity
         | apply retains_push_cleanupIxs; intros; reflexivity
         | apply retains_push_postTxnIxs; intros; reflexivity
         | apply retains_bind; [| intros ?]
         | match goal with
           | |- retains _ (match ?x with _ => _ end) => destruct x
           | |- retains _ (if ?x then _ else _) => destruct x
           end ]).
Qed.

(** C6, as the code has it.  No object that [initialize] returns has a
    setup bucket, and resolving a capability other than the refresh of the
    reserves does not make one.  When [addAtaIxs] or [addCAtaIxs] emits its
    creation instruction (the account is absent and, for [addAtaIxs], the
    mint is not the native one), the instruction is appended to the pre
    bucket, and nothing else changes, if the position count equals the
    Position Limit, a host account is set and the object holds no lookup
    table.  In every other case the method pushes to the setup bucket: it
    throws the [TypeError] of a push on [undefined] and leaves the object as
    it was when that bucket was not made, and appends the instruction to it
    otherwise. *)
Theorem creation_routing (X : Externals) :
  (forall pool reserve action amount wallet connection environment
          customObligationAddress hostAta customObligationSeed
          lookupTableAddress tipAmount repayReserve token2022Mint axn,
     initialize X pool reserve action amount wallet connection environment
       customObligationAddress hostAta customObligationSeed
       lookupTableAddress tipAmount repayReserve token2022Mint
     = Ok axn ->
     setupIxs axn = None)
  /\ (forall action s this,
        s <> refreshReserves ->
        setupIxs this = None ->
        setupIxs (snd (resolveSupport X action s this)) = None)
  /\ (forall this,
        ReserveType.mintAddress (reserve this) <> toBase58 (NATIVE_MINT X) ->
        Connection.getAccountInfo (connection this)
          (userTokenAccountAddress this)
        = None ->
        (full_host_no_lookup X this ->
         addAtaIxs X this
         = (Ok tt,
            set_preIxs (preIxs this ++ [Bare (createUserTokenAccountIx this)])
              this))
        /\ (~ full_host_no_lookup X this ->
            addAtaIxs X this
            = match setupIxs this with
              | None => (Throw undefined_push, this)
              | Some l =>
                  (Ok tt,
                   set_setupIxs (l ++ [Bare (createUserTokenAccountIx this)])
                     this)
              end))
  /\ (forall this,
        Connection.getAccountInfo (connection this)
          (userCollateralAccountAddress this)
        = None ->
        (full_host_no_lookup X this ->
         addCAtaIxs X this
         = (Ok tt,
            set_preIxs
              (preIxs this ++ [Bare (createUserCollateralAccountIx this)])
              this))
        /\ (~ full_host_no_lookup X this ->
            addCAtaIxs X this
            = match setupIxs this with
              | None => (Throw undefined_push, this)
              | Some l =>
                  (Ok tt,
                   set_setupIxs
                     (l ++ [Bare (createUserCollateralAccountIx this)]) this)
              end)).
Proof.
  split; [| split; [| split]].
  - intros. destruct (initialize_starts_empty _ _ _ _ _ _ _ _ _ _ _ _ _ _ _ _ H)
      as [Hempty _].
    unfold no_instructions, buckets in Hempty. now injection Hempty.
  - intros action s this Hs Hnone.
    pose proof (resolveSupport_retains_made_setup X action s Hs this) as H.
    simpl in H. rewrite Hnone in H.
    destruct (setupIxs (snd (resolveSupport X action s this)));
      [discriminate | reflexivity].
  - intros this Hmint Habsent.
    assert (E : String.eqb (ReserveType.mintAddress (reserve this))
                  (toBase58 (NATIVE_MINT X)) = false)
      by now apply String.eqb_neq.
    unfold addAtaIxs, bind, get. rewrite E, Habsent. cbn [negb].
    split; intros H.
    + apply full_with_host_no_lookup_iff in H. rewrite H. reflexivity.
    + rewrite (full_with_host_no_lookup_false X this H).
      unfold push_setupIxs. destruct (setupIxs this); reflexivity.
  - intros this Habsent. unfold addCAtaIxs, bind, get. rewrite Habsent.
    split; intros H.
    + apply full_with_host_no_lookup_iff in H. rewrite H. reflexivity.
    + rewrite (full_with_host_no_lookup_false X this H).
      unfold push_setupIxs. destruct (setupIxs this); reflexivity.
Qed.

(** A deposit into reserve A for a user whose obligation exists and whose
    collateral account does not: no host account, so the creation goes to
    the setup bucket, which does not exist, and the builder throws.  A
    borrow from reserve A at the Position Limit with a host account and no
    lookup table: the creation of the token account goes to the pre
    bucket. *)
Lemma creation_routing_witness :
  (exists t0,
     initialize Fixtures.Sdk.externals Fixtures.Sdk.main_pool
       Fixtures.Sdk.reserveA deposit 5 Fixtures.Sdk.user
       Fixtures.Sdk.chain_three_by_three "production"
       (Some "user-obligation") None None None None None None
     = Ok t0
     /\ ~ full_host_no_lookup Fixtures.Sdk.externals t0
     /\ addCAtaIxs Fixtures.Sdk.externals t0 = (Throw undefined_push, t0))
  /\ buildDepositTxns Fixtures.Sdk.externals Fixtures.Sdk.main_pool
       Fixtures.Sdk.reserveA Fixtures.Sdk.chain_three_by_three "5"
       Fixtures.Sdk.user None (Some "user-obligation") None None None
     = Throw undefined_push
  /\ (exists t0,
        initialize Fixtures.Sdk.externals Fixtures.Sdk.main_pool
          Fixtures.Sdk.reserveA borrow 5 Fixtures.Sdk.user
          Fixtures.Sdk.chain_three_by_three "production"
          (Some "user-obligation") (Some "host") None None None None None
        = Ok t0
        /\ full_host_no_lookup Fixtures.Sdk.externals t0
        /\ addAtaIxs Fixtures.Sdk.externals t0
           = (Ok tt,
              set_preIxs
                [Bare
                   (createAssociatedTokenAccountInstruction
                      ["user"; "user/mintA"; "user"; "mintA"])]
                t0)).
Proof.
  split; [| split].
  - exists (Fixtures.Sdk.axn Fixtures.Sdk.chain_three_by_three
              Fixtures.Sdk.reserveA
              (Some Fixtures.Sdk.obligation_three_by_three) 5 6 None None).
    split; [vm_compute; reflexivity |].
    match goal with |- ~ ?F /\ _ => assert (NF : ~ F) end.
    { intros (_ & H & _). now apply H. }
    split; [exact NF |].
    rewrite (proj2 (proj2 (proj2 (proj2
               (creation_routing Fixtures.Sdk.externals)))
               (Fixtures.Sdk.axn Fixtures.Sdk.chain_three_by_three
                  Fixtures.Sdk.reserveA
                  (Some Fixtures.Sdk.obligation_three_by_three) 5 6 None None)
               eq_refl) NF).
    reflexivity.
  - vm_compute. reflexivity.
  - exists (Fixtures.Sdk.axn Fixtures.Sdk.chain_three_by_three
              Fixtures.Sdk.reserveA
              (Some Fixtures.Sdk.obligation_three_by_three) 5 6 (Some "host")
              None).
    split; [vm_compute; reflexivity |].
    match goal with |- ?F /\ _ => assert (HF : F) end.
    { split; [reflexivity |]. split; [discriminate | reflexivity]. }
    split; [exact HF |].
    rewrite (proj1 (proj1 (proj2 (proj2
               (creation_routing Fixtures.Sdk.externals)))
               (Fixtures.Sdk.axn Fixtures.Sdk.chain_three_by_three
                  Fixtures.Sdk.reserveA
                  (Some Fixtures.Sdk.obligation_three_by_three) 5 6
                  (Some "host") None)
               ltac:(discriminate) eq_refl) HF).
    reflexivity.
Defined.

(** *** Accounts that exist already *)

(** C9, as the code has it.  Resolving [createObligation], [ata] or [cAta]
    when the account it would create exists emits nothing and leaves the
    object as it is; so does resolving it a second time. *)
Theorem existing_account_emits_nothing (X : Externals) (action : ActionType)
    (s : SupportType) (this : SolendActionCore) :
  target_exists s this ->
  resolveSupport X action s this = (Ok tt, this)
  /\ bind (resolveSupport X action s) (fun _ => resolveSupport X action s)
       this
     = (Ok tt, this).
Proof.
  intros H.
  assert (E : resolveSupport X action s this = (Ok tt, this)).
  { destruct s; simpl in H; try contradiction.
    - unfold resolveSupport, addObligationIxs, bind, get.
      destruct (obligationAccountInfo this); [reflexivity | congruence].
    - unfold resolveSupport, addCAtaIxs, bind, get.
      destruct (Connection.getAccountInfo _ _); [reflexivity | congruence].
    - unfold resolveSupport, addAtaIxs, bind, get.
      destruct (negb _); [| reflexivity].
      destruct (Connection.getAccountInfo _ _); [reflexivity | congruence]. }
  split; [exact E |]. unfold bind at 1. now rewrite E.
Qed.

(** With the user's token accounts on chain, [cAta] emits nothing: the
    object that [initialize] returned for a withdrawal is as it was. *)
Lemma existing_account_emits_nothing_witness :
  initialize Fixtures.Sdk.externals Fixtures.Sdk.main_pool
    Fixtures.Sdk.reserveA withdraw 5 Fixtures.Sdk.user
    Fixtures.Sdk.chain_with_accounts "production" (Some "user-obligation")
    None None None None None None
  = Ok (Fixtures.Sdk.axn Fixtures.Sdk.chain_with_accounts
          Fixtures.Sdk.reserveA None 5 0 None None)
  /\ target_exists cAta
       (Fixtures.Sdk.axn Fixtures.Sdk.chain_with_accounts
          Fixtures.Sdk.reserveA None 5 0 None None)
  /\ buckets
       (snd (resolveSupport Fixtures.Sdk.externals withdraw cAta
               (Fixtures.Sdk.axn Fixtures.Sdk.chain_with_accounts
                  Fixtures.Sdk.reserveA None 5 0 None None)))
     = (None, [], [], [], None, None, None).
Proof.
  assert (T : target_exists cAta
                (Fixtures.Sdk.axn Fixtures.Sdk.chain_with_accounts
                   Fixtures.Sdk.reserveA None 5 0 None None))
    by discriminate.
  split; [vm_compute; reflexivity |]. split; [exact T |].
  rewrite (proj1
    (existing_account_emits_nothing Fixtures.Sdk.externals withdraw cAta
       _ T)).
  reflexivity.
Defined.

(** C9 as stated does not hold: on the object that [initialize] returns
    for a borrow at the Position Limit with a host account and no lookup
    table, where the user's token account is absent, resolving [ata] twice
    in a row appends the same creation instruction to the pre bucket
    twice. *)
Lemma absent_account_is_created_twice :
  initialize Fixtures.Sdk.externals Fixtures.Sdk.main_pool
    Fixtures.Sdk.reserveA borrow 5 Fixtures.Sdk.user
    Fixtures.Sdk.chain_three_by_three "production" (Some "user-obligation")
    (Some "host") None None None None None
  = Ok (Fixtures.Sdk.axn Fixtures.Sdk.chain_three_by_three
          Fixtures.Sdk.reserveA
          (Some Fixtures.Sdk.obligation_three_by_three) 5 6 (Some "host")
          None)
  /\ bind (resolveSupport Fixtures.Sdk.externals borrow ata)
       (fun _ => resolveSupport Fixtures.Sdk.externals borrow ata)
       (Fixtures.Sdk.axn Fixtures.Sdk.chain_three_by_three
          Fixtures.Sdk.reserveA
          (Some Fixtures.Sdk.obligation_three_by_three) 5 6 (Some "host")
          None)
     = (Ok tt,
        set_preIxs
          [Bare
             (createAssociatedTokenAccountInstruction
                ["user"; "user/mintA"; "user"; "mintA"]);
           Bare
             (createAssociatedTokenAccountInstruction
                ["user"; "user/mintA"; "user"; "mintA"])]
          (Fixtures.Sdk.axn Fixtures.Sdk.chain_three_by_three
             Fixtures.Sdk.reserveA
             (Some Fixtures.Sdk.obligation_three_by_three) 5 6 (Some "host")
             None)).
Proof. split; vm_compute; reflexivity. Qed.

(** *** The liquidation wrap capability *)

(** C10.  Resolving [wrapUnwrapLiquidate] returns normally and leaves the
    object, hence every bucket, as it was; the capability is in the table
    of the liquidate action. *)
Theorem wrapUnwrapLiquidate_is_a_noop (X : Externals) (action : ActionType)
    (this : SolendActionCore) :
  resolveSupport X action wrapUnwrapLiquidate this = (Ok tt, this)
  /\ In wrapUnwrapLiquidate (ACTION_SUPPORT_REQUIREMENTS liquidate).
Proof.
  split.
  - unfold resolveSupport, bind, get, addWrapUnwrapLiquidateIxs, ret.
    destruct (wrappedAta this); reflexivity.
  - simpl. tauto.
Qed.

(** *** Sizing of a full repay *)

Lemma new_BigNumber_toString (z : BN) :
  new_BigNumber (BN_toString z) = Finite (inject_Z z).
Proof. unfold new_BigNumber. now rewrite new_BN_toString. Qed.

Lemma safeRepay_number_eq (B r1 r0 : BN) :
  0 < r0 ->
  safeRepay_number B r1 r0 = Math_floor (to_double (sizing_value B r1 r0)).
Proof.
  intros Hr0. unfold safeRepay_number, sizing_value.
  rewrite !new_BigNumber_toString.
  change (new_BigNumber WAD) with (Finite (inject_Z (10 ^ 18))).
  change (new_BigNumber SOL_PADDING_FOR_INTEREST)
    with (Finite (inject_Z 1000000)).
  cbn [multipliedBy dividedBy].
  assert (E : Qeq_bool (inject_Z r0) 0 = false).
  { destruct (Qeq_bool (inject_Z r0) 0) eqn:E; [| reflexivity].
    apply Qeq_bool_iff in E. unfold Qeq in E. simpl in E. lia. }
  rewrite E.
  change (Qeq_bool (inject_Z (10 ^ 18)) 0) with false.
  reflexivity.
Qed.

(** Bounds on the quotient in units of [2^-k] carry over to the value. *)
Lemma sizing_value_between (B r1 r0 lo hi k : Z) :
  0 < r0 -> 0 <= k <= 18 ->
  lo * (r0 * 10 ^ 18) <= 2 ^ k * (B * r1) ->
  2 ^ k * (B * r1) <= hi * (r0 * 10 ^ 18) ->
  (inject_Z (lo + 1000000 * 2 ^ k) / inject_Z (2 ^ k)
   <= sizing_value B r1 r0)%Q
  /\ (sizing_value B r1 r0
      <= inject_Z (hi + 1000000 * 2 ^ k) / inject_Z (2 ^ k))%Q.
Proof.
  intros Hr0 Hk Hlo Hhi. unfold sizing_value.
  set (p := 2 ^ k) in *.
  assert (Hp : 0 < p) by (apply Z.pow_pos_nonneg; lia).
  set (wk := 5 ^ 18 * 2 ^ (18 - k)).
  assert (Hwk : 0 < wk).
  { unfold wk. apply Z.mul_pos_pos; [reflexivity |].
    apply Z.pow_pos_nonneg; lia. }
  assert (Hw : p * wk = 10 ^ 18).
  { unfold p, wk. rewrite Z.mul_comm, <- Z.mul_assoc, <- Z.pow_add_r by lia.
    replace (18 - k + k) with 18 by lia. reflexivity. }
  assert (Hq0 : (0 < inject_Z r0)%Q).
  { change 0%Q with (inject_Z 0). now rewrite <- Zlt_Qlt. }
  assert (Hpq : (0 < inject_Z p)%Q).
  { change 0%Q with (inject_Z 0). now rewrite <- Zlt_Qlt. }
  set (t := (inject_Z B * inject_Z r1 / inject_Z r0)%Q).
  assert (Ht1 : (inject_Z (lo * wk) <= t)%Q).
  { unfold t. apply Qle_shift_div_l; [exact Hq0 |].
    rewrite <- !inject_Z_mult, <- Zle_Qle.
    apply Z.mul_le_mono_pos_l with (p := p); [exact Hp |].
    replace (p * (lo * wk * r0)) with (lo * (r0 * (p * wk))) by ring.
    now rewrite Hw. }
  assert (Ht2 : (t <= inject_Z (hi * wk))%Q).
  { unfold t. apply Qle_shift_div_r; [exact Hq0 |].
    rewrite <- !inject_Z_mult, <- Zle_Qle.
    apply Z.mul_le_mono_pos_l with (p := p); [exact Hp |].
    replace (p * (hi * wk * r0)) with (hi * (r0 * (p * wk))) by ring.
    now rewrite Hw. }
  destruct (round_dp_between _ _ _ Ht1 Ht2) as [Hx1 Hx2].
  set (x1 := round_dp t) in *.
  assert (HW : (0 < inject_Z (10 ^ 18))%Q) by reflexivity.
  assert (E20 : 10 ^ DECIMAL_PLACES = p * (wk * 100)).
  { rewrite Z.mul_assoc, Hw. reflexivity. }
  assert (Hy1 : (inject_Z (lo * (wk * 100)) / inject_Z (10 ^ DECIMAL_PLACES)
                 <= x1 / inject_Z (10 ^ 18))%Q).
  { rewrite E20, Qdiv_scale_eq by lia.
    rewrite <- (Qdiv_scale_eq lo p wk) by lia. rewrite Hw.
    now apply Qdiv_le_mono_r. }
  assert (Hy2 : (x1 / inject_Z (10 ^ 18)
                 <= inject_Z (hi * (wk * 100))
                    / inject_Z (10 ^ DECIMAL_PLACES))%Q).
  { rewrite E20, Qdiv_scale_eq by lia.
    rewrite <- (Qdiv_scale_eq hi p wk) by lia. rewrite Hw.
    now apply Qdiv_le_mono_r. }
  destruct (round_dp_between_decimal _ _ _ Hy1 Hy2) as [Hz1 Hz2].
  set (x2 := round_dp (x1 / inject_Z (10 ^ 18))) in *.
  rewrite E20, Qdiv_scale_eq in Hz1, Hz2 by lia.
  assert (Hsum : forall z,
            (inject_Z (z + 1000000 * p) / inject_Z p
             == inject_Z z / inject_Z p + inject_Z 1000000)%Q).
  { intros z. rewrite inject_Z_plus, inject_Z_mult. field. lra. }
  rewrite !Hsum. split; lra.
Qed.

Lemma new_BN_of_number_safe (X : Externals) (v : Z) :
  Z.abs v <= MAX_SAFE_INTEGER ->
  new_BN_of_number X (Num (inject_Z v)) = Ok v.
Proof.
  intros Hv. unfold new_BN_of_number. rewrite Qfloor_Z.
  assert (E1 : Qeq_bool (inject_Z v) (inject_Z v) = true).
  { apply Qeq_bool_iff. reflexivity. }
  assert (E2 : (Z.abs v <=? MAX_SAFE_INTEGER) = true) by now apply Z.leb_le.
  now rewrite E1, E2.
Qed.

Lemma Qdiv_1_r (q : Q) : (q / inject_Z 1 == q)%Q.
Proof. change (inject_Z 1) with 1%Q. field. Qed.

(** The amount is the floor of the binary64 nearest to the value: the floor
    sizing or one more, and the floor sizing when the fractional part of the
    quotient is at most [1 - 2^-k], for a [k] that the magnitude of the
    amount leaves room for in a binary64. *)
Lemma safeRepay_of_sizing (X : Externals) (B r1 r0 : BN) :
  0 <= B -> 0 <= r1 -> 0 < r0 ->
  floor_sizing B r1 r0 + 1 < 2 ^ 53 ->
  exists v,
    to_double (sizing_value B r1 r0) = Num v
    /\ safeRepay_of X B r1 r0 = Ok (Qfloor v)
    /\ floor_sizing B r1 r0 <= Qfloor v <= floor_sizing B r1 r0 + 1
    /\ (forall k,
          0 <= k <= 18 ->
          (floor_sizing B r1 r0 + 1) * 2 ^ k <= 2 ^ 53 ->
          (B * r1) mod (r0 * WAD_SCALE) * 2 ^ k
          <= r0 * WAD_SCALE * (2 ^ k - 1) ->
          Qfloor v = floor_sizing B r1 r0).
Proof.
  unfold floor_sizing, WAD_SCALE, PADDING. intros HB Hr1 Hr0 Hbound.
  set (n := B * r1 / (r0 * 10 ^ 18)) in *.
  assert (Hd : 0 < r0 * 10 ^ 18) by lia.
  assert (Hn : 0 <= n) by (apply Z.div_pos; nia).
  assert (Hdm := Z.div_mod (B * r1) (r0 * 10 ^ 18) ltac:(lia)).
  assert (Hm := Z.mod_pos_bound (B * r1) (r0 * 10 ^ 18) Hd).
  fold n in Hdm.
  set (rho := (B * r1) mod (r0 * 10 ^ 18)) in *.
  set (D := r0 * 10 ^ 18) in *.
  set (N := B * r1) in *.
  destruct (sizing_value_between B r1 r0 n (n + 1) 0 Hr0) as [Hx1 Hx2];
    [lia | fold D N; change (2 ^ 0) with 1; lia
     | fold D N; change (2 ^ 0) with 1; lia |].
  change (2 ^ 0) with 1 in Hx1, Hx2.
  destruct (to_double_between_dyadic 0 (n + 1000000 * 1)
              (n + 1 + 1000000 * 1) (sizing_value B r1 r0) ltac:(lia)
              ltac:(lia) ltac:(lia) Hx1 Hx2) as (v & Ev & Hv1 & Hv2).
  rewrite Qdiv_1_r in Hv1, Hv2.
  assert (Hf1 : n + 1000000 <= Qfloor v).
  { rewrite <- (Qfloor_Z (n + 1000000)). apply Qfloor_resp_le.
    replace (n + 1000000) with (n + 1000000 * 1) by lia. exact Hv1. }
  assert (Hf2 : Qfloor v <= n + 1 + 1000000).
  { rewrite <- (Qfloor_Z (n + 1 + 1000000)). apply Qfloor_resp_le.
    replace (n + 1 + 1000000) with (n + 1 + 1000000 * 1) by lia. exact Hv2. }
  assert (Es : safeRepay_of X B r1 r0 = Ok (Qfloor v)).
  { unfold safeRepay_of. rewrite safeRepay_number_eq by exact Hr0.
    rewrite Ev. cbn [Math_floor].
    apply new_BN_of_number_safe. unfold MAX_SAFE_INTEGER. lia. }
  exists v. split; [exact Ev |]. split; [exact Es |]. split; [lia |].
  intros k Hk Hroom Hfrac.
  assert (Hp : 0 < 2 ^ k) by (apply Z.pow_pos_nonneg; lia).
  set (p := 2 ^ k) in *.
  destruct (sizing_value_between B r1 r0 (n * p) ((n + 1) * p - 1) k Hr0 Hk)
    as [Hy1 Hy2]; [fold p D N; nia | fold p D N; nia |].
  fold p in Hy1, Hy2.
  destruct (to_double_between_dyadic k (n * p + 1000000 * p)
              ((n + 1) * p - 1 + 1000000 * p) (sizing_value B r1 r0)
              ltac:(lia) ltac:(nia) ltac:(nia) Hy1 Hy2)
    as (v' & Ev' & _ & Hv').
  rewrite Ev in Ev'. injection Ev' as <-.
  assert (Hlt : (v < inject_Z (n + 1 + 1000000))%Q).
  { eapply Qle_lt_trans; [exact Hv' |].
    apply Qlt_shift_div_r.
    - change 0%Q with (inject_Z 0). now rewrite <- Zlt_Qlt.
    - rewrite <- inject_Z_mult, <- Zlt_Qlt. lia. }
  assert (Hfl : (inject_Z (Qfloor v) < inject_Z (n + 1 + 1000000))%Q).
  { eapply Qle_lt_trans; [apply Qfloor_le | exact Hlt]. }
  rewrite <- Zlt_Qlt in Hfl. lia.
Qed.

(** C4, as the code has it.  For a full-balance repay (the amount is the
    sentinel) on an existing obligation that has a borrow on the reserve,
    with the reserve account read and parsed, a positive snapshot rate and
    amounts below [2^53], the amount [safeRepay] that [updateWSOLAccount]
    computes is the floor of the binary64 nearest to
    [B * r1 / r0 / WAD + P], each division rounded to 20 decimals: the value
    is rounded to a binary64 before the floor is taken.  It is
    [floor(B * r1 / r0 / WAD) + P] or one more than that, and it is exactly
    [floor(B * r1 / r0 / WAD) + P] whenever the fractional part of
    [B * r1 / r0 / WAD] is at most [1 - 2^-k] for some [k] up to 18 that
    leaves the amount below [2^(53-k)]; [k = 0] is the case of an integer
    quotient.  [P] is 1_000_000. *)
Theorem full_repay_sizing (X : Externals) (this : SolendActionCore)
    (obligation : Obligation.t) (buffer : AccountInfo)
    (parsedData : Reserve.t) (b : ObligationLiquidity.t) :
  obligationAccountInfo this = Some obligation ->
  amount this = SENTINEL ->
  Connection.getAccountInfo (connection this)
    (new_PublicKey (ReserveType.address (reserve this)))
  = Some buffer ->
  parseReserve X (new_PublicKey (ReserveType.address (reserve this))) buffer
  = Some parsedData ->
  find
    (fun b =>
       String.eqb (toBase58 (ObligationLiquidity.borrowReserve b))
         (ReserveType.address (reserve this)))
    (Obligation.borrows obligation)
  = Some b ->
  0 <= ObligationLiquidity.borrowedAmountWads b ->
  0 <= Reserve.cumulativeBorrowRateWads parsedData ->
  0 < ObligationLiquidity.cumulativeBorrowRateWads b ->
  floor_sizing (ObligationLiquidity.borrowedAmountWads b)
    (Reserve.cumulativeBorrowRateWads parsedData)
    (ObligationLiquidity.cumulativeBorrowRateWads b) + 1 < 2 ^ 53 ->
  exists safeRepay v,
    computeSafeRepay X repay this = (Ok safeRepay, this)
    /\ to_double
         (sizing_value (ObligationLiquidity.borrowedAmountWads b)
            (Reserve.cumulativeBorrowRateWads parsedData)
            (ObligationLiquidity.cumulativeBorrowRateWads b))
       = Num v
    /\ safeRepay = Qfloor v
    /\ floor_sizing (ObligationLiquidity.borrowedAmountWads b)
         (Reserve.cumulativeBorrowRateWads parsedData)
         (ObligationLiquidity.cumulativeBorrowRateWads b)
       <= safeRepay
       <= floor_sizing (ObligationLiquidity.borrowedAmountWads b)
            (Reserve.cumulativeBorrowRateWads parsedData)
            (ObligationLiquidity.cumulativeBorrowRateWads b) + 1
    /\ (forall k,
          0 <= k <= 18 ->
          (floor_sizing (ObligationLiquidity.borrowedAmountWads b)
             (Reserve.cumulativeBorrowRateWads parsedData)
             (ObligationLiquidity.cumulativeBorrowRateWads b) + 1) * 2 ^ k
          <= 2 ^ 53 ->
          (ObligationLiquidity.borrowedAmountWads b
           * Reserve.cumulativeBorrowRateWads parsedData)
          mod (ObligationLiquidity.cumulativeBorrowRateWads b * WAD_SCALE)
          * 2 ^ k
          <= ObligationLiquidity.cumulativeBorrowRateWads b * WAD_SCALE
             * (2 ^ k - 1) ->
          safeRepay
          = floor_sizing (ObligationLiquidity.borrowedAmountWads b)
              (Reserve.cumulativeBorrowRateWads parsedData)
              (ObligationLiquidity.cumulativeBorrowRateWads b)).
Proof.
  intros Hob Hamount Hbuf Hparse Hfind HB Hr1 Hr0 Hbound.
  destruct (safeRepay_of_sizing X _ _ _ HB Hr1 Hr0 Hbound)
    as (v & Ev & E & Hrange & Hexact).
  exists (Qfloor v), v. split; [| auto].
  unfold computeSafeRepay, bind, get, lift.
  rewrite Hob, Hamount. change (BN_const U64_MAX) with SENTINEL.
  rewrite Z.eqb_refl. cbn [ActionType_eqb andb].
  rewrite Hbuf, Hparse, Hfind, E. reflexivity.
Qed.

(** The sizing example: [B = 1000 WAD], snapshot rate 1, current rate 1.05
    give [1050 + 1_000_000].  A debt of 1049.999999999999999999 at an
    unchanged rate: the floor sizing is [1049 + 1_000_000], the code
    computes [1050 + 1_000_000]. *)
Lemma full_repay_sizing_witness :
  (initialize Fixtures.Sdk.externals Fixtures.Sdk.main_pool
     Fixtures.Sdk.reserveSOL repay SENTINEL Fixtures.Sdk.user
     Fixtures.Sdk.chain_sol_example "production" (Some "user-obligation")
     None None None None None None
   = Ok (Fixtures.Sdk.axn Fixtures.Sdk.chain_sol_example
           Fixtures.Sdk.reserveSOL (Some Fixtures.Sdk.obligation_sol_example)
           SENTINEL 2 None None)
   /\ computeSafeRepay Fixtures.Sdk.externals repay
        (Fixtures.Sdk.axn Fixtures.Sdk.chain_sol_example
           Fixtures.Sdk.reserveSOL (Some Fixtures.Sdk.obligation_sol_example)
           SENTINEL 2 None None)
      = (Ok (1050 + 1000000),
         Fixtures.Sdk.axn Fixtures.Sdk.chain_sol_example
           Fixtures.Sdk.reserveSOL (Some Fixtures.Sdk.obligation_sol_example)
           SENTINEL 2 None None))
  /\ (initialize Fixtures.Sdk.externals Fixtures.Sdk.main_pool
        Fixtures.Sdk.reserveSOL repay SENTINEL Fixtures.Sdk.user
        Fixtures.Sdk.chain_sol_fraction "production" (Some "user-obligation")
        None None None None None None
      = Ok (Fixtures.Sdk.axn Fixtures.Sdk.chain_sol_fraction
              Fixtures.Sdk.reserveSOL
              (Some Fixtures.Sdk.obligation_sol_fraction) SENTINEL 2 None
              None)
      /\ floor_sizing 1049999999999999999999 (10 ^ 18) (10 ^ 18)
         = 1049 + 1000000
      /\ computeSafeRepay Fixtures.Sdk.externals repay
           (Fixtures.Sdk.axn Fixtures.Sdk.chain_sol_fraction
              Fixtures.Sdk.reserveSOL
              (Some Fixtures.Sdk.obligation_sol_fraction) SENTINEL 2 None
              None)
         = (Ok (1050 + 1000000),
            Fixtures.Sdk.axn Fixtures.Sdk.chain_sol_fraction
              Fixtures.Sdk.reserveSOL
              (Some Fixtures.Sdk.obligation_sol_fraction) SENTINEL 2 None
              None)).
Proof.
  split.
  - split; [vm_compute; reflexivity |].
    destruct (full_repay_sizing Fixtures.Sdk.externals
                (Fixtures.Sdk.axn Fixtures.Sdk.chain_sol_example
                   Fixtures.Sdk.reserveSOL
                   (Some Fixtures.Sdk.obligation_sol_example) SENTINEL 2 None
                   None)
                Fixtures.Sdk.obligation_sol_example
                (Fixtures.Sdk.account "rate-1.05")
                {| Reserve.cumulativeBorrowRateWads := 105 * 10 ^ 16 |}
                (Fixtures.Sdk.mkBorrow "reserveSOL" (1000 * 10 ^ 18)
                   (10 ^ 18))
                eq_refl eq_refl eq_refl eq_refl eq_refl)
      as (s & v & E & _ & _ & _ & Hexact);
      [discriminate | discriminate | reflexivity | reflexivity |].
    rewrite (Hexact 0) in E;
      [exact E | lia | vm_compute; discriminate | vm_compute; discriminate].
  - split; [vm_compute; reflexivity |]. split; [vm_compute; reflexivity |].
    destruct (full_repay_sizing Fixtures.Sdk.externals
                (Fixtures.Sdk.axn Fixtures.Sdk.chain_sol_fraction
                   Fixtures.Sdk.reserveSOL
                   (Some Fixtures.Sdk.obligation_sol_fraction) SENTINEL 2 None
                   None)
                Fixtures.Sdk.obligation_sol_fraction
                (Fixtures.Sdk.account "rate-1.00")
                {| Reserve.cumulativeBorrowRateWads := 10 ^ 18 |}
                (Fixtures.Sdk.mkBorrow "reserveSOL" 1049999999999999999999
                   (10 ^ 18))
                eq_refl eq_refl eq_refl eq_refl eq_refl)
      as (s & v & E & Ev & -> & _ & _);
      [discriminate | discriminate | reflexivity | reflexivity |].
    rewrite E. f_equal. f_equal.
    vm_compute in Ev. injection Ev as <-. vm_compute. reflexivity.
Defined.

End ActionFacts.

(** ** The liquidator *)

Module LiquidatorFacts.
Import Numeric Js Liquidator Spec.Bot.

Section Program.

Context {Chain Reserves Account Client : Type}.
Variable X : Externals Chain Reserves Account Client.

Variable payer : Account.
Variable market : MarketConfig.t.
Variable tokensOracle : list TokenOracleData.t.
Variable allReserves : Reserves.

(** *** Computations that only append calls *)

Section Appends.

Variable P : Call -> Prop.

Lemma appends_pure {A} (c : Run Chain Client A) :
  (forall w, calls (snd (c w)) = calls w) -> appends P c.
Proof.
  intros H w. exists []. rewrite H, app_nil_r. split; [reflexivity |].
  constructor.
Qed.

Lemma appends_ret {A} (a : A) : appends P (ret a : Run Chain Client A).
Proof. now apply appends_pure. Qed.

Lemma appends_throw {A} (s : Signal) : appends P (throw s : Run Chain Client A).
Proof. now apply appends_pure. Qed.

Lemma appends_get : appends P (get : Run Chain Client (World Chain Client)).
Proof. now apply appends_pure. Qed.

Lemma appends_call {A} (r : Result Error A) :
  appends P (call r : Run Chain Client A).
Proof. apply appends_pure. intros w. unfold call. now destruct r. Qed.

Lemma appends_console_write (line : string) :
  appends P (console_write line : Run Chain Client unit).
Proof. now apply appends_pure. Qed.

Lemma appends_set_obligation (o : option ParsedObligation.t) :
  appends P (set_obligation o : Run Chain Client unit).
Proof. now apply appends_pure. Qed.

Lemma appends_set_chain (c : Chain) :
  appends P (set_chain c : Run Chain Client unit).
Proof. now apply appends_pure. Qed.

Lemma appends_set_switchboardV2 (p : Client) :
  appends P (set_switchboardV2 p : Run Chain Client unit).
Proof. now apply appends_pure. Qed.

Lemma appends_record (c : Call) : P c -> appends P
    (record c : Run Chain Client unit).
Proof.
  intros H w. exists [c]. split; [reflexivity |]. now constructor.
Qed.

Lemma appends_bind {A B} (c : Run Chain Client A)
    (k : A -> Run Chain Client B) :
  appends P c -> (forall a, appends P (k a)) -> appends P (bind c k).
Proof.
  intros Hc Hk w. unfold bind. destruct (Hc w) as (n1 & E1 & F1).
  destruct (c w) as [[a | e] w1]; simpl in E1.
  - destruct (Hk a w1) as (n2 & E2 & F2). exists (n1 ++ n2).
    rewrite E2, E1, app_assoc. split; [reflexivity |].
    apply Forall_app. now split.
  - exists n1. now split.
Qed.

Lemma appends_bind_call {A B} (r : Result Error A)
    (k : A -> Run Chain Client B) :
  (forall a, r = Ok a ->
  appends P (k a)) -> appends P (bind (call r : Run Chain Client A) k).
Proof.
  intros Hk w. unfold bind, call. destruct r as [a | e].
  - exact (Hk a eq_refl w).
  - exists []. simpl. rewrite app_nil_r. split; [reflexivity | constructor].
Qed.

Lemma appends_bind_read {A B} (f : Chain -> Result Error A)
    (k : A -> Run Chain Client B) :
  (forall a c, f c = Ok a ->
  appends P (k a)) -> appends P (bind (read f : Run Chain Client A) k).
Proof.
  intros Hk w. unfold read, call, get, bind.
  destruct (f (chain w)) as [a | e] eqn:E.
  - exact (Hk a (chain w) E w).
  - exists []. simpl. rewrite app_nil_r. split; [reflexivity | constructor].
Qed.

Lemma appends_try_catch {A} (body : Run Chain Client A)
    (handler : Error -> Run Chain Client A) :
  appends P body -> (forall e, appends P (handler e)) ->
  appends P (try_catch body handler).
Proof.
  intros Hb Hh w. unfold try_catch. destruct (Hb w) as (n1 & E1 & F1).
  destruct (body w) as [[a | [e |]] w1]; simpl in E1.
  - exists n1. now split.
  - destruct (Hh e w1) as (n2 & E2 & F2). exists (n1 ++ n2).
    rewrite E2, E1, app_assoc. split; [reflexivity |].
    apply Forall_app. now split.
  - exists n1. now split.
Qed.

Lemma appends_for_of {A} (xs : list A) (body : A -> Run Chain Client unit) :
  (forall x, appends P (body x)) -> appends P (for_of xs body).
Proof.
  intros Hb. induction xs as [| x xs IH]; simpl.
  - apply appends_ret.
  - apply appends_bind; [apply Hb | intros _; exact IH].
Qed.

Lemma appends_on_error (e : Error) :
  appends P (on_error e : Run Chain Client unit).
Proof.
  unfold on_error. apply appends_bind; [apply appends_get |].
  intros w. destruct (obligation w).
  - apply appends_console_write.
  - apply appends_throw.
Qed.

(** What [P] must grant: every evaluation, and a liquidation that follows
    an evaluation that was not healthy and a read of the balance. *)
Hypothesis P_evaluate : forall o, P (Evaluate o).
Hypothesis P_liquidate :
  forall o refreshed amount repaySymbol withdrawSymbol mint symbol c,
    calculateRefreshedObligation X (ParsedObligation.info o) allReserves
      tokensOracle
    = Ok refreshed ->
    isLessThanOrEqualTo (RefreshedObligation.borrowedValue refreshed)
      (RefreshedObligation.unhealthyBorrowValue refreshed)
    = false ->
    getWalletTokenData X market payer mint symbol c = Ok amount ->
    P (LiquidateAndRedeem amount repaySymbol withdrawSymbol market o).

(** A pass records the evaluation first; what follows appends calls that
    satisfy [P]. *)
Lemma pass_decompose (o : ParsedObligation.t) :
  exists body,
    pass X payer market tokensOracle allReserves o
    = bind (record (Evaluate o)) (fun _ => body)
    /\ appends P body.
Proof.
  eexists. split; [reflexivity |].
  apply appends_bind_call. intros refreshed Hcalc. cbv beta zeta.
  destruct (isLessThanOrEqualTo
              (RefreshedObligation.borrowedValue refreshed)
              (RefreshedObligation.unhealthyBorrowValue refreshed)) eqn:Hle;
    [apply appends_ret |].
  destruct (hd_error (sortBorrows X (RefreshedObligation.borrows refreshed)))
    as [b |]; [| apply appends_ret].
  destruct (selectDeposit (RefreshedObligation.deposits refreshed))
    as [d |]; [| apply appends_ret].
  apply appends_bind; [apply appends_console_write | intros _].
  apply appends_bind_read. intros balanceBase c Hbal. cbv beta.
  destruct (is_zero balanceBase).
  { apply appends_bind; [apply appends_console_write | intros _].
    apply appends_ret. }
  destruct (is_negative balanceBase).
  { apply appends_bind; [apply appends_console_write | intros _].
    apply appends_ret. }
  apply appends_bind.
  { apply appends_record. eapply P_liquidate; eassumption. }
  intros _. apply appends_bind; [apply appends_get | intros w].
  apply appends_bind.
  { destruct (liquidateAndRedeem _ _ _ _ _ _ _ _) as [r c'].
    apply appends_bind; [apply appends_set_chain | intros _].
    apply appends_call. }
  intros _. apply appends_bind_read. intros post c' _.
  apply appends_bind_call. intros parsed _.
  apply appends_bind; [apply appends_set_obligation | intros _].
  apply appends_ret.
Qed.

Lemma appends_pass (o : ParsedObligation.t) :
  appends P (pass X payer market tokensOracle allReserves o).
Proof.
  destruct (pass_decompose o) as (body & -> & Hbody).
  apply appends_bind; [apply appends_record, P_evaluate | intros _].
  exact Hbody.
Qed.

Lemma appends_while (fuel : nat) :
  appends P (while_obligation X payer market tokensOracle allReserves fuel).
Proof.
  induction fuel as [| fuel IH]; simpl.
  - apply appends_bind; [apply appends_get | intros w].
    destruct (obligation w); [apply appends_throw | apply appends_ret].
  - apply appends_bind; [apply appends_get | intros w].
    destruct (obligation w) as [o |]; [| apply appends_ret].
    apply appends_bind; [apply appends_pass | intros p].
    destruct p; [apply appends_ret | exact IH].
Qed.

Lemma appends_for_obligations (fuel : nat)
    (allObligations : list (option ParsedObligation.t)) :
  appends P
    (for_obligations X payer market tokensOracle allReserves fuel
       allObligations).
Proof.
  apply appends_for_of. intros o.
  apply appends_bind; [apply appends_set_obligation | intros _].
  apply appends_try_catch; [apply appends_while | apply appends_on_error].
Qed.

End Appends.

(** *** Exceptions stay inside an obligation's iteration *)
















(** *** Properties of the loop *)

(** C7.  A pass on an obligation whose evaluation is healthy
    ([borrowedValue <= unhealthyBorrowValue]) ends the loop at once: nothing
    is submitted, the chain and the console are as they were.  And in any
    scan every liquidation submitted is for an obligation whose evaluation,
    made in the same pass, is not healthy. *)
Theorem healthy_obligation_is_left_alone (fuel : nat) (w : World Chain Client)
    (o : ParsedObligation.t)
    (allObligations : list (option ParsedObligation.t)) :
  (obligation w = Some o ->
   healthy X tokensOracle allReserves o = true ->
   while_obligation X payer market tokensOracle allReserves (S fuel) w
   = (Ok tt, after_healthy w o))
  /\ appends (justified X tokensOracle allReserves)
       (for_obligations X payer market tokensOracle allReserves fuel
          allObligations).
Proof.
  split.
  - intros Ho Hh. unfold healthy in Hh. cbn [while_obligation].
    unfold bind at 1. unfold get at 1. rewrite Ho.
    unfold bind at 1. unfold pass. unfold bind at 1. unfold record at 1.
    unfold modify. unfold bind at 1. unfold call at 1.
    destruct (calculateRefreshedObligation X (ParsedObligation.info o)
                allReserves tokensOracle) as [refreshed | e];
      [| discriminate].
    cbv beta zeta. rewrite Hh. reflexivity.
  - apply appends_for_obligations.
    + intros o'. exact I.
    + intros o' refreshed amount rs ws mint symbol c Hcalc Hle _.
      unfold justified, healthy. now rewrite Hcalc.
Qed.

(** Every amount handed to [liquidateAndRedeem] is the wallet balance read
    just before. *)
Lemma liquidation_amount_is_the_balance (fuel : nat)
    (allObligations : list (option ParsedObligation.t)) :
  appends (amount_is_balance X payer market)
    (for_obligations X payer market tokensOracle allReserves fuel
       allObligations).
Proof.
  apply appends_for_obligations.
  - intros o'. exact I.
  - intros o' refreshed amount rs ws mint symbol c _ _ Hbal.
    exists mint, symbol, c. exact Hbal.
Qed.


(** *** The oracle reader *)

(** The price does not resolve when the oracle account is missing or owned
    by neither Switchboard program. *)
Lemma unrecognized_owner_reads_nothing (reserve : MarketConfigReserve.t)
    (w : World Chain Client) (info : option Actions.AccountInfo) :
  getAccountInfo X
    (Actions.new_PublicKey (MarketConfigReserve.switchboardOracle reserve))
    (chain w)
  = Ok info ->
  (forall i,
     info = Some i ->
     Actions.account_owner i <> SWITCHBOARD_V1_ADDRESS
     /\ Actions.account_owner i <> SWITCHBOARD_V2_ADDRESS) ->
  exists line,
    readPriceData X reserve w = (Ok None, logged w line).
Proof.
  intros Hinfo Howner. unfold readPriceData.
  unfold bind at 1. unfold read, bind, get, call. rewrite Hinfo.
  destruct info as [i |].
  - destruct (Howner i eq_refl) as [H1 H2].
    apply String.eqb_neq in H1, H2. rewrite H1, H2.
    eexists. reflexivity.
  - eexists. reflexivity.
Qed.

Lemma falsy_price_is_zero (reserve : MarketConfigReserve.t)
    (w w1 : World Chain Client) (priceData : option number) :
  readPriceData X reserve w = (Ok priceData, w1) ->
  falsy priceData = true ->
  getTokenOracleData X reserve w
  = (Ok (zero_price_data reserve),
     logged w1 (failed_price_message reserve)).
Proof.
  intros Hread Hfalsy. unfold getTokenOracleData.
  unfold bind at 1. rewrite Hread, Hfalsy. reflexivity.
Qed.

(** C5, as the code has it.  When the price of a reserve does not resolve
    (the value read is absent, zero or [NaN]; in particular when the oracle
    account is missing or owned by neither Switchboard program),
    [getTokenOracleData] does not fail: it logs the failure and returns the
    data of the reserve with price 0. *)
Theorem unresolved_price_is_zero (reserve : MarketConfigReserve.t)
    (w : World Chain Client) :
  (forall priceData w1,
     readPriceData X reserve w = (Ok priceData, w1) ->
     falsy priceData = true ->
     getTokenOracleData X reserve w
     = (Ok (zero_price_data reserve),
        logged w1 (failed_price_message reserve)))
  /\ (forall info,
        getAccountInfo X
          (Actions.new_PublicKey
             (MarketConfigReserve.switchboardOracle reserve))
          (chain w)
        = Ok info ->
        (forall i,
           info = Some i ->
           Actions.account_owner i <> SWITCHBOARD_V1_ADDRESS
           /\ Actions.account_owner i <> SWITCHBOARD_V2_ADDRESS) ->
        exists line,
          getTokenOracleData X reserve w
          = (Ok (zero_price_data reserve),
             logged (logged w line) (failed_price_message reserve))).
Proof.
  split.
  - intros priceData w1. apply falsy_price_is_zero.
  - intros info Hinfo Howner.
    destruct (unrecognized_owner_reads_nothing reserve w info Hinfo Howner)
      as (line & Hread).
    exists line. now apply (falsy_price_is_zero reserve w _ None).
Qed.

End Program.

(** *** On a concrete market *)

(** C2, evaluated: with 5 base units of the repay token in the wallet, the
    liquidation of the underwater obligation is submitted with the amount 5,
    the balance, and not with the sentinel 18446744073709551615. *)
Theorem liquidation_is_sized_by_the_wallet_balance :
  calls
    (snd (for_obligations Fixtures.Bot.externals tt Fixtures.Bot.market []
            tt 3 [Some Fixtures.Bot.underwater] Fixtures.Bot.start))
  = [Evaluate Fixtures.Bot.underwater;
     LiquidateAndRedeem (Num 5) "USDC" "SOL" Fixtures.Bot.market
       Fixtures.Bot.underwater;
     Evaluate (Fixtures.Bot.mkObligation "obligation-2" "healthy")]
  /\ getWalletTokenData Fixtures.Bot.externals Fixtures.Bot.market tt
       "mintUSDC" "USDC" 0%nat
     = Ok (Num 5).
Proof. split; reflexivity. Qed.

(** The solvent obligation is evaluated and nothing else happens. *)
Lemma healthy_obligation_is_left_alone_witness :
  healthy Fixtures.Bot.externals [] tt Fixtures.Bot.solvent = true
  /\ while_obligation Fixtures.Bot.externals tt Fixtures.Bot.market [] tt 3
       (Fixtures.Bot.at_obligation Fixtures.Bot.solvent)
     = (Ok tt,
        after_healthy (Fixtures.Bot.at_obligation Fixtures.Bot.solvent)
          Fixtures.Bot.solvent).
Proof.
  split; [reflexivity |].
  exact (proj1
    (healthy_obligation_is_left_alone Fixtures.Bot.externals tt
       Fixtures.Bot.market [] tt 2
       (Fixtures.Bot.at_obligation Fixtures.Bot.solvent)
       Fixtures.Bot.solvent [])
    eq_refl eq_refl).
Defined.


(** The SOL oracle account is owned by the system program: the price does
    not resolve and the data comes back with price 0. *)
Lemma unresolved_price_is_zero_witness :
  readPriceData Fixtures.Bot.externals Fixtures.Bot.sol_reserve
    Fixtures.Bot.start
  = (Ok None,
     logged Fixtures.Bot.start
       (String.append "unrecognized switchboard owner address: "
          Fixtures.Bot.SYSTEM_PROGRAM))
  /\ falsy None = true
  /\ getTokenOracleData Fixtures.Bot.externals Fixtures.Bot.sol_reserve
       Fixtures.Bot.start
     = (Ok (zero_price_data Fixtures.Bot.sol_reserve),
        logged
          (logged Fixtures.Bot.start
             (String.append "unrecognized switchboard owner address: "
                Fixtures.Bot.SYSTEM_PROGRAM))
          "failed to get price for SOL | reserve reserveSOL").
Proof.
  split; [reflexivity |]. split; [reflexivity |].
  exact (proj1
    (unresolved_price_is_zero Fixtures.Bot.externals
       Fixtures.Bot.sol_reserve Fixtures.Bot.start)
    None
    (logged Fixtures.Bot.start
       (String.append "unrecognized switchboard owner address: "
          Fixtures.Bot.SYSTEM_PROGRAM))
    eq_refl eq_refl).
Defined.

(** C5 as stated does not hold: the oracle of the SOL reserve is an
    account of neither Switchboard program, no price resolves for it, and
    [getTokenOracleData] returns normally with price 0; the scan of the
    market then goes on to evaluate the obligations. *)
Lemma unresolved_oracle_does_not_fail :
  getAccountInfo Fixtures.Bot.externals "oracle-sol" 0%nat
  = Ok (Some {| Actions.account_owner := Fixtures.Bot.SYSTEM_PROGRAM;
                Actions.account_data := "" |})
  /\ (exists data,
        fst (getTokenOracleData Fixtures.Bot.externals
               Fixtures.Bot.sol_reserve Fixtures.Bot.start)
        = Ok data
        /\ TokenOracleData.price data = Num 0)
  /\ fst (scan_market Fixtures.Bot.externals tt 3 Fixtures.Bot.market
            Fixtures.Bot.start)
     = Ok tt.
Proof.
  split; [reflexivity |]. split; [| reflexivity].
  eexists. split; reflexivity.
Qed.

End LiquidatorFacts.

(** * More properties *)

(** ** More on rounding *)

Module RoundingFacts.
Import Numeric NumericMore NumericFacts.

(** The binary64 nearest to a positive rational that is at most an integer
    below [2^53] is a number between 0 and that integer. *)
Lemma to_double_pos_le (q : Q) (b : Z) :
  (0 < q)%Q -> (q <= inject_Z b)%Q -> b < 2 ^ 53 ->
  exists v, to_double_pos q = Num v /\ (0 <= v)%Q /\ (v <= inject_Z b)%Q.
Proof.
  intros Hq Hqb Hb.
  assert (Hqlt : (q < inject_Z (2 ^ (52 + 1)))%Q).
  { apply Qle_lt_trans with (inject_Z b); [exact Hqb |].
    now rewrite <- Zlt_Qlt. }
  unfold to_double_pos.
  set (e := Z.max (ilog2 q) (-1022)).
  assert (He : e <= 52).
  { assert (ilog2 q <= 52); [| lia].
    apply ilog2_le; [lia | exact Hq | exact Hqlt]. }
  set (k := 52 - e).
  replace (e - 52) with (- k) by lia.
  assert (Hk0 : 0 <= k) by lia.
  assert (Hinv := pow2_inv k Hk0). assert (Hpos := pow2_pos (- k)).
  set (ulp := pow2 (- k)) in *.
  set (s := inject_Z (2 ^ k)) in *.
  assert (Hs : (0 < s)%Q).
  { unfold s. change 0%Q with (inject_Z 0). rewrite <- Zlt_Qlt.
    apply Z.pow_pos_nonneg; lia. }
  assert (Hdiv : (q / ulp == q * s)%Q).
  { apply (Qmult_inj_r _ _ ulp); [lra |].
    setoid_replace (q / ulp * ulp)%Q with q by (field; lra).
    setoid_replace (q * s * ulp)%Q with (q * (ulp * s))%Q by ring.
    rewrite Hinv. ring. }
  assert (Hm : 0 <= round_half_even (q / ulp) <= b * 2 ^ k).
  { apply round_half_even_between; rewrite Hdiv.
    - change (inject_Z 0) with 0%Q. apply Qmult_le_0_compat; lra.
    - rewrite inject_Z_mult. fold s. apply Qmult_le_compat_r; lra. }
  destruct Hm as [Hm1 Hm2].
  rewrite Zle_Qle in Hm1, Hm2. rewrite inject_Z_mult in Hm2. fold s in Hm2.
  change (inject_Z 0) with 0%Q in Hm1.
  set (m := inject_Z (round_half_even (q / ulp))) in *.
  assert (Hv1 : (0 <= m * ulp)%Q) by (apply Qmult_le_0_compat; lra).
  assert (Hv2 : (m * ulp <= inject_Z b)%Q).
  { setoid_replace (inject_Z b) with (inject_Z b * s * ulp)%Q.
    - apply Qmult_le_compat_r; lra.
    - setoid_replace (inject_Z b * s * ulp)%Q
        with (inject_Z b * (ulp * s))%Q by ring.
      rewrite Hinv. ring. }
  assert (Hov : Qle_bool (pow2 1024) (m * ulp) = false).
  { destruct (Qle_bool (pow2 1024) (m * ulp)) eqn:E; [| reflexivity].
    apply Qle_bool_iff in E. exfalso.
    assert (H : (inject_Z (2 ^ 53) < pow2 1024)%Q) by reflexivity.
    assert (Hb53 : (inject_Z b < inject_Z (2 ^ 53))%Q)
      by now rewrite <- Zlt_Qlt.
    lra. }
  rewrite Hov. exists (m * ulp)%Q. auto.
Qed.

Lemma to_double_pos_sign (q : Q) :
  (0 < q)%Q ->
  to_double_pos q = PosInfinity
  \/ exists v, to_double_pos q = Num v /\ (0 <= v)%Q.
Proof.
  intros Hq. unfold to_double_pos.
  set (ulp := pow2 (Z.max (ilog2 q) (-1022) - 52)).
  assert (Hpos : (0 < ulp)%Q) by apply pow2_pos.
  destruct (Qle_bool _ _); [now left | right].
  eexists. split; [reflexivity |].
  apply Qmult_le_0_compat; [| lra].
  assert (H : 0 <= round_half_even (q / ulp)).
  { unfold round_half_even.
    assert (Hf : 0 <= Qfloor (q / ulp)).
    { rewrite <- (Qfloor_Z 0). apply Qfloor_resp_le.
      change (inject_Z 0) with 0%Q. apply Qle_shift_div_l; [exact Hpos |].
      setoid_replace (0 * ulp)%Q with 0%Q by ring. lra. }
    destruct (_ ?= _)%Q; [destruct (Z.even _) | |]; lia. }
  rewrite Zle_Qle in H. exact H.
Qed.

(** Rounding to the nearest binary64 does not cross an integer below
    [2^53]. *)
Lemma to_double_not_above (q : Q) (b : Z) :
  0 <= b < 2 ^ 53 -> (q <= inject_Z b)%Q ->
  number_gt (to_double q) (Num (inject_Z b)) = false.
Proof.
  intros Hb Hq. unfold to_double.
  assert (Hb0 : (0 <= inject_Z b)%Q).
  { change 0%Q with (inject_Z 0). rewrite <- Zle_Qle. lia. }
  destruct (q ?= 0)%Q eqn:E.
  - simpl. apply negb_false_iff, Qle_bool_iff. exact Hb0.
  - apply Qlt_alt in E.
    destruct (to_double_pos_sign (- q)) as [-> | (v & -> & Hv)]; [lra | |];
      simpl; [reflexivity |].
    apply negb_false_iff, Qle_bool_iff. lra.
  - apply Qgt_alt in E.
    destruct (to_double_pos_le q b) as (v & -> & _ & Hv); [lra | lra | lia |].
    simpl. apply negb_false_iff, Qle_bool_iff. exact Hv.
Qed.

Lemma Qdiv_one (q : Q) : (q / 1 == q)%Q.
Proof. field. Qed.

Lemma to_double_not_below (q : Q) (a b : Z) :
  1 <= a -> b < 2 ^ 53 -> (inject_Z a <= q)%Q -> (q <= inject_Z b)%Q ->
  exists v, to_double q = Num v /\ (inject_Z a <= v)%Q /\ (v <= inject_Z b)%Q.
Proof.
  intros Ha Hb Haq Hqb.
  destruct (to_double_between_dyadic 0 a b q) as (v & E & H1 & H2);
    try lia.
  - change (inject_Z (2 ^ 0)) with 1%Q. now rewrite Qdiv_one.
  - change (inject_Z (2 ^ 0)) with 1%Q. now rewrite Qdiv_one.
  - change (inject_Z (2 ^ 0)) with 1%Q in H1, H2.
    rewrite Qdiv_one in H1, H2. now exists v.
Qed.

(** An integer of the safe range is a number as it is. *)
Lemma number_of_Z_exact (z : Z) :
  0 <= z < 2 ^ 53 ->
  exists v, number_of_Z z = Num v /\ (v == inject_Z z)%Q.
Proof.
  intros Hz. unfold number_of_Z.
  destruct (Z.eq_dec z 0) as [-> | Hne].
  - exists 0%Q. split; reflexivity.
  - destruct (to_double_not_below (inject_Z z) z z) as (v & E & H1 & H2);
      try lia; try apply Qle_refl.
    exists v. split; [exact E | lra].
Qed.

Lemma to_double_nonneg_le (q : Q) (b : Z) :
  (0 <= q)%Q -> (q <= inject_Z b)%Q -> b < 2 ^ 53 ->
  exists v, to_double q = Num v /\ (0 <= v)%Q /\ (v <= inject_Z b)%Q.
Proof.
  intros Hq Hqb Hb. unfold to_double.
  destruct (q ?= 0)%Q eqn:E.
  - apply Qeq_alt in E. exists 0%Q. split; [reflexivity |]. lra.
  - apply Qlt_alt in E. lra.
  - apply Qgt_alt in E. now apply to_double_pos_le.
Qed.

End RoundingFacts.

(** ** More on the action builder *)

Module BuilderFacts.
Import Numeric Js Actions Spec.Sdk NumericFacts ActionFacts.

Lemma support_eq_refresh (s : SupportType) :
  {s = refreshReserves} + {s <> refreshReserves}.
Proof. destruct s; (now left) || (right; discriminate). Qed.

(** *** What [initialize] establishes *)

Lemma substring_length_le (n m : nat) (s : string) :
  (String.length (substring n m s) <= m)%nat.
Proof.
  revert n m. induction s as [| c s IH]; intros n m.
  - destruct n, m; simpl; lia.
  - destruct n as [| n].
    + destruct m as [| m]; simpl; [lia |]. specialize (IH 0%nat m). lia.
    + simpl. apply IH.
Qed.

(** X1.  An object returned by [initialize] has a position count within
    the Position Limit, no instruction in any bucket, the repay accounts
    exactly when a repay reserve was given, the wrapped account exactly
    when it has the Token-2022 mint (none of the two without a mint given,
    both for a mint given that is not the empty text), the amount it was
    given and, without a custom seed, a seed of at most 32 characters. *)
Theorem initialize_invariants (X : Externals)
    (pool : PoolType.t) (reserve : ReserveType.t) (action : ActionType)
    (amount : BN) (wallet : Wallet) (connection : Connection.t)
    (environment : EnvironmentType)
    (customObligationAddress hostAta : option PublicKey)
    (customObligationSeed : option string)
    (lookupTableAddress : option PublicKey) (tipAmount : option Z)
    (repayReserve : option ReserveType.t) (token2022Mint : option string)
    (axn : SolendActionCore) :
  initialize X pool reserve action amount wallet connection environment
    customObligationAddress hostAta customObligationSeed lookupTableAddress
    tipAmount repayReserve token2022Mint
  = Ok axn ->
  (positions axn <= POSITION_LIMIT X)%nat
  /\ no_instructions axn
  /\ (userRepayTokenAccountAddress axn <> None <-> repayReserve <> None)
  /\ (userRepayCollateralAccountAddress axn <> None <-> repayReserve <> None)
  /\ (wrappedAta axn <> None <-> Actions.token2022Mint axn <> None)
  /\ (token2022Mint = None ->
      wrappedAta axn = None /\ Actions.token2022Mint axn = None)
  /\ (forall m,
        token2022Mint = Some m -> m <> EmptyString ->
        wrappedAta axn
        = Some (getAssociatedTokenAddress X (new_PublicKey m)
                  (publicKey wallet) (Some (TOKEN_2022_PROGRAM_ID X)))
        /\ Actions.token2022Mint axn = Some (new_PublicKey m))
  /\ (customObligationSeed = None -> (String.length (seed axn) <= 32)%nat)
  /\ Actions.amount axn = amount.
Proof.
  unfold initialize.
  destruct (loadObligation X connection _) as [[[details deps] bors] | e];
    [| discriminate].
  destruct (POSITION_LIMIT X <? distinctReserveCount action reserve deps bors)%nat
    eqn:E; [discriminate |].
  apply Nat.ltb_ge in E. intros H. injection H as <-. cbn.
  repeat split; auto;
    try (destruct repayReserve; simpl; congruence);
    try (destruct token2022Mint; simpl; congruence);
    try (subst; reflexivity).
  intros ->. apply substring_length_le.
Qed.

Lemma initialize_invariants_witness :
  exists axn,
    initialize Fixtures.Sdk.externals Fixtures.Sdk.main_pool
      Fixtures.Sdk.reserveA withdraw 5 Fixtures.Sdk.user
      Fixtures.Sdk.chain_three_by_three "production" None None None None
      None None None
    = Ok axn
    /\ (positions axn <= 6)%nat
    /\ (String.length (seed axn) <= 32)%nat.
Proof.
  eexists. split; [reflexivity |].
  pose proof (initialize_invariants Fixtures.Sdk.externals
                Fixtures.Sdk.main_pool Fixtures.Sdk.reserveA withdraw 5
                Fixtures.Sdk.user Fixtures.Sdk.chain_three_by_three
                "production" None None None None None None None _ eq_refl)
    as (Hp & _ & _ & _ & _ & _ & _ & Hs & _).
  split; [exact Hp | exact (Hs eq_refl)].
Defined.

(** *** Builders that refresh the reserves *)

Lemma Array_from_Set_snoc_not_nil (xs : list string) (r : string) :
  Array_from_Set (xs ++ [r]) <> [].
Proof.
  destruct (fold_Set_add_spec (xs ++ [r]) [] (NoDup_nil _)) as [_ Hin].
  fold (Array_from_Set (xs ++ [r])) in Hin.
  intros E. rewrite E in Hin.
  apply (proj2 (Hin r)). right. apply in_app_iff. right. now left.
Qed.

(** On an object without a setup bucket, the refresh of the reserves
    throws, as long as the price refresh does not make that bucket. *)
Lemma addRefreshReservesIxs_throws (X : Externals) (this : SolendActionCore) :
  (forall keys,
     retains (fun t => made (setupIxs t)) (buildPullPriceTxns X keys)) ->
  setupIxs this = None ->
  exists e this',
    addRefreshReservesIxs X this = (Throw e, this')
    /\ setupIxs this' = None.
Proof.
  intros Hpull Hnone.
  unfold addRefreshReservesIxs.
  unfold bind at 1. unfold get at 1.
  set (addresses :=
         Array_from_Set
           (map toBase58 (depositReserves this)
            ++ map toBase58 (borrowReserves this)
            ++ [ReserveType.address (reserve this)])).
  assert (Hne : addresses <> []).
  { unfold addresses. rewrite app_assoc. apply Array_from_Set_snoc_not_nil. }
  clearbody addresses.
  unfold bind at 1, lift at 1.
  destruct (map_reserveMap this _ ReserveType.pythOracle addresses)
    as [pyth | e]; [| eauto].
  unfold bind at 1, lift at 1.
  destruct (map_reserveMap this _ ReserveType.switchboardOracle addresses)
    as [switchboard | e]; [| eauto].
  unfold bind at 1, lift at 1.
  destruct (map_reserveMap this _ _ addresses) as [extra | e]; [| eauto].
  unfold bind at 1.
  pose proof (Hpull (pyth ++ switchboard ++ extra) this) as Hk.
  simpl in Hk. rewrite Hnone in Hk.
  destruct (buildPullPriceTxns X (pyth ++ switchboard ++ extra) this)
    as [[[] | e] t1]; simpl in Hk.
  - assert (Hn1 : setupIxs t1 = None)
      by (destruct (setupIxs t1); [discriminate | reflexivity]).
    destruct addresses as [| a rest]; [exfalso; now apply Hne |].
    simpl. unfold bind at 1. unfold bind at 1, get at 1.
    destruct (find _ (PoolType.reserves (pool t1))).
    + unfold push_setupIxs. rewrite Hn1. eauto.
    + unfold throw. eauto.
  - exists e, t1. split; [reflexivity |].
    destruct (setupIxs t1); [discriminate | reflexivity].
Qed.

(** The support of an action whose table asks for the refresh of the
    reserves throws on an object without a setup bucket. *)
Lemma for_of_supports_throws (X : Externals) (action : ActionType)
    (supports : list SupportType) (this : SolendActionCore) :
  (forall keys,
     retains (fun t => made (setupIxs t)) (buildPullPriceTxns X keys)) ->
  In refreshReserves supports ->
  setupIxs this = None ->
  exists e this', for_of supports (resolveSupport X action) this = (Throw e, this').
Proof.
  intros Hpull. revert this.
  induction supports as [| s rest IH]; intros this Hin Hnone; [contradiction |].
  simpl. unfold bind.
  destruct (support_eq_refresh s) as [-> | Hs].
  - destruct (addRefreshReservesIxs_throws X this Hpull Hnone)
      as (e & t' & E & _).
    cbn [resolveSupport]. rewrite E. eauto.
  - pose proof (resolveSupport_retains_made_setup X action s Hs this) as Hk.
    simpl in Hk. rewrite Hnone in Hk.
    destruct (resolveSupport X action s this) as [[[] | e] t1]; [| eauto].
    simpl in Hk. apply IH.
    + destruct Hin as [E | Hin]; [now elim Hs | exact Hin].
    + destruct (setupIxs t1); [discriminate | reflexivity].
Qed.

Lemma build_with_refresh_throws (X : Externals) (action : ActionType)
    (init : BN -> Result Error SolendActionCore) (amount : string)
    (lend : Act unit) :
  (forall keys,
     retains (fun t => made (setupIxs t)) (buildPullPriceTxns X keys)) ->
  In refreshReserves (ACTION_SUPPORT_REQUIREMENTS action) ->
  (forall a t, init a = Ok t -> no_instructions t /\ Actions.amount t = a) ->
  exists e,
    build X init amount (bind (addSupportIxs X action) (fun _ => lend))
    = Throw e.
Proof.
  intros Hpull Hin Hinit. unfold build.
  destruct (parse_amount X amount) as [a | e]; [| eauto].
  destruct (init a) as [t0 | e] eqn:Ei; [| eauto].
  assert (Hnone : setupIxs t0 = None).
  { destruct (Hinit a t0 Ei) as [Hempty _].
    unfold no_instructions, buckets in Hempty. now injection Hempty. }
  destruct (for_of_supports_throws X action _ t0 Hpull Hin Hnone)
    as (e & t' & E).
  unfold bind, addSupportIxs. rewrite E. eauto.
Qed.

(** X2.  The builders of the actions whose support table asks for the
    refresh of the reserves (borrow, withdraw, redeem, withdrawCollateral
    and liquidate) return no plan: the refresh pushes to the setup bucket,
    which the object does not have, unless something else made the call
    fail before.  The price refresh is taken not to make that bucket. *)
Theorem refreshing_builders_return_no_plan (X : Externals) :
  (forall keys,
     retains (fun t => made (setupIxs t)) (buildPullPriceTxns X keys)) ->
  (forall pool reserve connection amount wallet environment
          customObligationAddress hostAta lookupTableAddress tipAmount
          token2022Mint,
     exists e,
       buildBorrowTxns X pool reserve connection amount wallet environment
         customObligationAddress hostAta lookupTableAddress tipAmount
         token2022Mint
       = Throw e)
  /\ (forall pool reserve connection amount wallet environment
             obligationAddress obligationSeed lookupTableAddress tipAmount
             token2022Mint,
        exists e,
          buildWithdrawTxns X pool reserve connection amount wallet
            environment obligationAddress obligationSeed lookupTableAddress
            tipAmount token2022Mint
          = Throw e)
  /\ (forall pool reserve connection amount wallet environment
             lookupTableAddress token2022Mint,
        exists e,
          buildRedeemReserveCollateralTxns X pool reserve connection amount
            wallet environment lookupTableAddress token2022Mint
          = Throw e)
  /\ (forall pool reserve connection amount wallet environment
             lookupTableAddress customObligationAddress,
        exists e,
          buildWithdrawCollateralTxns X pool reserve connection amount wallet
            environment lookupTableAddress customObligationAddress
          = Throw e)
  /\ (forall pool repayReserve withdrawReserve connection amount wallet
             environment customObligationAddress lookupTableAddress tipAmount
             token2022Mint,
        exists e,
          buildLiquidateTxns X pool repayReserve withdrawReserve connection
            amount wallet environment customObligationAddress
            lookupTableAddress tipAmount token2022Mint
          = Throw e).
Proof.
  intros Hpull.
  repeat split; intros;
    (apply build_with_refresh_throws;
     [ exact Hpull
     | simpl; tauto
     | intros a t; apply initialize_starts_empty ]).
Qed.

(** A withdrawal of everything, with the user's accounts on chain. *)
Lemma refreshing_builders_return_no_plan_witness :
  buildWithdrawTxns Fixtures.Sdk.externals Fixtures.Sdk.main_pool
    Fixtures.Sdk.reserveA Fixtures.Sdk.chain_ready "18446744073709551615"
    Fixtures.Sdk.user None (Some "user-obligation") None None None None
  = Throw undefined_push.
Proof.
  destruct (proj1 (proj2
              (refreshing_builders_return_no_plan Fixtures.Sdk.externals
                 (fun keys t => eq_refl)))
              Fixtures.Sdk.main_pool Fixtures.Sdk.reserveA
              Fixtures.Sdk.chain_ready "18446744073709551615"
              Fixtures.Sdk.user None (Some "user-obligation") None None None
              None) as (e & E).
  rewrite E. f_equal. vm_compute in E. now injection E.
Defined.

(** *** The forgive builder *)

(** X3.  [buildForgiveTxns] resolves no support: when the amount is read
    and the object is initialized, the plan it returns is that object with
    one lending instruction, the forgiveness of the amount on the reserve,
    for the obligation address the caller gave, and nothing else.  The
    object is initialized as for a deposit, so forgiving is refused with
    the Position Limit error when the position count of a deposit into the
    reserve exceeds the limit. *)
Theorem forgive_plan (X : Externals) (pool : PoolType.t)
    (reserve : ReserveType.t) (connection : Connection.t) (amount : string)
    (wallet : Wallet) (obligationAddress : PublicKey)
    (environment : option EnvironmentType)
    (lookupTableAddress : option PublicKey) (a : BN) :
  parse_amount X amount = Ok a ->
  (forall t0,
     initialize X pool reserve deposit a wallet connection
       (environment_or_default environment) (Some obligationAddress) None
       None lookupTableAddress None None None
     = Ok t0 ->
     buildForgiveTxns X pool reserve connection amount wallet
       obligationAddress environment lookupTableAddress
     = Ok (set_lendingIxs
             [WithSigners []
                (forgiveDebtInstruction
                   [obligationAddress;
                    new_PublicKey (ReserveType.address reserve);
                    new_PublicKey (PoolType.address pool);
                    new_PublicKey (PoolType.owner pool)]
                   a
                   (getProgramId X (environment_or_default environment)))]
             t0))
  /\ (forall details deps bors,
        loadObligation X connection obligationAddress
        = Ok (details, deps, bors) ->
        (POSITION_LIMIT X < position_count deposit reserve deps bors)%nat ->
        buildForgiveTxns X pool reserve connection amount wallet
          obligationAddress environment lookupTableAddress
        = Throw (mkError (position_limit_message X))).
Proof.
  intros Hp. split.
  - intros t0 Hi. unfold buildForgiveTxns, build. rewrite Hp, Hi.
    revert Hi. unfold initialize.
    destruct (loadObligation X connection _) as [[[details deps] bors] | e];
      [| discriminate].
    destruct (_ <? _)%nat; [discriminate |].
    intros H. injection H as <-. reflexivity.
  - intros details deps bors Hload Hc.
    apply build_throws with (a := a); [exact Hp |].
    unfold initialize. cbn [resolveObligationAddress]. rewrite Hload.
    rewrite distinctReserveCount_spec.
    apply Nat.ltb_lt in Hc. now rewrite Hc.
Qed.

(** Forgiving a debt on reserve D for an obligation with three deposits and
    three borrows on other reserves is refused; on reserve A it is
    planned. *)
Lemma forgive_plan_witness :
  buildForgiveTxns Fixtures.Sdk.externals Fixtures.Sdk.main_pool
    Fixtures.Sdk.reserveD Fixtures.Sdk.chain_three_by_three "7"
    Fixtures.Sdk.user "user-obligation" None None
  = Throw (mkError "Obligation already has max number of positions: 6")
  /\ exists t0,
       buildForgiveTxns Fixtures.Sdk.externals Fixtures.Sdk.main_pool
         Fixtures.Sdk.reserveA Fixtures.Sdk.chain_three_by_three "7"
         Fixtures.Sdk.user "user-obligation" None None
       = Ok t0
       /\ lendingIxs t0
          = [WithSigners []
               (forgiveDebtInstruction
                  ["user-obligation"; "reserveA";
                   "4UpD2fh7xH3VP9QQaXtsS1YY3bxzWhtfpks7FatyKvdY";
                   "pool-owner"]
                  7 "So1endDq2YkqhipRh3WViPa8hdiSpxWy6z3Z6tMCpAo")].
Proof.
  split.
  - apply (proj2
             (forgive_plan Fixtures.Sdk.externals Fixtures.Sdk.main_pool
                Fixtures.Sdk.reserveD Fixtures.Sdk.chain_three_by_three "7"
                Fixtures.Sdk.user "user-obligation" None None 7 eq_refl)
             (Some Fixtures.Sdk.obligation_three_by_three)
             ["reserveA"; "reserveB"; "reserveC"]
             ["reserveA"; "reserveB"; "reserveC"] eq_refl).
    vm_compute. lia.
  - eexists. split.
    + apply (proj1
               (forgive_plan Fixtures.Sdk.externals Fixtures.Sdk.main_pool
                  Fixtures.Sdk.reserveA Fixtures.Sdk.chain_three_by_three "7"
                  Fixtures.Sdk.user "user-obligation" None None 7 eq_refl)
               (Fixtures.Sdk.axn Fixtures.Sdk.chain_three_by_three
                  Fixtures.Sdk.reserveA
                  (Some Fixtures.Sdk.obligation_three_by_three) 7 6 None
                  None)).
      vm_compute. reflexivity.
    + reflexivity.
Defined.

(** *** The liquidation instruction *)

(** X4.  [addLiquidateIx] throws "Not correctly initialized with a
    withdraw reserve." and leaves the object as it is when one of the two
    repay accounts is missing, which is the case of every object
    initialized without a repay reserve; otherwise it appends one lending
    instruction: the liquidation of the amount, repaid from the user's
    token account of the repay reserve given at initialization, on the
    repay reserve given to the method. *)
Theorem liquidate_needs_the_repay_accounts (repayReserve : ReserveType.t) :
  (forall this,
     userRepayCollateralAccountAddress this = None
     \/ userRepayTokenAccountAddress this = None ->
     addLiquidateIx repayReserve this
     = (Throw (mkError "Not correctly initialized with a withdraw reserve."),
        this))
  /\ (forall this c r,
        userRepayCollateralAccountAddress this = Some c ->
        userRepayTokenAccountAddress this = Some r ->
        addLiquidateIx repayReserve this
        = (Ok tt,
           set_lendingIxs
             (lendingIxs this
              ++ [WithSigners [] (SpecMore.Sdk.liquidateIx repayReserve r this)])
             this))
  /\ (forall X pool reserve action amount wallet connection environment
             customObligationAddress hostAta customObligationSeed
             lookupTableAddress tipAmount token2022Mint axn,
        initialize X pool reserve action amount wallet connection environment
          customObligationAddress hostAta customObligationSeed
          lookupTableAddress tipAmount None token2022Mint
        = Ok axn ->
        addLiquidateIx repayReserve axn
        = (Throw
             (mkError "Not correctly initialized with a withdraw reserve."),
           axn)).
Proof.
  assert (H1 : forall this,
            userRepayCollateralAccountAddress this = None
            \/ userRepayTokenAccountAddress this = None ->
            addLiquidateIx repayReserve this
            = (Throw
                 (mkError
                    "Not correctly initialized with a withdraw reserve."),
               this)).
  { intros this H. unfold addLiquidateIx, bind, get.
    destruct (userRepayCollateralAccountAddress this),
      (userRepayTokenAccountAddress this);
      try reflexivity.
    destruct H; discriminate. }
  split; [exact H1 |]. split.
  - intros this c r Hc Hr. unfold addLiquidateIx, bind, get.
    rewrite Hc, Hr. reflexivity.
  - intros. apply H1. left.
    revert H. unfold initialize.
    destruct (loadObligation X _ _) as [[[details deps] bors] | e];
      [| discriminate].
    destruct (_ <? _)%nat; [discriminate |].
    intros H. now injection H as <-.
Qed.

(** *** Wrapping of Token-2022 mints *)

(** X5.  On an object without a wrapped account, resolving [wrap] or
    [unwrap] does nothing.  With a wrapped account and its Token-2022 mint,
    [wrap] appends to the pre bucket the idempotent creation of the user's
    token account and the deposit of the amount into the wrapper, and
    [unwrap] appends the idempotent creation of the wrapped account to the
    pre bucket and the withdrawal of the amount from the wrapper to the
    post bucket; nothing else changes.  [initialize] sets the wrapped
    account and the mint together, so on the objects it returns neither
    throws. *)
Theorem wrap_and_unwrap (X : Externals) (action : ActionType) :
  (forall this,
     wrappedAta this = None ->
     resolveSupport X action wrap this = (Ok tt, this)
     /\ resolveSupport X action unwrap this = (Ok tt, this))
  /\ (forall this w m,
        wrappedAta this = Some w ->
        token2022Mint this = Some m ->
        resolveSupport X action wrap this
        = (Ok tt,
           set_preIxs
             (preIxs this
              ++ [WithSigners []
                    (createAssociatedTokenAccountIdempotentInstruction
                       [this_publicKey this; userTokenAccountAddress this;
                        this_publicKey this;
                        new_PublicKey
                          (ReserveType.mintAddress (reserve this))]);
                  WithSigners []
                    (createDepositAndMintWrapperTokensInstruction
                       [this_publicKey this; w; m] (amount this))])
             this)
        /\ resolveSupport X action unwrap this
           = (Ok tt,
              SpecMore.Sdk.set_postIxs
                (postIxs this
                 ++ [WithSigners []
                       (createWithdrawAndBurnWrapperTokensInstruction
                          [this_publicKey this; w; m] (amount this))])
                (set_preIxs
                   (preIxs this
                    ++ [WithSigners []
                          (createAssociatedTokenAccountIdempotentInstruction
                             [this_publicKey this; w; this_publicKey this; m;
                              TOKEN_2022_PROGRAM_ID X])])
                   this)))
  /\ (forall pool reserve action' amount wallet connection environment
             customObligationAddress hostAta customObligationSeed
             lookupTableAddress tipAmount repayReserve token2022Mint axn,
        initialize X pool reserve action' amount wallet connection
          environment customObligationAddress hostAta customObligationSeed
          lookupTableAddress tipAmount repayReserve token2022Mint
        = Ok axn ->
        fst (resolveSupport X action wrap axn) = Ok tt
        /\ fst (resolveSupport X action unwrap axn) = Ok tt).
Proof.
  split; [| split].
  - intros this Hw. unfold resolveSupport, bind, get. now rewrite Hw.
  - intros this w m Hw Hm.
    unfold resolveSupport, addWrapIx, addUnwrapIx, bind, get, modify.
    rewrite Hw. cbn beta iota. rewrite Hw, Hm.
    unfold push_preIxs, push_postIxs, with_buckets, set_preIxs,
      SpecMore.Sdk.set_postIxs.
    cbn. rewrite <- app_assoc. split; reflexivity.
  - intros p r a' amt w c env coa host sd lta tip rr tm axn.
    unfold initialize.
    destruct (loadObligation X _ _) as [[[details deps] bors] | e];
      [| discriminate].
    destruct (_ <? _)%nat; [discriminate |].
    intros H. injection H as <-.
    unfold resolveSupport, addWrapIx, addUnwrapIx, bind, get, modify.
    destruct tm; split; reflexivity.
Qed.

(** *** The reserves that are refreshed *)

Lemma find_rev_defined {A} (p : A -> bool) (l : list A) :
  find p (rev l) <> None <-> find p l <> None.
Proof.
  assert (H : forall l', find p l' <> None <-> exists x, In x l' /\ p x = true).
  { intros l'. split.
    - destruct (find p l') as [x |] eqn:E; [| congruence].
      intros _. exists x. now apply find_some in E.
    - intros (x & Hin & Hp) E.
      apply (find_none _ _ E) in Hin. congruence. }
  rewrite !H. split; intros (x & Hin & Hp); exists x;
    (split; [| exact Hp]); [now apply in_rev | now apply in_rev in Hin].
Qed.

Lemma map_reserveMap_ok (this : SolendActionCore) (property : string)
    (f : ReserveType.t -> string) (addresses : list string) :
  (exists l, map_reserveMap this property f addresses = Ok l)
  <-> Forall (fun a => reserveMap this a <> None) addresses.
Proof.
  induction addresses as [| a rest IH]; simpl.
  - split; [constructor | eauto].
  - destruct (reserveMap this a) as [r |] eqn:E.
    + split.
      * intros (l & Hl). constructor; [congruence |]. apply IH.
        destruct (map_reserveMap this property f rest); [eauto | discriminate].
      * intros H. inversion H as [| ? ? _ Hrest]; subst.
        apply IH in Hrest. destruct Hrest as (l & ->). eauto.
    + split.
      * intros (l & Hl). discriminate.
      * intros H. inversion H as [| ? ? Ha _]; subst. congruence.
Qed.

Lemma map_reserveMap_throws (this : SolendActionCore) (property : string)
    (f : ReserveType.t -> string) (addresses : list string) (a : string) :
  In a addresses -> reserveMap this a = None ->
  map_reserveMap this property f addresses = Throw (undefined_read property).
Proof.
  induction addresses as [| b rest IH]; intros Hin Hnone; [contradiction |].
  simpl. destruct (reserveMap this b) eqn:E; [| reflexivity].
  destruct Hin as [-> | Hin]; [congruence |].
  now rewrite (IH Hin Hnone).
Qed.

(** X6.  The refresh of the reserves looks every reserve of the
    obligation and the reserve of the action up in the pool, by its
    address: the text of a key, of 32 characters at least, which is the
    name of no property a JavaScript object inherits.  When one of them is
    not a reserve of the pool it throws the [TypeError] of reading
    [pythOracle] of [undefined], before the price refresh is called and
    with the object as it was.  When the oracle keys were collected, every
    one of these reserves is found in the pool again: the check for
    "Could not find asset" that follows never fails on that pool. *)
Theorem refresh_reads_the_pool (X : Externals) (this : SolendActionCore) :
  Forall (fun a => (32 <= String.length a)%nat)
    (SpecMore.Sdk.refreshed_reserves this) ->
  (forall a,
     In a (SpecMore.Sdk.refreshed_reserves this) ->
     (forall r, In r (PoolType.reserves (pool this)) ->
                ReserveType.address r <> a) ->
     addRefreshReservesIxs X this
     = (Throw (undefined_read "pythOracle"), this))
  /\ (forall l,
        map_reserveMap this "pythOracle" ReserveType.pythOracle
          (SpecMore.Sdk.refreshed_reserves this)
        = Ok l ->
        Forall
          (fun a =>
             find (fun r => String.eqb (ReserveType.address r) a)
               (PoolType.reserves (pool this))
             <> None)
          (SpecMore.Sdk.refreshed_reserves this)).
Proof.
  intros _. split.
  - intros a Hin Hnot.
    assert (Hnone : reserveMap this a = None).
    { unfold reserveMap.
      destruct (find _ (rev (PoolType.reserves (pool this)))) as [r |] eqn:E;
        [| reflexivity].
      apply find_some in E. destruct E as [Hr E].
      apply in_rev in Hr. apply String.eqb_eq in E.
      exfalso. exact (Hnot r Hr E). }
    unfold addRefreshReservesIxs, bind, get, lift.
    fold (SpecMore.Sdk.refreshed_reserves this).
    now rewrite (map_reserveMap_throws this _ _ _ a Hin Hnone).
  - intros l Hl.
    assert (H : Forall (fun a => reserveMap this a <> None)
                  (SpecMore.Sdk.refreshed_reserves this))
      by (eapply map_reserveMap_ok; eauto).
    eapply Forall_impl; [| exact H].
    intros a Ha. unfold reserveMap in Ha.
    exact (proj1 (find_rev_defined _ _) Ha).
Qed.

(** A borrow from a reserve that the pool does not list. *)
Lemma refresh_reads_the_pool_witness :
  addRefreshReservesIxs Fixtures.Sdk.externals
    (Fixtures.Sdk.axn Fixtures.Sdk.chain_empty
       (Fixtures.Sdk.mkReserve "8PbodeaosQP19SjYFx855UMqWxH2HynZLdBXmsrbac36"
          "mintZ")
       None 5 1 None None)
  = (Throw
       (mkError
          "TypeError: Cannot read properties of undefined (reading 'pythOracle')"),
     Fixtures.Sdk.axn Fixtures.Sdk.chain_empty
       (Fixtures.Sdk.mkReserve "8PbodeaosQP19SjYFx855UMqWxH2HynZLdBXmsrbac36"
          "mintZ")
       None 5 1 None None).
Proof.
  apply (proj1
           (refresh_reads_the_pool Fixtures.Sdk.externals
              (Fixtures.Sdk.axn Fixtures.Sdk.chain_empty
                 (Fixtures.Sdk.mkReserve
                    "8PbodeaosQP19SjYFx855UMqWxH2HynZLdBXmsrbac36" "mintZ")
                 None 5 1 None None)
              ltac:(repeat constructor))
           "8PbodeaosQP19SjYFx855UMqWxH2HynZLdBXmsrbac36").
  - vm_compute. now left.
  - intros r Hr. vm_compute in Hr.
    repeat (destruct Hr as [<- | Hr]; [discriminate |]). contradiction.
Defined.

Lemma liquidate_needs_the_repay_accounts_witness :
  exists axn,
    initialize Fixtures.Sdk.externals Fixtures.Sdk.main_pool
      Fixtures.Sdk.reserveA liquidate 5 Fixtures.Sdk.user
      Fixtures.Sdk.chain_three_by_three "production" (Some "user-obligation")
      None None None None (Some Fixtures.Sdk.reserveB) None
    = Ok axn
    /\ exists ix,
         lendingIxs (snd (addLiquidateIx Fixtures.Sdk.reserveB axn))
         = [WithSigners [] ix].
Proof.
  eexists. split; [reflexivity |]. eexists.
  match goal with
  | |- lendingIxs (snd (addLiquidateIx _ ?t)) = _ =>
      rewrite (proj1 (proj2
                 (liquidate_needs_the_repay_accounts Fixtures.Sdk.reserveB))
                 t "user/cmintB" "user/mintB" eq_refl eq_refl)
  end.
  reflexivity.
Defined.

Lemma wrap_and_unwrap_witness :
  exists axn,
    initialize Fixtures.Sdk.externals Fixtures.Sdk.main_pool
      Fixtures.Sdk.reserveA deposit 5 Fixtures.Sdk.user
      Fixtures.Sdk.chain_ready "production" (Some "user-obligation")
      None None None None None (Some "mint2022")
    = Ok axn
    /\ preIxs (snd (resolveSupport Fixtures.Sdk.externals deposit wrap axn))
       = [WithSigners []
            (createAssociatedTokenAccountIdempotentInstruction
               ["user"; "user/mintA"; "user"; "mintA"]);
          WithSigners []
            (createDepositAndMintWrapperTokensInstruction
               ["user"; "user/mint2022"; "mint2022"] 5)].
Proof.
  eexists. split; [reflexivity |].
  match goal with
  | |- preIxs (snd (resolveSupport _ _ _ ?t)) = _ =>
      pose proof
        (proj1
           (proj1 (proj2 (wrap_and_unwrap Fixtures.Sdk.externals deposit))
              t "user/mint2022" "mint2022" eq_refl eq_refl)) as E
  end.
  exact (f_equal (fun p => preIxs (snd p)) E).
Defined.

(** *** Native-token funding *)

Lemma computeSafeRepay_keeps_the_object (X : Externals) (action : ActionType)
    (this : SolendActionCore) :
  snd (computeSafeRepay X action this) = this.
Proof.
  unfold computeSafeRepay, bind, get, lift, throw, ret.
  destruct (obligationAccountInfo this); [| reflexivity].
  destruct (_ && _); [| reflexivity].
  destruct (Connection.getAccountInfo _ _); [| reflexivity].
  destruct (parseReserve X _ _); [| reflexivity].
  destruct (find _ _); reflexivity.
Qed.

(** X7.  [updateWSOLAccount] does nothing when the mint of the reserve is
    not the native one.  On the native mint it computes the amount to
    fund, and an error of that computation is thrown with the object as it
    was.  Otherwise, on an object the class made (no setup and no post-
    transaction bucket), it always ends in the [TypeError] of a push on
    [undefined]: at once, with the object as it was, outside the pre route;
    and on the pre route after the pre bucket has received the transfer of
    the rent (when the account is to be created) plus the amount (when the
    action sends tokens), followed by the synchronisation or the creation
    of the account. *)
Theorem updateWSOLAccount_outcome (X : Externals) (action : ActionType)
    (this : SolendActionCore) :
  (ReserveType.mintAddress (reserve this) <> toBase58 (NATIVE_MINT X) ->
   updateWSOLAccount X action this = (Ok tt, this))
  /\ (ReserveType.mintAddress (reserve this) = toBase58 (NATIVE_MINT X) ->
      (forall e,
         fst (computeSafeRepay X action this) = Throw e ->
         updateWSOLAccount X action this = (Throw e, this))
      /\ (forall safeRepay,
            fst (computeSafeRepay X action this) = Ok safeRepay ->
            setupIxs this = None -> postTxnIxs this = None ->
            (~ full_host_no_lookup X this ->
             updateWSOLAccount X action this = (Throw undefined_push, this))
            /\ (full_host_no_lookup X this ->
                updateWSOLAccount X action this
                = (Throw undefined_push,
                   set_preIxs
                     (preIxs this
                      ++ Bare
                           (SpecMore.Sdk.transferLamportsIx X action
                              safeRepay this)
                         :: SpecMore.Sdk.after_transfer X action this)
                     this)))).
Proof.
  split.
  - intros Hmint. unfold updateWSOLAccount, bind, get.
    apply String.eqb_neq in Hmint. now rewrite Hmint.
  - intros Hmint.
    assert (Hstate := computeSafeRepay_keeps_the_object X action this).
    destruct (computeSafeRepay X action this) as [[s | e] t1] eqn:Ec;
      simpl in Hstate; subst t1.
    + split; [discriminate |].
      intros safeRepay Hs Hsetup Hpost. simpl in Hs. injection Hs as ->.
      unfold SpecMore.Sdk.transferLamportsIx, SpecMore.Sdk.after_transfer.
      split; intros H; unfold updateWSOLAccount; unfold bind at 1;
        unfold get at 1; rewrite Hmint, String.eqb_refl; cbn [negb];
        unfold bind at 1; rewrite Ec.
      * rewrite (full_with_host_no_lookup_false X this H).
        destruct (Connection.getAccountInfo _ _); [destruct (isSendAction _) |];
          unfold bind, push_setupIxs; rewrite Hsetup; reflexivity.
      * apply full_with_host_no_lookup_iff in H. rewrite H.
        destruct (Connection.getAccountInfo _ _); [destruct (isSendAction _) |];
          unfold bind, modify, push_postTxnIxs; cbn; rewrite Hpost;
          reflexivity.
    + split; [| discriminate].
      intros e' He. simpl in He. injection He as ->.
      unfold updateWSOLAccount. unfold bind at 1. unfold get at 1.
      rewrite Hmint, String.eqb_refl. cbn [negb]. unfold bind at 1.
      now rewrite Ec.
Qed.

(** A deposit of native tokens for a user without a wrapped-SOL account:
    the builder throws. *)
Lemma updateWSOLAccount_outcome_witness :
  updateWSOLAccount Fixtures.Sdk.externals deposit
    (Fixtures.Sdk.axn Fixtures.Sdk.chain_sol_example Fixtures.Sdk.reserveSOL
       (Some Fixtures.Sdk.obligation_sol_example) 5 3 None None)
  = (Throw undefined_push,
     Fixtures.Sdk.axn Fixtures.Sdk.chain_sol_example Fixtures.Sdk.reserveSOL
       (Some Fixtures.Sdk.obligation_sol_example) 5 3 None None).
Proof.
  apply (proj1
           (proj2
              (proj2
                 (updateWSOLAccount_outcome Fixtures.Sdk.externals deposit
                    (Fixtures.Sdk.axn Fixtures.Sdk.chain_sol_example
                       Fixtures.Sdk.reserveSOL
                       (Some Fixtures.Sdk.obligation_sol_example) 5 3 None
                       None))
                 eq_refl)
              5 eq_refl eq_refl eq_refl)).
  intros (_ & H & _). now apply H.
Defined.

(** *** The position count and the distinct reserves *)

Lemma nodup_length_incl (l l' : list string) :
  incl l l' ->
  (List.length (nodup string_dec l) <= List.length (nodup string_dec l'))%nat.
Proof.
  intros H. apply NoDup_incl_length; [apply NoDup_nodup |].
  intros x Hx. apply nodup_In. apply H. now apply nodup_In in Hx.
Qed.

Lemma nodup_length_app (l l' : list string) :
  (List.length (nodup string_dec (l ++ l'))
   <= List.length (nodup string_dec l) + List.length (nodup string_dec l'))%nat.
Proof.
  rewrite <- length_app. apply NoDup_incl_length; [apply NoDup_nodup |].
  intros x Hx. apply nodup_In in Hx. apply in_app_iff in Hx.
  apply in_app_iff. destruct Hx; [left | right]; now apply nodup_In.
Qed.

(** X8.  The position count that [initialize] compares with the Position
    Limit is at most twice the number of distinct reserves among the
    deposits, the borrows and the reserve of the action, and at least that
    number when the action is a deposit or a borrow; for the other actions
    it is at least that number minus one, the reserve of the action not
    being counted. *)
Theorem position_count_and_distinct_reserves (action : ActionType)
    (reserve : ReserveType.t) (depositReserves borrowReserves : list PublicKey) :
  (distinctReserveCount action reserve depositReserves borrowReserves
   <= 2 * distinct_reserves reserve depositReserves borrowReserves)%nat
  /\ (distinct_reserves reserve depositReserves borrowReserves
      <= distinctReserveCount action reserve depositReserves borrowReserves
         + 1)%nat
  /\ (action = deposit \/ action = borrow ->
      (distinct_reserves reserve depositReserves borrowReserves
       <= distinctReserveCount action reserve depositReserves
            borrowReserves)%nat).
Proof.
  rewrite distinctReserveCount_spec. unfold position_count, distinct_reserves.
  unfold PublicKey in *.
  set (r := ReserveType.address reserve).
  assert (Hb : forall extra, incl extra [r] ->
            (List.length (nodup string_dec (borrowReserves ++ extra))
             <= List.length
                  (nodup string_dec (depositReserves ++ borrowReserves ++ [r])))%nat).
  { intros extra He. apply nodup_length_incl. intros x Hx.
    apply in_app_iff in Hx. rewrite !in_app_iff.
    destruct Hx as [Hx | Hx]; [auto |]. right. right. now apply He. }
  assert (Hd : forall extra, incl extra [r] ->
            (List.length (nodup string_dec (depositReserves ++ extra))
             <= List.length
                  (nodup string_dec (depositReserves ++ borrowReserves ++ [r])))%nat).
  { intros extra He. apply nodup_length_incl. intros x Hx.
    apply in_app_iff in Hx. rewrite !in_app_iff.
    destruct Hx as [Hx | Hx]; [auto |]. right. right. now apply He. }
  assert (Hu : forall eb ed,
            (List.length
               (nodup string_dec (depositReserves ++ borrowReserves ++ [r]))
             <= List.length (nodup string_dec (borrowReserves ++ eb))
                + List.length (nodup string_dec (depositReserves ++ ed))
                + (if in_dec string_dec r (eb ++ ed) then 0 else 1))%nat).
  { intros eb ed.
    pose proof (nodup_length_app depositReserves (borrowReserves ++ [r])) as H1.
    pose proof (nodup_length_app borrowReserves [r]) as H2.
    pose proof (nodup_length_incl depositReserves (depositReserves ++ ed)
                  (incl_appl _ (incl_refl _))) as H3.
    pose proof (nodup_length_incl borrowReserves (borrowReserves ++ eb)
                  (incl_appl _ (incl_refl _))) as H4.
    destruct (in_dec string_dec r (eb ++ ed)) as [Hin | Hnin]; cbv beta iota.
    - apply in_app_iff in Hin. destruct Hin as [Hin | Hin].
      + pose proof (nodup_length_incl (borrowReserves ++ [r])
                      (borrowReserves ++ eb)) as H5.
        pose proof (nodup_length_app depositReserves (borrowReserves ++ [r])).
        assert (incl (borrowReserves ++ [r]) (borrowReserves ++ eb)).
        { intros x Hx. apply in_app_iff in Hx. apply in_app_iff.
          destruct Hx as [Hx | [<- | []]]; auto. }
        specialize (H5 H0). lia.
      + pose proof (nodup_length_incl
                      (depositReserves ++ borrowReserves ++ [r])
                      ((depositReserves ++ ed) ++ borrowReserves)) as H5.
        pose proof (nodup_length_app (depositReserves ++ ed) borrowReserves).
        assert (incl (depositReserves ++ borrowReserves ++ [r])
                  ((depositReserves ++ ed) ++ borrowReserves)).
        { intros x Hx. rewrite !in_app_iff in *.
          destruct Hx as [Hx | [Hx | [<- | []]]]; auto. }
        specialize (H5 H0). lia.
    - simpl in H2. lia. }
  split; [| split].
  - pose proof (Hb (if ActionType_eqb action borrow then [r] else [])) as H1.
    pose proof (Hd (if ActionType_eqb action deposit then [r] else [])) as H2.
    assert (He : forall b : bool, incl (if b then [r] else []) [r]).
    { intros []; [apply incl_refl | apply incl_nil_l]. }
    specialize (H1 (He _)). specialize (H2 (He _)). lia.
  - pose proof (Hu (if ActionType_eqb action borrow then [r] else [])
                  (if ActionType_eqb action deposit then [r] else [])) as H.
    destruct (in_dec _ _ _); cbv beta iota in H; lia.
  - intros Ha.
    pose proof (Hu (if ActionType_eqb action borrow then [r] else [])
                  (if ActionType_eqb action deposit then [r] else [])) as H.
    destruct (in_dec _ _ _) as [Hin | Hnin]; cbv beta iota in H; [lia |].
    exfalso. apply Hnin. destruct Ha as [-> | ->]; simpl; auto.
Qed.

(** A deposit into a fourth reserve by an obligation with three deposits
    and three borrows on the same three reserves: four distinct reserves,
    seven positions. *)
Lemma position_count_and_distinct_reserves_witness :
  (distinct_reserves Fixtures.Sdk.reserveD
     ["reserveA"; "reserveB"; "reserveC"] ["reserveA"; "reserveB"; "reserveC"]
   <= distinctReserveCount deposit Fixtures.Sdk.reserveD
        ["reserveA"; "reserveB"; "reserveC"]
        ["reserveA"; "reserveB"; "reserveC"])%nat.
Proof.
  apply (proj2 (proj2
           (position_count_and_distinct_reserves deposit
              Fixtures.Sdk.reserveD ["reserveA"; "reserveB"; "reserveC"]
              ["reserveA"; "reserveB"; "reserveC"]))).
  now left.
Defined.

(** *** Reading the amount *)

Lemma strip_white_space_digits (d : Decimal.uint) :
  strip_white_space (NilEmpty.string_of_uint d) = NilEmpty.string_of_uint d.
Proof. induction d; simpl; now rewrite ?IHd. Qed.

Lemma strip_white_space_idempotent (s : string) :
  strip_white_space (strip_white_space s) = strip_white_space s.
Proof.
  induction s as [| c s IH]; simpl; [reflexivity |].
  destruct (is_white_space c) eqn:E; [exact IH |].
  simpl. now rewrite E, IH.
Qed.

Lemma strip_white_space_toString (a : BN) :
  strip_white_space (BN_toString a) = BN_toString a.
Proof.
  unfold BN_toString. destruct (Z.to_int a) as [d | d]; simpl.
  - apply strip_white_space_digits.
  - now rewrite strip_white_space_digits.
Qed.

Lemma decimal_literal_toString (a : BN) :
  decimal_literal (BN_toString a) = Some a.
Proof.
  assert (Hd : forall d, d <> Decimal.Nil ->
            exists c rest, NilEmpty.string_of_uint d = String c rest
                           /\ c <> Ascii.Ascii true false true true false true false false).
  { intros d Hd. destruct d; try contradiction; simpl; eexists; eexists;
      (split; [reflexivity | discriminate]). }
  unfold decimal_literal.
  rewrite new_BN_toString. unfold BN_toString.
  destruct a as [| p | p]; simpl.
  - reflexivity.
  - destruct (Hd (Pos.to_uint p) (DecimalPos.Unsigned.to_uint_nonnil p))
      as (c & rest & -> & Hc).
    destruct (String.eqb_spec (String c rest) "-") as [E | _];
      [| reflexivity].
    injection E as -> _. contradiction.
  - destruct (Hd (Pos.to_uint p) (DecimalPos.Unsigned.to_uint_nonnil p))
      as (c & rest & -> & Hc).
    reflexivity.
Qed.

(** X9.  Reading an amount drops the white space of the text, wherever it
    stands, and the decimal text of an integer is read back as that
    integer: a builder given [amount.toString()] works on [amount]. *)
Theorem amount_round_trip (X : Externals) :
  (forall a, parse_amount X (BN_toString a) = Ok a)
  /\ (forall s, parse_amount X (strip_white_space s) = parse_amount X s)
  /\ (forall s1 s2 c,
        is_white_space c = true ->
        parse_amount X (String.append s1 (String c s2))
        = parse_amount X (String.append s1 s2)).
Proof.
  split; [| split].
  - intros a. unfold parse_amount.
    now rewrite strip_white_space_toString, decimal_literal_toString.
  - intros s. unfold parse_amount. now rewrite strip_white_space_idempotent.
  - intros s1 s2 c Hc. unfold parse_amount.
    assert (E : strip_white_space (String.append s1 (String c s2))
                = strip_white_space (String.append s1 s2)).
    { induction s1 as [| c1 s1 IH]; simpl.
      - now rewrite Hc.
      - now rewrite IH. }
    now rewrite E.
Qed.

Lemma amount_round_trip_witness :
  parse_amount Fixtures.Sdk.externals " 18 446 744" = Ok 18446744.
Proof.
  rewrite <- (proj1 (proj2 (amount_round_trip Fixtures.Sdk.externals))).
  reflexivity.
Defined.

(** *** Plans the class cannot return *)

Lemma updateWSOLAccount_throws_on_native (X : Externals)
    (action : ActionType) (this : SolendActionCore) :
  ReserveType.mintAddress (reserve this) = toBase58 (NATIVE_MINT X) ->
  setupIxs this = None -> postTxnIxs this = None ->
  exists e this', updateWSOLAccount X action this = (Throw e, this').
Proof.
  intros Hmint Hsetup Hpost.
  assert (Hstate := computeSafeRepay_keeps_the_object X action this).
  unfold updateWSOLAccount. unfold bind at 1. unfold get at 1.
  rewrite Hmint, String.eqb_refl. cbn [negb]. unfold bind at 1.
  destruct (computeSafeRepay X action this) as [[s | e] t1];
    simpl in Hstate; subst t1; [| eauto].
  destruct (full_with_host_no_lookup X this);
    destruct (Connection.getAccountInfo _ _);
    try destruct (isSendAction _);
    unfold bind, modify, push_setupIxs, push_postTxnIxs; cbn;
    rewrite ?Hsetup, ?Hpost; eauto.
Qed.

Lemma initialize_keeps_the_reserve (X : Externals)
    (pool : PoolType.t) (reserve : ReserveType.t) (action : ActionType)
    (amount : BN) (wallet : Wallet) (connection : Connection.t)
    (environment : EnvironmentType)
    (customObligationAddress hostAta : option PublicKey)
    (customObligationSeed : option string)
    (lookupTableAddress : option PublicKey) (tipAmount : option Z)
    (repayReserve : option ReserveType.t) (token2022Mint : option string)
    (axn : SolendActionCore) :
  initialize X pool reserve action amount wallet connection environment
    customObligationAddress hostAta customObligationSeed lookupTableAddress
    tipAmount repayReserve token2022Mint
  = Ok axn ->
  Actions.reserve axn = reserve
  /\ Actions.connection axn = connection
  /\ (obligationAccountInfo axn <> None ->
      Connection.getAccountInfo connection (obligationAddress axn) <> None).
Proof.
  unfold initialize, loadObligation.
  destruct (Connection.getAccountInfo connection _) as [info |] eqn:Ei.
  - destruct (parseObligation X info); [| discriminate].
    destruct (_ <? _)%nat; [discriminate |].
    intros H. injection H as <-. cbn. rewrite Ei.
    repeat split; discriminate.
  - destruct (_ <? _)%nat; [discriminate |].
    intros H. injection H as <-. cbn. repeat split. intros H. now elim H.
Qed.

Lemma build_with_wsol_throws (X : Externals) (action : ActionType)
    (rest : list SupportType)
    (init : BN -> Result Error SolendActionCore) (amount : string)
    (lend : Act unit) (r : ReserveType.t) :
  ACTION_SUPPORT_REQUIREMENTS action = wsol :: rest ->
  ReserveType.mintAddress r = toBase58 (NATIVE_MINT X) ->
  (forall a t, init a = Ok t -> no_instructions t /\ reserve t = r) ->
  exists e,
    build X init amount (bind (addSupportIxs X action) (fun _ => lend))
    = Throw e.
Proof.
  intros Htable Hmint Hinit. unfold build.
  destruct (parse_amount X amount) as [a | e]; [| eauto].
  destruct (init a) as [t0 | e] eqn:Ei; [| eauto].
  destruct (Hinit a t0 Ei) as [Hempty Hr].
  unfold no_instructions, buckets in Hempty.
  injection Hempty as Hsetup _ _ _ _ Hpost _.
  destruct (updateWSOLAccount_throws_on_native X action t0)
    as (e & t' & E); [now rewrite Hr | exact Hsetup | exact Hpost |].
  unfold bind, addSupportIxs. rewrite Htable. cbn [for_of resolveSupport].
  unfold bind. rewrite E. eauto.
Qed.

(** X10.  No action on the native mint can be built.  Every action but
    the deposit and the withdrawal of collateral and the forgiveness
    starts its support with the funding of the wrapped-SOL account, and on
    a reserve of the native mint that step ends in an error on the object
    [initialize] returns: the error of the amount computation, or the
    [TypeError] of the push to a bucket the class never made.  So the
    builders of deposit, borrow, withdraw, repay, mint, redeem and
    liquidate return no plan for such a reserve, whatever the chain holds
    and whatever the price refresh does. *)
Theorem native_mint_actions_return_no_plan (X : Externals)
    (reserve : ReserveType.t) :
  ReserveType.mintAddress reserve = toBase58 (NATIVE_MINT X) ->
  (forall pool connection amount wallet environment obligationAddress
          obligationSeed lookupTableAddress token2022Mint,
     exists e,
       buildDepositTxns X pool reserve connection amount wallet environment
         obligationAddress obligationSeed lookupTableAddress token2022Mint
       = Throw e)
  /\ (forall pool connection amount wallet environment
             customObligationAddress hostAta lookupTableAddress tipAmount
             token2022Mint,
        exists e,
          buildBorrowTxns X pool reserve connection amount wallet environment
            customObligationAddress hostAta lookupTableAddress tipAmount
            token2022Mint
          = Throw e)
  /\ (forall pool connection amount wallet environment obligationAddress
             obligationSeed lookupTableAddress tipAmount token2022Mint,
        exists e,
          buildWithdrawTxns X pool reserve connection amount wallet
            environment obligationAddress obligationSeed lookupTableAddress
            tipAmount token2022Mint
          = Throw e)
  /\ (forall pool connection amount wallet environment
             customObligationAddress lookupTableAddress token2022Mint,
        exists e,
          buildRepayTxns X pool reserve connection amount wallet environment
            customObligationAddress lookupTableAddress token2022Mint
          = Throw e)
  /\ (forall pool connection amount wallet environment lookupTableAddress
             token2022Mint,
        exists e,
          buildDepositReserveLiquidityTxns X pool reserve connection amount
            wallet environment lookupTableAddress token2022Mint
          = Throw e)
  /\ (forall pool connection amount wallet environment lookupTableAddress
             token2022Mint,
        exists e,
          buildRedeemReserveCollateralTxns X pool reserve connection amount
            wallet environment lookupTableAddress token2022Mint
          = Throw e)
  /\ (forall pool repayReserve connection amount wallet environment
             customObligationAddress lookupTableAddress tipAmount
             token2022Mint,
        exists e,
          buildLiquidateTxns X pool repayReserve reserve connection amount
            wallet environment customObligationAddress lookupTableAddress
            tipAmount token2022Mint
          = Throw e).
Proof.
  intros Hmint.
  repeat split; intros;
    (eapply build_with_wsol_throws;
     [ reflexivity
     | exact Hmint
     | intros a t Hi; split;
       [ exact (proj1 (initialize_starts_empty _ _ _ _ _ _ _ _ _ _ _ _ _ _
                         _ _ Hi))
       | exact (proj1 (initialize_keeps_the_reserve _ _ _ _ _ _ _ _ _ _ _ _
                         _ _ _ _ Hi)) ] ]).
Qed.

(** A repay of 5 on the SOL reserve, with the obligation and the reserve
    on chain. *)
Lemma native_mint_actions_return_no_plan_witness :
  buildRepayTxns Fixtures.Sdk.externals Fixtures.Sdk.main_pool
    Fixtures.Sdk.reserveSOL Fixtures.Sdk.chain_sol_example "5"
    Fixtures.Sdk.user None (Some "user-obligation") None None
  = Throw undefined_push.
Proof.
  destruct (proj1 (proj2 (proj2 (proj2
              (native_mint_actions_return_no_plan Fixtures.Sdk.externals
                 Fixtures.Sdk.reserveSOL eq_refl))))
              Fixtures.Sdk.main_pool Fixtures.Sdk.chain_sol_example "5"
              Fixtures.Sdk.user None (Some "user-obligation") None None)
    as (e & E).
  rewrite E. f_equal. vm_compute in E. now injection E.
Defined.

(** The parts of the object that resolving a capability never writes. *)
Lemma resolveSupport_retains_the_obligation (X : Externals)
    (action : ActionType) (s : SupportType) :
  s <> refreshReserves ->
  retains obligationAccountInfo (resolveSupport X action s).
Proof.
  intros Hs.
  destruct s; try congruence;
    cbv beta iota zeta delta
      [resolveSupport addObligationIxs addWrapIx addUnwrapIx
       addRefreshObligationIxs addCAtaIxs addAtaIxs
       addWrapUnwrapLiquidateIxs updateWSOLAccount computeSafeRepay];
    repeat
      (first
         [ apply retains_ret
         | apply retains_throw
         | apply retains_get
         | apply retains_lift
         | apply retains_modify; intros; reflexivity
         | apply retains_push_setupIxs; intros; reflexivity
         | apply retains_push_cleanupIxs; intros; reflexivity
         | apply retains_push_postTxnIxs; intros; reflexivity
         | apply retains_bind; [| intros ?]
         | match goal with
           | |- retains _ (match ?x with _ => _ end) => destruct x
           | |- retains _ (if ?x then _ else _) => destruct x
           end ]).
Qed.

Lemma addObligationIxs_needs_the_obligation (X : Externals)
    (this this' : SolendActionCore) :
  setupIxs this = None ->
  addObligationIxs X this = (Ok tt, this') ->
  obligationAccountInfo this <> None.
Proof.
  intros Hsetup. unfold addObligationIxs, bind, get.
  destruct (obligationAccountInfo this); [discriminate |].
  unfold push_setupIxs. rewrite Hsetup. discriminate.
Qed.

Lemma supports_need_the_obligation (X : Externals) (action : ActionType)
    (supports : list SupportType) (this this' : SolendActionCore) :
  ~ In refreshReserves supports ->
  In createObligation supports ->
  setupIxs this = None ->
  for_of supports (resolveSupport X action) this = (Ok tt, this') ->
  obligationAccountInfo this <> None
  /\ obligationAccountInfo this' = obligationAccountInfo this
  /\ setupIxs this' = None.
Proof.
  revert this.
  assert (Hrest : forall supports this,
            ~ In refreshReserves supports ->
            setupIxs this = None ->
            for_of supports (resolveSupport X action) this = (Ok tt, this') ->
            obligationAccountInfo this' = obligationAccountInfo this
            /\ setupIxs this' = None).
  { clear supports. intros supports.
    induction supports as [| s rest IH]; intros this Hno Hsetup; simpl.
    - intros E. injection E as <-. now split.
    - unfold bind.
      assert (Hs : s <> refreshReserves) by (intros ->; apply Hno; now left).
      pose proof (resolveSupport_retains_the_obligation X action s Hs this)
        as Ho.
      pose proof (resolveSupport_retains_made_setup X action s Hs this)
        as Hm.
      destruct (resolveSupport X action s this) as [[[] | e] t1];
        [| discriminate].
      simpl in Ho, Hm. rewrite Hsetup in Hm. intros E.
      destruct (IH t1) as [H1 H2]; [| | exact E |].
      + intros Hin. apply Hno. now right.
      + destruct (setupIxs t1); [discriminate | reflexivity].
      + split; [congruence | exact H2]. }
  induction supports as [| s rest IH]; intros this Hno Hin Hsetup;
    [contradiction |].
  intros E. destruct (Hrest _ _ Hno Hsetup E) as [H1 H2].
  split; [| split; [exact H1 | exact H2]].
  simpl in E. unfold bind in E.
  assert (Hs : s <> refreshReserves) by (intros ->; apply Hno; now left).
  pose proof (resolveSupport_retains_the_obligation X action s Hs this) as Ho.
  pose proof (resolveSupport_retains_made_setup X action s Hs this) as Hm.
  destruct (resolveSupport X action s this) as [[[] | e] t1] eqn:Es;
    [| discriminate].
  simpl in Ho, Hm. rewrite Hsetup in Hm.
  destruct Hin as [-> | Hin].
  - cbn [resolveSupport] in Es.
    exact (addObligationIxs_needs_the_obligation X this t1 Hsetup Es).
  - rewrite <- Ho. apply (IH t1).
    + intros H. apply Hno. now right.
    + exact Hin.
    + destruct (setupIxs t1); [discriminate | reflexivity].
    + exact E.
Qed.

(** X11.  The class never creates an obligation.  The deposit and the
    deposit of collateral are the actions whose support asks for the
    creation of the obligation, and the creation is queued in the setup
    bucket, which the class never made: the two builders return a plan
    only when the obligation account was found on chain by [initialize],
    and the plan they return has no setup bucket. *)
Theorem the_obligation_is_never_created (X : Externals) (pool : PoolType.t)
    (reserve : ReserveType.t) (connection : Connection.t) (amount : string)
    (wallet : Wallet) (environment : option EnvironmentType)
    (lookupTableAddress : option PublicKey) (axn : SolendActionCore) :
  (forall obligationAddress obligationSeed token2022Mint,
     buildDepositTxns X pool reserve connection amount wallet environment
       obligationAddress obligationSeed lookupTableAddress token2022Mint
     = Ok axn ->
     obligationAccountInfo axn <> None
     /\ Connection.getAccountInfo connection (Actions.obligationAddress axn)
        <> None
     /\ setupIxs axn = None)
  /\ (forall customObligationAddress,
        buildDepositObligationCollateralTxns X pool reserve connection amount
          wallet environment lookupTableAddress customObligationAddress
        = Ok axn ->
        obligationAccountInfo axn <> None
        /\ Connection.getAccountInfo connection
             (Actions.obligationAddress axn)
           <> None
        /\ setupIxs axn = None).
Proof.
  assert (Hgen : forall action init lend,
            ~ In refreshReserves (ACTION_SUPPORT_REQUIREMENTS action) ->
            In createObligation (ACTION_SUPPORT_REQUIREMENTS action) ->
            (forall a t,
               init a = Ok t ->
               no_instructions t
               /\ (obligationAccountInfo t <> None ->
                   Connection.getAccountInfo connection
                     (Actions.obligationAddress t) <> None)) ->
            (forall t t',
               lend t = (Ok tt, t') ->
               exists entries,
                 t' = set_lendingIxs (lendingIxs t ++ entries) t) ->
            build X init amount
              (bind (addSupportIxs X action) (fun _ => lend))
            = Ok axn ->
            obligationAccountInfo axn <> None
            /\ Connection.getAccountInfo connection
                 (Actions.obligationAddress axn) <> None
            /\ setupIxs axn = None).
  { intros action init lend Hno Hin Hinit Hlend. unfold build.
    destruct (parse_amount X amount) as [a | e]; [| discriminate].
    destruct (init a) as [t0 | e] eqn:Ei; [| discriminate].
    destruct (Hinit a t0 Ei) as [Hempty Hchain].
    unfold no_instructions, buckets in Hempty.
    injection Hempty as Hsetup _ _ _ _ _ _.
    unfold bind, addSupportIxs.
    destruct (for_of _ _ t0) as [[[] | e] t1] eqn:Ef; [| discriminate].
    destruct (supports_need_the_obligation X action _ t0 t1 Hno Hin Hsetup Ef)
      as (Hob & Hsame & Hsetup1).
    assert (Haddr : Actions.obligationAddress t1
                    = Actions.obligationAddress t0).
    { clear - Ef Hno. revert t0 Ef.
      induction (ACTION_SUPPORT_REQUIREMENTS action) as [| s rest IH];
        intros t0; simpl.
      - intros E. now injection E as <-.
      - unfold bind.
        assert (Hs : s <> refreshReserves)
          by (intros ->; apply Hno; now left).
        assert (Hk : retains Actions.obligationAddress
                       (resolveSupport X action s)).
        { destruct s; try congruence;
            cbv beta iota zeta delta
              [resolveSupport addObligationIxs addWrapIx addUnwrapIx
               addRefreshObligationIxs addCAtaIxs addAtaIxs
               addWrapUnwrapLiquidateIxs updateWSOLAccount computeSafeRepay];
            repeat
              (first
                 [ apply retains_ret
                 | apply retains_throw
                 | apply retains_get
                 | apply retains_lift
                 | apply retains_modify; intros; reflexivity
                 | apply retains_push_setupIxs; intros; reflexivity
                 | apply retains_push_cleanupIxs; intros; reflexivity
                 | apply retains_push_postTxnIxs; intros; reflexivity
                 | apply retains_bind; [| intros ?]
                 | match goal with
                   | |- retains _ (match ?x with _ => _ end) => destruct x
                   | |- retains _ (if ?x then _ else _) => destruct x
                   end ]). }
        specialize (Hk t0).
        destruct (resolveSupport X action s t0) as [[[] | e] t2];
          [| discriminate].
        simpl in Hk. intros E. rewrite <- Hk. apply IH; [| exact E].
        intros H. apply Hno. now right. }
    destruct (lend t1) as [[[] | e] t2] eqn:El; [| discriminate].
    intros E. injection E as <-.
    destruct (Hlend t1 t2 El) as (entries & ->). cbn.
    rewrite Hsame, Haddr. auto. }
  split; intros.
  - eapply (Hgen deposit); [| | | | eassumption].
    + simpl. intuition discriminate.
    + simpl. tauto.
    + intros a t Hi.
      split;
        [ exact (proj1 (initialize_starts_empty _ _ _ _ _ _ _ _ _ _ _ _ _ _
                          _ _ Hi))
        | exact (proj2 (proj2 (initialize_keeps_the_reserve _ _ _ _ _ _ _ _
                                 _ _ _ _ _ _ _ _ Hi))) ].
    + intros t t' E. unfold addDepositIx, bind, get, modify in E.
      injection E as <-. eexists. reflexivity.
  - eapply (Hgen depositCollateral); [| | | | eassumption].
    + simpl. intuition discriminate.
    + simpl. tauto.
    + intros a t Hi.
      split;
        [ exact (proj1 (initialize_starts_empty _ _ _ _ _ _ _ _ _ _ _ _ _ _
                          _ _ Hi))
        | exact (proj2 (proj2 (initialize_keeps_the_reserve _ _ _ _ _ _ _ _
                                 _ _ _ _ _ _ _ _ Hi))) ].
    + intros t t' E.
      unfold addDepositObligationCollateralIx, bind, get, modify in E.
      injection E as <-. eexists. reflexivity.
Qed.

(** A deposit of collateral for a user whose obligation does not exist:
    no plan, and the obligation is not created. *)
Lemma the_obligation_is_never_created_witness :
  buildDepositObligationCollateralTxns Fixtures.Sdk.externals
    Fixtures.Sdk.main_pool Fixtures.Sdk.reserveA
    Fixtures.Sdk.chain_with_accounts "5" Fixtures.Sdk.user None None
    (Some "user-obligation")
  = Throw undefined_push
  /\ exists axn,
       buildDepositObligationCollateralTxns Fixtures.Sdk.externals
         Fixtures.Sdk.main_pool Fixtures.Sdk.reserveA
         Fixtures.Sdk.chain_ready "5" Fixtures.Sdk.user None None
         (Some "user-obligation")
       = Ok axn
       /\ obligationAccountInfo axn <> None
       /\ setupIxs axn = None.
Proof.
  split; [vm_compute; reflexivity |].
  destruct (buildDepositObligationCollateralTxns Fixtures.Sdk.externals
              Fixtures.Sdk.main_pool Fixtures.Sdk.reserveA
              Fixtures.Sdk.chain_ready "5" Fixtures.Sdk.user None None
              (Some "user-obligation")) as [axn | e] eqn:E;
    [| vm_compute in E; discriminate].
  exists axn. split; [reflexivity |].
  destruct (proj2
              (the_obligation_is_never_created Fixtures.Sdk.externals
                 Fixtures.Sdk.main_pool Fixtures.Sdk.reserveA
                 Fixtures.Sdk.chain_ready "5" Fixtures.Sdk.user None None axn)
              (Some "user-obligation") E) as (H1 & _ & H3).
  now split.
Defined.

End BuilderFacts.

(** ** The price refresh *)

Module PullPriceFacts.
Import Numeric NumericMore Js Actions PullPrice Spec.Sdk SpecMore.Sdk.
Import NumericFacts RoundingFacts ActionFacts BuilderFacts.

Section Clients.

Variable C : Clients.

(** *** What the price refresh leaves of the object *)

Lemma after_refresh_nothing (t : SolendActionCore) : after_refresh [] [] t = t.
Proof.
  unfold after_refresh, set_pullPriceTxns, set_preIxs. destruct t; simpl.
  rewrite app_nil_r. destruct pullPriceTxns0; [rewrite app_nil_r |];
    reflexivity.
Qed.

Lemma after_refresh_after_refresh (pre1 pre2 : list BucketEntry)
    (txs1 txs2 : list VersionedTransaction) (t : SolendActionCore) :
  after_refresh pre2 txs2 (after_refresh pre1 txs1 t)
  = after_refresh (pre1 ++ pre2) (txs1 ++ txs2) t.
Proof.
  unfold after_refresh, set_pullPriceTxns, set_preIxs. simpl.
  rewrite !app_assoc. destruct (pullPriceTxns t); [rewrite !app_assoc |];
    reflexivity.
Qed.

Lemma updateSwitchboard_queues (sbPulledOracles : list string)
    (t : SolendActionCore) :
  exists pre,
    snd (updateSwitchboard C sbPulledOracles t) = after_refresh pre [] t
    /\ (pre = [] \/ exists ix, pre = switchboard_update ix)
    /\ (sbPulledOracles = [] ->
        updateSwitchboard C sbPulledOracles t = (Ok tt, t))
    /\ (sbPulledOracles <> [] ->
        fst (updateSwitchboard C sbPulledOracles t) = Ok tt ->
        exists ix, pre = switchboard_update ix).
Proof.
  destruct sbPulledOracles as [| k ks].
  - exists []. simpl. rewrite after_refresh_nothing.
    repeat split; auto. intros H. now elim H.
  - unfold updateSwitchboard. set (feeds := map new_PublicKey (k :: ks)).
    unfold bind, lift, get, modify.
    assert (Hstay : exists pre,
              t = after_refresh pre [] t
              /\ (pre = [] \/ exists ix, pre = switchboard_update ix))
      by (exists []; rewrite after_refresh_nothing; auto).
    destruct (loadData_all C feeds) as [loaded | e]; simpl;
      [| destruct Hstay as (pre & E & Hp); exists pre;
         repeat split; auto; discriminate].
    destruct (fetchUpdateManyIx C feeds (numSignatures loaded)) as [ix | e];
      simpl;
      [| destruct Hstay as (pre & E & Hp); exists pre;
         repeat split; auto; discriminate].
    destruct (loadLookupTables C feeds) as [[] | e]; simpl;
      [| destruct Hstay as (pre & E & Hp); exists pre;
         repeat split; auto; discriminate].
    destruct (getLatestBlockhashAndContext C) as [[] | e]; simpl;
      [| destruct Hstay as (pre & E & Hp); exists pre;
         repeat split; auto; discriminate].
    destruct (compileToV0Message C (this_publicKey t) _) as [[] | e]; simpl;
      [| destruct Hstay as (pre & E & Hp); exists pre;
         repeat split; auto; discriminate].
    exists (switchboard_update ix). split.
    + unfold after_refresh, set_pullPriceTxns, set_preIxs, push_preIxs,
        with_buckets. simpl.
      destruct (pullPriceTxns t); [rewrite app_nil_r |]; reflexivity.
    + split; [right; now exists ix |]. split; [discriminate |].
      intros _ _. now exists ix.
Qed.

Lemma push_pullPriceTxns_stores (txs : list VersionedTransaction)
    (t : SolendActionCore) :
  push_pullPriceTxns txs t
  = match pullPriceTxns t with
    | Some _ => (Ok tt, after_refresh [] txs t)
    | None => (Throw undefined_push, t)
    end.
Proof.
  unfold push_pullPriceTxns, after_refresh, set_pullPriceTxns, set_preIxs.
  destruct (pullPriceTxns t) eqn:E; simpl; [| reflexivity].
  now rewrite app_nil_r.
Qed.

Lemma sign_and_store (transactions : list TransactionWithSigners)
    (t : SolendActionCore) :
  exists txs,
    snd (for_of transactions
           (fun transaction =>
              bind
                (lift (match tx_signers transaction with
                       | Some signers => sign C (tx transaction) signers
                       | None => Ok (tx transaction)
                       end))
                (fun signed => push_pullPriceTxns [signed])) t)
    = after_refresh [] txs t.
Proof.
  revert t. induction transactions as [| tr rest IH]; intros t; simpl.
  - exists []. now rewrite after_refresh_nothing.
  - unfold bind at 1. unfold bind at 1, lift at 1.
    destruct (match tx_signers tr with
              | Some signers => sign C (tx tr) signers
              | None => Ok (tx tr)
              end) as [signed | e]; simpl.
    + rewrite push_pullPriceTxns_stores.
      destruct (pullPriceTxns t) eqn:E.
      * destruct (IH (after_refresh [] [signed] t)) as (txs & Etxs).
        exists ([signed] ++ txs). rewrite Etxs.
        now rewrite after_refresh_after_refresh.
      * exists []. simpl. now rewrite after_refresh_nothing.
    + exists []. now rewrite after_refresh_nothing.
Qed.

Lemma updatePyth_stores (sbPulledOracles shuffledPriceIds : list string)
    (t : SolendActionCore) :
  exists txs,
    snd (updatePyth C sbPulledOracles shuffledPriceIds t)
    = after_refresh [] txs t.
Proof.
  assert (Hstay : exists txs : list VersionedTransaction,
            t = after_refresh [] txs t)
    by (exists []; now rewrite after_refresh_nothing).
  destruct shuffledPriceIds as [| i ids]; [exact Hstay |].
  unfold updatePyth. unfold bind at 1, get at 1. unfold bind at 1, lift at 1.
  destruct (getLatestVaas C (i :: ids)) as [data | e]; [| exact Hstay].
  unfold bind at 1, lift at 1.
  destruct (buildVersionedTransactions C data _) as [transactions | e];
    [| exact Hstay].
  apply sign_and_store.
Qed.

(** X12.  The price refresh and the object.  Whatever the Switchboard and
    Pyth clients answer, [buildPullPriceTxns] changes nothing of the
    object but the pre bucket and the store of price transactions: what it
    queues in the pre bucket is either nothing or the three instructions of
    the Switchboard update (the price of the compute unit and the limit of
    compute units, both 1000000, then the update of the feeds), each
    without signers; it makes no bucket the object did not have. *)
Theorem price_refresh_touches_pre_and_store (oracleKeys : list string)
    (t : SolendActionCore) :
  exists pre txs,
    snd (buildPullPriceTxns C oracleKeys t) = after_refresh pre txs t
    /\ (pre = [] \/ exists ix, pre = switchboard_update ix).
Proof.
  assert (Hstay : exists pre txs,
            t = after_refresh pre txs t
            /\ (pre = [] \/ exists ix, pre = switchboard_update ix))
    by (exists [], []; rewrite after_refresh_nothing; auto).
  unfold buildPullPriceTxns. unfold bind at 1, get at 1.
  unfold bind at 1, lift at 1.
  destruct (sbod_programId C) as [sbod | e]; [| exact Hstay].
  set (sb := map fst _).
  unfold bind at 1.
  destruct (updateSwitchboard_queues sb t) as (pre & Esb & Hpre & _).
  destruct (updateSwitchboard C sb t) as [[[] | e] t1]; simpl in Esb;
    [| exists pre, []; now split].
  unfold bind at 1, lift at 1.
  destruct (stale_feeds C 0 _) as [stale | e];
    [| exists pre, []; now split].
  destruct (updatePyth_stores sb (map snd (sort_by_key stale)) t1)
    as (txs & Epy).
  exists pre, txs. split; [| exact Hpre].
  rewrite Epy, Esb, after_refresh_after_refresh.
  now rewrite app_nil_r.
Qed.

Lemma price_refresh_retains_made_setup (oracleKeys : list string) :
  retains (fun t => made (setupIxs t)) (buildPullPriceTxns C oracleKeys).
Proof.
  assert (Hpush : forall txs,
            retains (fun t => made (setupIxs t)) (push_pullPriceTxns txs)).
  { intros txs t. unfold push_pullPriceTxns.
    now destruct (pullPriceTxns t). }
  unfold buildPullPriceTxns.
  apply retains_bind; [apply retains_get | intros this].
  apply retains_bind; [apply retains_lift | intros sbod].
  apply retains_bind.
  - unfold updateSwitchboard. destruct (map fst _); [apply retains_ret |].
    repeat
      (first
         [ apply retains_get
         | apply retains_lift
         | apply retains_modify; intros; reflexivity
         | apply retains_bind; [| intros ?] ]).
  - intros _. apply retains_bind; [apply retains_lift | intros stale].
    unfold updatePyth. destruct (map snd _); [apply retains_ret |].
    apply retains_bind; [apply retains_get | intros this'].
    apply retains_bind; [apply retains_lift | intros data].
    apply retains_bind; [apply retains_lift | intros transactions].
    apply retains_for_of. intros transaction _.
    apply retains_bind; [apply retains_lift | intros signed].
    apply Hpush.
Qed.

(** X13.  The Pyth update never reaches the caller.  On an object the
    class made, which has no store of price transactions, the step that
    stores the Pyth update transactions (lines 1158-1184) ends without an
    error only when no transaction was built: as soon as
    [buildVersionedTransactions] returns one and it is signed, the [push]
    throws a [TypeError] and the object is as it was. *)
Theorem pyth_update_is_never_stored (sbPulledOracles : list string)
    (id : string) (ids : list string) (t : SolendActionCore)
    (data : list string) (transaction : TransactionWithSigners)
    (transactions : list TransactionWithSigners)
    (signed : VersionedTransaction) :
  pullPriceTxns t = None ->
  getLatestVaas C (id :: ids) = Ok data ->
  buildVersionedTransactions C data
    (match sbPulledOracles with
     | [] => Some (jitoTipAmount t)
     | _ => None
     end)
  = Ok (transaction :: transactions) ->
  match tx_signers transaction with
  | Some signers => sign C (tx transaction) signers
  | None => Ok (tx transaction)
  end = Ok signed ->
  updatePyth C sbPulledOracles (id :: ids) t = (Throw undefined_push, t).
Proof.
  intros Hnone Hvaas Hbuild Hsign.
  unfold updatePyth. unfold bind at 1, get at 1. unfold bind at 1, lift at 1.
  rewrite Hvaas. unfold bind at 1, lift at 1. rewrite Hbuild.
  simpl. unfold bind at 1. unfold bind at 1, lift at 1. rewrite Hsign.
  rewrite push_pullPriceTxns_stores, Hnone. reflexivity.
Qed.

End Clients.

(** A Pyth price published 100 seconds ago: the refresh is attempted and
    the method throws; with a price published 10 seconds ago and a
    Switchboard feed, the three instructions are queued. *)
Lemma pyth_update_is_never_stored_witness :
  buildPullPriceTxns clients ["reserveA-pyth"]
    (Fixtures.Sdk.axn (chain_with_oracles "stale") Fixtures.Sdk.reserveA
       None 5 0 None None)
  = (Throw undefined_push,
     Fixtures.Sdk.axn (chain_with_oracles "stale") Fixtures.Sdk.reserveA
       None 5 0 None None)
  /\ updatePyth clients [] ["0xff6107"]
       (Fixtures.Sdk.axn (chain_with_oracles "stale") Fixtures.Sdk.reserveA
          None 5 0 None None)
     = (Throw undefined_push,
        Fixtures.Sdk.axn (chain_with_oracles "stale") Fixtures.Sdk.reserveA
          None 5 0 None None)
  /\ buildPullPriceTxns clients ["reserveA-pyth"; "reserveA-switchboard"]
       (Fixtures.Sdk.axn (chain_with_oracles "fresh") Fixtures.Sdk.reserveA
          None 5 0 None None)
     = (Ok tt,
        set_preIxs
          (switchboard_update
             (PullFeed_updateManyIx ["reserveA-switchboard"] 4))
          (Fixtures.Sdk.axn (chain_with_oracles "fresh")
             Fixtures.Sdk.reserveA None 5 0 None None)).
Proof.
  split; [vm_compute; reflexivity |]. split; [| vm_compute; reflexivity].
  apply (pyth_update_is_never_stored clients [] "0xff6107" []
           (Fixtures.Sdk.axn (chain_with_oracles "stale")
              Fixtures.Sdk.reserveA None 5 0 None None)
           ["0xff6107"]
           {| tx := []; tx_signers := None |} [] []);
    reflexivity.
Defined.

(** X14.  With the price refresh of the class in place of an assumption
    about it, the builders whose support table asks for the refresh of the
    reserves return no plan, whatever the clients answer. *)
Theorem refreshing_builders_throw_with_the_price_refresh (C : Clients)
    (X : Externals) :
  (forall pool reserve connection amount wallet environment
          customObligationAddress hostAta lookupTableAddress tipAmount
          token2022Mint,
     exists e,
       buildBorrowTxns (with_clients C X) pool reserve connection amount
         wallet environment customObligationAddress hostAta
         lookupTableAddress tipAmount token2022Mint
       = Throw e)
  /\ (forall pool reserve connection amount wallet environment
             obligationAddress obligationSeed lookupTableAddress tipAmount
             token2022Mint,
        exists e,
          buildWithdrawTxns (with_clients C X) pool reserve connection amount
            wallet environment obligationAddress obligationSeed
            lookupTableAddress tipAmount token2022Mint
          = Throw e)
  /\ (forall pool reserve connection amount wallet environment
             lookupTableAddress token2022Mint,
        exists e,
          buildRedeemReserveCollateralTxns (with_clients C X) pool reserve
            connection amount wallet environment lookupTableAddress
            token2022Mint
          = Throw e)
  /\ (forall pool reserve connection amount wallet environment
             lookupTableAddress customObligationAddress,
        exists e,
          buildWithdrawCollateralTxns (with_clients C X) pool reserve
            connection amount wallet environment lookupTableAddress
            customObligationAddress
          = Throw e)
  /\ (forall pool repayReserve withdrawReserve connection amount wallet
             environment customObligationAddress lookupTableAddress tipAmount
             token2022Mint,
        exists e,
          buildLiquidateTxns (with_clients C X) pool repayReserve
            withdrawReserve connection amount wallet environment
            customObligationAddress lookupTableAddress tipAmount
            token2022Mint
          = Throw e).
Proof.
  repeat split; intros;
    (apply build_with_refresh_throws;
     [ intros keys; apply price_refresh_retains_made_setup
     | simpl; tauto
     | intros a t; apply initialize_starts_empty ]).
Qed.

(** *** The age of a Pyth price *)

Lemma number_div_1000 (v : Q) :
  number_div (Num v) (Num 1000) = to_double (v / 1000).
Proof. reflexivity. Qed.

Lemma number_sub_Num (x y : Q) :
  number_sub (Num x) (Num y) = to_double (x + - y).
Proof. reflexivity. Qed.

(** X15.  The thirty seconds of the Pyth refresh are exact.  For a clock
    and a publish time in the range of real timestamps, the test
    [Date.now() / 1000 - Number(publishTime) > 30], made on binary64
    numbers, holds exactly when the clock, in milliseconds, is more than
    30000 past the publish time: the division and the subtraction lose
    nothing that matters. *)
Theorem a_price_is_refreshed_after_thirty_seconds (now : Z)
    (priceUpdate : PriceUpdateV2) :
  0 <= now < 2 ^ 43 ->
  0 <= publishTime priceUpdate < 2 ^ 43 ->
  needUpdate now priceUpdate
  = (1000 * (publishTime priceUpdate + 30) <? now).
Proof.
  intros Hnow Hp. unfold needUpdate.
  set (p := publishTime priceUpdate) in *.
  destruct (number_of_Z_exact now) as (v1 & -> & E1); [lia |].
  destruct (number_of_Z_exact p) as (v3 & -> & E3); [lia |].
  rewrite number_div_1000.
  assert (Hn0 : (0 <= inject_Z now)%Q).
  { change 0%Q with (inject_Z 0). rewrite <- Zle_Qle. lia. }
  assert (Hp0 : (0 <= inject_Z p)%Q).
  { change 0%Q with (inject_Z 0). rewrite <- Zle_Qle. lia. }
  assert (Hdiv : (v1 / 1000 == inject_Z now * (1 # 1000))%Q).
  { rewrite E1. field. }
  destruct (Z.ltb_spec (1000 * (p + 30)) now) as [Hlt | Hge].
  - assert (Hq : (inject_Z (1000 * (p + 30) + 1) <= inject_Z now)%Q)
      by (rewrite <- Zle_Qle; lia).
    rewrite inject_Z_plus, inject_Z_mult, inject_Z_plus in Hq.
    change (inject_Z 1000) with 1000%Q in Hq.
    change (inject_Z 30) with 30%Q in Hq.
    change (inject_Z 1) with 1%Q in Hq.
    destruct (to_double_between_dyadic 10 ((p + 30) * 1024 + 1)
                (now * 1024) (v1 / 1000)) as (v2 & -> & L2 & U2);
      try lia.
    { rewrite Hdiv, inject_Z_plus, inject_Z_mult, inject_Z_plus.
      change (inject_Z (2 ^ 10)) with 1024%Q.
      change (inject_Z 1024) with 1024%Q.
      change (inject_Z 30) with 30%Q. change (inject_Z 1) with 1%Q.
      apply Qle_shift_div_r; [reflexivity |]. lra. }
    { rewrite Hdiv, inject_Z_mult.
      change (inject_Z (2 ^ 10)) with 1024%Q.
      change (inject_Z 1024) with 1024%Q.
      apply Qle_shift_div_l; [reflexivity |]. lra. }
    rewrite number_sub_Num.
    rewrite inject_Z_plus, inject_Z_mult, inject_Z_plus in L2.
    rewrite inject_Z_mult in U2.
    change (inject_Z (2 ^ 10)) with 1024%Q in L2, U2.
    change (inject_Z 1024) with 1024%Q in L2, U2.
    change (inject_Z 30) with 30%Q in L2. change (inject_Z 1) with 1%Q in L2.
    assert (L2' : (inject_Z p + 30 + (1 # 1024) <= v2)%Q).
    { eapply Qle_trans; [| exact L2].
      apply Qle_shift_div_l; [reflexivity |]. lra. }
    assert (U2' : (v2 <= inject_Z now)%Q).
    { eapply Qle_trans; [exact U2 |].
      apply Qle_shift_div_r; [reflexivity |]. lra. }
    destruct (to_double_between_dyadic 10 (30 * 1024 + 1) (now * 1024)
                (v2 + - v3)) as (v4 & -> & L4 & U4);
      try lia.
    { change (inject_Z (2 ^ 10)) with 1024%Q.
      change (inject_Z (30 * 1024 + 1)) with 30721%Q.
      apply Qle_shift_div_r; [reflexivity |]. lra. }
    { rewrite inject_Z_mult.
      change (inject_Z (2 ^ 10)) with 1024%Q.
      change (inject_Z 1024) with 1024%Q.
      apply Qle_shift_div_l; [reflexivity |]. lra. }
    simpl. apply negb_true_iff. apply not_true_iff_false.
    rewrite Qle_bool_iff. intros H30.
    change (inject_Z (2 ^ 10)) with 1024%Q in L4.
    change (inject_Z (30 * 1024 + 1)) with 30721%Q in L4.
    assert (H : (30721 / 1024 <= 30)%Q) by lra.
    revert H. apply Qlt_not_le. reflexivity.
  - assert (Hq : (inject_Z now <= inject_Z (1000 * (p + 30)))%Q)
      by (rewrite <- Zle_Qle; lia).
    rewrite inject_Z_mult, inject_Z_plus in Hq.
    change (inject_Z 1000) with 1000%Q in Hq.
    change (inject_Z 30) with 30%Q in Hq.
    destruct (to_double_nonneg_le (v1 / 1000) (p + 30))
      as (v2 & -> & L2 & U2).
    { rewrite Hdiv. lra. }
    { rewrite Hdiv, inject_Z_plus. change (inject_Z 30) with 30%Q. lra. }
    { lia. }
    rewrite number_sub_Num.
    rewrite inject_Z_plus in U2. change (inject_Z 30) with 30%Q in U2.
    apply (to_double_not_above (v2 + - v3) 30); [lia |].
    change (inject_Z 30) with 30%Q. lra.
Qed.

Lemma a_price_is_refreshed_after_thirty_seconds_witness :
  needUpdate 1700000030001
    {| publishTime := 1700000000; feedId := [] |}
  = true
  /\ needUpdate 1700000030000
       {| publishTime := 1700000000; feedId := [] |}
     = false.
Proof.
  split.
  - apply (a_price_is_refreshed_after_thirty_seconds 1700000030001
             {| publishTime := 1700000000; feedId := [] |});
      simpl; lia.
  - apply (a_price_is_refreshed_after_thirty_seconds 1700000030000
             {| publishTime := 1700000000; feedId := [] |});
      simpl; lia.
Defined.

(** *** The signatures of the Switchboard update *)

Lemma Qceiling_between (k : Z) (v : Q) :
  (inject_Z k < v)%Q -> (v <= inject_Z (k + 1))%Q -> Qceiling v = k + 1.
Proof.
  intros H1 H2. unfold Qceiling.
  assert (H : - (k + 1) <= Qfloor (- v) <= - (k + 1)); [| lia].
  apply Qfloor_between.
  - rewrite inject_Z_opp. lra.
  - replace (- (k + 1) + 1) with (- k) by lia. rewrite inject_Z_opp. lra.
Qed.

Lemma number_div_3 (v : Q) :
  number_div (Num v) (Num 3) = to_double (v / 3).
Proof. reflexivity. Qed.

Lemma signatures_for_exact (f : PullFeedData) :
  0 <= minSampleSize f < 2 ^ 50 ->
  exists v,
    signatures_for f = Num v /\ (v == inject_Z (signatures_of f))%Q.
Proof.
  intros Hm. unfold signatures_for, signatures_of.
  set (m := minSampleSize f) in *.
  destruct (number_of_Z_exact m) as (v1 & -> & E1); [lia |].
  rewrite number_div_3.
  assert (Hdiv : (v1 / 3 == inject_Z m * (1 # 3))%Q) by (rewrite E1; field).
  assert (Hk : m = 3 * (m / 3) + m mod 3) by (apply Z.div_mod; lia).
  assert (Hr : 0 <= m mod 3 < 3) by (apply Z.mod_pos_bound; lia).
  set (k := m / 3) in *. set (r := m mod 3) in *.
  assert (Hc : (m + 2) / 3 = if r =? 0 then k else k + 1).
  { destruct (Z.eqb_spec r 0) as [E | E].
    - symmetry. apply Z.div_unique with 2; lia.
    - symmetry. apply Z.div_unique with (r - 1); lia. }
  assert (Hmq : (inject_Z m == 3 * inject_Z k + inject_Z r)%Q).
  { rewrite Hk at 1. rewrite inject_Z_plus, inject_Z_mult. reflexivity. }
  assert (Hceil : exists v2,
            to_double (v1 / 3) = Num v2
            /\ Qceiling v2 = (m + 2) / 3).
  { rewrite Hc. destruct (Z.eqb_spec r 0) as [E | E].
    - destruct (Z.eq_dec k 0) as [Ek | Ek].
      + exists 0%Q. split; [| now rewrite Ek].
        unfold to_double.
        assert (Hz : (v1 / 3 == 0)%Q).
        { rewrite Hdiv, Hmq, E, Ek. reflexivity. }
        apply Qeq_alt in Hz. now rewrite Hz.
      + destruct (to_double_not_below (v1 / 3) k k) as (v2 & E2 & L2 & U2);
          try lia.
        { rewrite Hdiv, Hmq, E. change (inject_Z 0) with 0%Q. lra. }
        { rewrite Hdiv, Hmq, E. change (inject_Z 0) with 0%Q. lra. }
        exists v2. split; [exact E2 |].
        assert (Hv : (v2 == inject_Z k)%Q) by lra.
        rewrite Hv. apply Qceiling_Z.
    - assert (Hr1 : (1 <= inject_Z r)%Q)
        by (change 1%Q with (inject_Z 1); rewrite <- Zle_Qle; lia).
      assert (Hr2 : (inject_Z r <= 2)%Q)
        by (change 2%Q with (inject_Z 2); rewrite <- Zle_Qle; lia).
      assert (Hk0 : (0 <= inject_Z k)%Q).
      { change 0%Q with (inject_Z 0). rewrite <- Zle_Qle. lia. }
      destruct (to_double_between_dyadic 2 (4 * k + 1) (4 * k + 3)
                  (v1 / 3)) as (v2 & E2 & L2 & U2);
        try lia.
      { rewrite Hdiv, Hmq, inject_Z_plus, inject_Z_mult.
        change (inject_Z (2 ^ 2)) with 4%Q. change (inject_Z 4) with 4%Q.
        change (inject_Z 1) with 1%Q.
        apply Qle_shift_div_r; [reflexivity |]. lra. }
      { rewrite Hdiv, Hmq, inject_Z_plus, inject_Z_mult.
        change (inject_Z (2 ^ 2)) with 4%Q. change (inject_Z 4) with 4%Q.
        change (inject_Z 3) with 3%Q.
        apply Qle_shift_div_l; [reflexivity |]. lra. }
      exists v2. split; [exact E2 |].
      rewrite inject_Z_plus, inject_Z_mult in L2, U2.
      change (inject_Z (2 ^ 2)) with 4%Q in L2, U2.
      change (inject_Z 4) with 4%Q in L2, U2.
      change (inject_Z 1) with 1%Q in L2. change (inject_Z 3) with 3%Q in U2.
      assert (L2' : (inject_Z k + (1 # 4) <= v2)%Q).
      { eapply Qle_trans; [| exact L2].
        apply Qle_shift_div_l; [reflexivity |]. lra. }
      assert (U2' : (v2 <= inject_Z k + (3 # 4))%Q).
      { eapply Qle_trans; [exact U2 |].
        apply Qle_shift_div_r; [reflexivity |]. lra. }
      apply Qceiling_between.
      + lra.
      + rewrite inject_Z_plus. change (inject_Z 1) with 1%Q. lra. }
  destruct Hceil as (v2 & -> & Ec). simpl Math_ceil. rewrite Ec.
  set (c := (m + 2) / 3) in *.
  assert (Hc0 : 0 <= c <= m).
  { rewrite Hc. unfold c. destruct (r =? 0) eqn:E; lia. }
  change (number_add (Num v1) (Num (inject_Z c)))
    with (to_double (v1 + inject_Z c)).
  destruct (Z.eq_dec m 0) as [Em | Em].
  - exists 0%Q. assert (Ec0 : c = 0) by lia. rewrite Em, Ec0.
    split; [| reflexivity].
    unfold to_double.
    assert (Hz : (v1 + inject_Z c == 0)%Q).
    { rewrite E1, Em, Ec0. reflexivity. }
    rewrite Ec0 in Hz. apply Qeq_alt in Hz. now rewrite Hz.
  - destruct (to_double_not_below (v1 + inject_Z c) (m + c) (m + c))
      as (v & E & L & U); try lia.
    { rewrite inject_Z_plus, E1. apply Qle_refl. }
    { rewrite inject_Z_plus, E1. apply Qle_refl. }
    exists v. split; [exact E | lra].
Qed.

Lemma number_max_exact (va vb : Q) (za zb : Z) :
  (va == inject_Z za)%Q -> (vb == inject_Z zb)%Q ->
  exists v,
    number_max (Num va) (Num vb) = Num v /\ (v == inject_Z (Z.max za zb))%Q.
Proof.
  intros Ea Eb. unfold number_max, number_gt.
  destruct (Qle_bool vb va) eqn:E; simpl.
  - apply Qle_bool_iff in E. rewrite Ea, Eb, <- Zle_Qle in E.
    exists va. split; [reflexivity |]. now rewrite Z.max_l.
  - apply not_true_iff_false in E. rewrite Qle_bool_iff in E.
    apply Qnot_le_lt in E. rewrite Ea, Eb, <- Zlt_Qlt in E.
    exists vb. split; [reflexivity |]. rewrite Z.max_r by lia. exact Eb.
Qed.

Lemma fold_number_max_exact (loaded : list PullFeedData) (va : Q) (za : Z) :
  (forall f, In f loaded -> 0 <= minSampleSize f < 2 ^ 50) ->
  (va == inject_Z za)%Q ->
  exists v,
    fold_left number_max (map signatures_for loaded ++ [Num 1]) (Num va)
    = Num v
    /\ (v == inject_Z (Z.max za (most_signatures loaded)))%Q.
Proof.
  revert va za. induction loaded as [| f rest IH]; intros va za Hall Ea.
  - cbn [map app fold_left]. apply number_max_exact; [exact Ea | reflexivity].
  - destruct (signatures_for_exact f) as (vf & Ef & Evf).
    { apply Hall. now left. }
    cbn [map app fold_left]. rewrite Ef.
    destruct (number_max_exact va vf za (signatures_of f) Ea Evf)
      as (v1 & -> & E1).
    destruct (IH v1 (Z.max za (signatures_of f))) as (v & E & Ev).
    { intros g Hin. apply Hall. now right. }
    { exact E1. }
    exists v. split; [exact E |].
    rewrite Ev. unfold most_signatures. simpl.
    now rewrite Z.max_assoc.
Qed.

(** X16.  The number of signatures asked of the Switchboard oracles is an
    integer, computed without loss: for feeds whose [minSampleSize] is a
    non-negative integer below [2^50], [numSignatures] is the greatest,
    over the feeds, of [minSampleSize + ceil(minSampleSize / 3)], and 1
    when that is smaller or there is no feed. *)
Theorem signatures_are_counted_exactly (loaded : list PullFeedData) :
  (forall f, In f loaded -> 0 <= minSampleSize f < 2 ^ 50) ->
  exists v,
    numSignatures loaded = Num v
    /\ (v == inject_Z (most_signatures loaded))%Q
    /\ 1 <= most_signatures loaded.
Proof.
  intros Hall.
  assert (H1 : 1 <= most_signatures loaded).
  { clear Hall. unfold most_signatures.
    induction loaded as [| f rest IH]; cbn [map fold_right]; lia. }
  unfold numSignatures, Math_max.
  destruct loaded as [| f rest].
  - exists 1%Q. repeat split. exact H1.
  - destruct (signatures_for_exact f) as (vf & Ef & Evf).
    { apply Hall. now left. }
    cbn [map app fold_left]. rewrite Ef.
    change (number_max NegInfinity (Num vf)) with (Num vf).
    destruct (fold_number_max_exact rest vf (signatures_of f)) as (v & E & Ev).
    { intros g Hin. apply Hall. now right. }
    { exact Evf. }
    exists v. split; [exact E |]. split; [exact Ev | exact H1].
Qed.

Lemma signatures_are_counted_exactly_witness :
  exists v,
    numSignatures [{| minSampleSize := 4 |}; {| minSampleSize := 7 |};
                   {| minSampleSize := 0 |}]
    = Num v
    /\ (v == 10)%Q.
Proof.
  destruct (signatures_are_counted_exactly
              [{| minSampleSize := 4 |}; {| minSampleSize := 7 |};
               {| minSampleSize := 0 |}]) as (v & E & Ev & _).
  - intros f [<- | [<- | [<- | []]]]; simpl; lia.
  - exists v. split; [exact E | exact Ev].
Defined.

End PullPriceFacts.

(** ** Hexadecimal ids *)

Module HexFacts.
Import Hex SpecMore.Hex.

Lemma every_byte_reads_back :
  forallb reads_back (map N.of_nat (seq 0 256)) = true.
Proof. vm_compute. reflexivity. Qed.

Lemma byte_digits (b : N) :
  (b < 256)%N ->
  exists hi lo,
    padStart0 2 (toString16 b) = String hi (String lo EmptyString)
    /\ byte_of_digits hi lo = Some b.
Proof.
  intros Hb.
  assert (Hin : In b (map N.of_nat (seq 0 256))).
  { rewrite <- (Nnat.N2Nat.id b). apply in_map. apply in_seq. lia. }
  pose proof (proj1 (forallb_forall _ _) every_byte_reads_back b Hin) as H.
  unfold reads_back in H.
  destruct (padStart0 2 (toString16 b)) as [| hi [| lo [| c rest]]];
    try discriminate.
  exists hi, lo. split; [reflexivity |].
  destruct (byte_of_digits hi lo) as [b' |]; [| discriminate].
  apply N.eqb_eq in H. now rewrite H.
Qed.

Lemma concat_cons (x : string) (xs : list string) :
  String.concat "" (x :: xs) = String.append x (String.concat "" xs).
Proof.
  destruct xs as [| y ys]; simpl.
  - induction x as [| c x IH]; simpl; [reflexivity | now rewrite <- IH].
  - reflexivity.
Qed.

Lemma digits_read_back (byteArray : list N) :
  (forall b, In b byteArray -> (b < 256)%N) ->
  bytes_of_digits
    (String.concat ""
       (map (fun byte => padStart0 2 (toString16 byte)) byteArray))
  = Some byteArray
  /\ String.length
       (String.concat ""
          (map (fun byte => padStart0 2 (toString16 byte)) byteArray))
     = (2 * List.length byteArray)%nat.
Proof.
  induction byteArray as [| b rest IH]; intros Hall.
  - split; reflexivity.
  - destruct (byte_digits b) as (hi & lo & E & Eb); [apply Hall; now left |].
    destruct IH as [IH1 IH2]; [intros b' Hin; apply Hall; now right |].
    cbn [map]. rewrite concat_cons, E. cbn [String.append bytes_of_digits].
    rewrite Eb, IH1. split; [reflexivity |].
    cbn [String.length List.length]. rewrite IH2. lia.
Qed.

(** X17.  The price feed id sent to the price service.  For an array of
    bytes, [toHexString] gives ["0x"] followed by exactly two hexadecimal
    digits a byte, so the text has [2 + 2n] characters, the bytes are read
    back from it, and two arrays of bytes with the same text are the same
    array. *)
Theorem feed_id_text_is_faithful (byteArray : list N) :
  (forall b, In b byteArray -> (b < 256)%N) ->
  fromHexString (toHexString byteArray) = Some byteArray
  /\ String.length (toHexString byteArray)
     = (2 + 2 * List.length byteArray)%nat
  /\ forall other,
       (forall b, In b other -> (b < 256)%N) ->
       toHexString other = toHexString byteArray ->
       other = byteArray.
Proof.
  intros Hall.
  assert (Hread : forall l,
            (forall b, In b l -> (b < 256)%N) ->
            fromHexString (toHexString l) = Some l).
  { intros l Hl. unfold toHexString, fromHexString.
    cbn [String.append]. exact (proj1 (digits_read_back l Hl)). }
  split; [now apply Hread |]. split.
  - unfold toHexString. cbn [String.append String.length].
    now rewrite (proj2 (digits_read_back byteArray Hall)).
  - intros other Hother E.
    assert (H : Some other = Some byteArray).
    { rewrite <- (Hread other Hother), E. now apply Hread. }
    now injection H.
Qed.

(** The id of a feed, and what happens outside the bytes: 4096 is written
    as the two bytes 16 and 0 are. *)
Lemma feed_id_text_is_faithful_witness :
  toHexString [239; 13; 139; 0]%N = "0xef0d8b00"
  /\ fromHexString "0xef0d8b00" = Some [239; 13; 139; 0]%N
  /\ toHexString [4096]%N = toHexString [16; 0]%N.
Proof.
  split; [reflexivity |]. split; [| reflexivity].
  change "0xef0d8b00" with (toHexString [239; 13; 139; 0]%N).
  apply (feed_id_text_is_faithful [239; 13; 139; 0]%N).
  intros b [<- | [<- | [<- | [<- | []]]]]; reflexivity.
Defined.

End HexFacts.

(** ** More on the liquidator *)

Module RunFacts.
Import Numeric Js Liquidator Spec.Bot SpecMore.Bot LiquidatorFacts.

(** *** The order [gt] reads *)

Lemma gt_strict_trans (a b c : BigNumber) :
  gt b a = true -> gt c b = true -> gt c a = true.
Proof.
  destruct a as [x | [] |], b as [y | [] |], c as [z | [] |]; simpl;
    try congruence.
  rewrite !negb_true_iff, <- !not_true_iff_false, !Qle_bool_iff.
  intros H1 H2 H3. apply H2. lra.
Qed.

Lemma gt_le_lt (d s r : BigNumber) :
  d <> NotANumber -> s <> NotANumber ->
  gt d s = false -> gt r s = true -> gt r d = true.
Proof.
  destruct d as [x | [] |], s as [y | [] |], r as [z | [] |]; simpl;
    try congruence.
  rewrite !negb_true_iff, negb_false_iff, <- !not_true_iff_false,
    !Qle_bool_iff.
  intros _ _ H1 H2 H3. apply H2. lra.
Qed.

Lemma gt_le_trans (a b c : BigNumber) :
  a <> NotANumber -> b <> NotANumber -> c <> NotANumber ->
  gt a b = false -> gt b c = false -> gt a c = false.
Proof.
  destruct a as [x | [] |], b as [y | [] |], c as [z | [] |]; simpl;
    try congruence.
  rewrite !negb_false_iff, !Qle_bool_iff. intros _ _ _ H1 H2. lra.
Qed.

Lemma gt_lt_le (s d : BigNumber) : gt d s = true -> gt s d = false.
Proof.
  destruct s as [x | [] |], d as [y | [] |]; simpl; try congruence.
  rewrite negb_true_iff, negb_false_iff, <- not_true_iff_false,
    !Qle_bool_iff.
  intros H. lra.
Qed.

(** *** The deposit to seize *)

(** The step of the [forEach] of lines 69-76. *)
Lemma selectDeposit_cons (d : Deposit.t) (rest : list Deposit.t) :
  selectDeposit (d :: rest)
  = fold_left
      (fun selectedDeposit deposit =>
         match selectedDeposit with
         | None => Some deposit
         | Some s =>
             if gt (Deposit.marketValue deposit) (Deposit.marketValue s)
             then Some deposit
             else selectedDeposit
         end)
      rest (Some d).
Proof. reflexivity. Qed.

Lemma select_from (l : list Deposit.t) (s : Deposit.t) :
  Deposit.marketValue s <> NotANumber ->
  (forall d, In d l -> Deposit.marketValue d <> NotANumber) ->
  exists r,
    fold_left
      (fun selectedDeposit deposit =>
         match selectedDeposit with
         | None => Some deposit
         | Some s =>
             if gt (Deposit.marketValue deposit) (Deposit.marketValue s)
             then Some deposit
             else selectedDeposit
         end)
      l (Some s)
    = Some r
    /\ ((r = s
         /\ forall d, In d l ->
              gt (Deposit.marketValue d) (Deposit.marketValue s) = false)
        \/ (gt (Deposit.marketValue r) (Deposit.marketValue s) = true
            /\ exists l1 l2,
                 l = l1 ++ r :: l2
                 /\ (forall d, In d l1 ->
                       gt (Deposit.marketValue r) (Deposit.marketValue d)
                       = true)
                 /\ (forall d, In d l2 ->
                       gt (Deposit.marketValue d) (Deposit.marketValue r)
                       = false))).
Proof.
  revert s. induction l as [| d l IH]; intros s Hs Hl; simpl.
  - exists s. split; [reflexivity |]. left. split; [reflexivity |].
    intros d [].
  - assert (Hd : Deposit.marketValue d <> NotANumber)
      by (apply Hl; now left).
    assert (Hl' : forall d, In d l -> Deposit.marketValue d <> NotANumber)
      by (intros d' Hin; apply Hl; now right).
    destruct (gt (Deposit.marketValue d) (Deposit.marketValue s)) eqn:Hgt.
    + destruct (IH d Hd Hl') as (r & -> & [(-> & Hall) | (Hr & l1 & l2 & -> & H1 & H2)]).
      * exists d. split; [reflexivity |]. right. split; [exact Hgt |].
        exists [], l. split; [reflexivity |]. split; [intros ? [] | exact Hall].
      * exists r. split; [reflexivity |]. right.
        split; [now apply gt_strict_trans with (Deposit.marketValue d) |].
        exists (d :: l1), l2. split; [reflexivity |]. split; [| exact H2].
        intros d' [<- | Hin]; [exact Hr | now apply H1].
    + destruct (IH s Hs Hl') as (r & -> & [(-> & Hall) | (Hr & l1 & l2 & -> & H1 & H2)]).
      * exists s. split; [reflexivity |]. left. split; [reflexivity |].
        intros d' [<- | Hin]; [exact Hgt | now apply Hall].
      * exists r. split; [reflexivity |]. right. split; [exact Hr |].
        exists (d :: l1), l2. split; [reflexivity |]. split; [| exact H2].
        intros d' [<- | Hin]; [| now apply H1].
        now apply gt_le_lt with (Deposit.marketValue s).
Qed.

Lemma select_member (l : list Deposit.t) (acc : option Deposit.t)
    (r : Deposit.t) :
  fold_left
    (fun selectedDeposit deposit =>
       match selectedDeposit with
       | None => Some deposit
       | Some s =>
           if gt (Deposit.marketValue deposit) (Deposit.marketValue s)
           then Some deposit
           else selectedDeposit
       end)
    l acc
  = Some r ->
  acc = Some r \/ In r l.
Proof.
  revert acc. induction l as [| d l IH]; intros acc; simpl.
  - now left.
  - intros H. apply IH in H. destruct H as [H | H]; [| now right; right].
    destruct acc as [s |].
    + destruct (gt _ _); [injection H as ->; right; now left | now left].
    + injection H as ->. right. now left.
Qed.

Lemma select_stuck (l : list Deposit.t) (s : Deposit.t) :
  Deposit.marketValue s = NotANumber ->
  fold_left
    (fun selectedDeposit deposit =>
       match selectedDeposit with
       | None => Some deposit
       | Some s =>
           if gt (Deposit.marketValue deposit) (Deposit.marketValue s)
           then Some deposit
           else selectedDeposit
       end)
    l (Some s)
  = Some s.
Proof.
  intros Hs. induction l as [| d l IH]; simpl; [reflexivity |].
  rewrite Hs. now destruct (Deposit.marketValue d) as [x | [] |].
Qed.

(** X18.  The deposit the liquidator seizes.  [selectDeposit] finds none
    only among no deposits, and what it finds is one of them.  When no
    market value is [NaN] it is the first deposit of greatest market value:
    it is greater than every deposit before it and no deposit after it is
    greater.  A first deposit whose market value is [NaN] is selected
    whatever follows, since no value compares greater than [NaN]. *)
Theorem selectDeposit_takes_the_first_greatest (deposits : list Deposit.t) :
  (selectDeposit deposits = None <-> deposits = [])
  /\ (forall s, selectDeposit deposits = Some s -> In s deposits)
  /\ ((forall d, In d deposits -> Deposit.marketValue d <> NotANumber) ->
      forall s,
        selectDeposit deposits = Some s ->
        exists before after,
          deposits = before ++ s :: after
          /\ (forall d, In d before ->
                gt (Deposit.marketValue s) (Deposit.marketValue d) = true)
          /\ (forall d, In d after ->
                gt (Deposit.marketValue d) (Deposit.marketValue s) = false))
  /\ (forall d rest,
        deposits = d :: rest ->
        Deposit.marketValue d = NotANumber ->
        selectDeposit deposits = Some d).
Proof.
  split; [| split; [| split]].
  - destruct deposits as [| d rest]; [now split |].
    split; [| discriminate]. rewrite selectDeposit_cons. intros H.
    exfalso. revert H. generalize d. induction rest as [| d' rest IH];
      intros d0; simpl; [discriminate |].
    destruct (gt _ _); apply IH.
  - intros s H. apply select_member in H. destruct H as [H | H];
      [discriminate | exact H].
  - intros Hnan s. destruct deposits as [| d rest]; [discriminate |].
    rewrite selectDeposit_cons. intros H.
    destruct (select_from rest d) as (r & Hr & Hcases).
    { apply Hnan. now left. }
    { intros d' Hin. apply Hnan. now right. }
    rewrite Hr in H. injection H as <-.
    destruct Hcases as [(-> & Hall) | (Hgt & l1 & l2 & -> & H1 & H2)].
    + exists [], rest. split; [reflexivity |]. split; [intros ? [] | exact Hall].
    + exists (d :: l1), l2. split; [reflexivity |]. split; [| exact H2].
      intros d' [<- | Hin]; [exact Hgt | now apply H1].
  - intros d rest -> Hd. rewrite selectDeposit_cons. now apply select_stuck.
Qed.

Lemma selectDeposit_takes_the_first_greatest_witness :
  selectDeposit
    [ {| Deposit.symbol := "SOL"; Deposit.marketValue := Finite 3 |};
      {| Deposit.symbol := "USDC"; Deposit.marketValue := Finite 7 |};
      {| Deposit.symbol := "ETH"; Deposit.marketValue := Infinite true |};
      {| Deposit.symbol := "BTC"; Deposit.marketValue := Finite 7 |} ]
  = Some {| Deposit.symbol := "USDC"; Deposit.marketValue := Finite 7 |}
  /\ exists before after,
       [ {| Deposit.symbol := "SOL"; Deposit.marketValue := Finite 3 |};
         {| Deposit.symbol := "USDC"; Deposit.marketValue := Finite 7 |};
         {| Deposit.symbol := "ETH"; Deposit.marketValue := Infinite true |};
         {| Deposit.symbol := "BTC"; Deposit.marketValue := Finite 7 |} ]
       = before
         ++ {| Deposit.symbol := "USDC"; Deposit.marketValue := Finite 7 |}
            :: after
       /\ (forall d, In d before ->
             gt (Finite 7) (Deposit.marketValue d) = true)
       /\ (forall d, In d after ->
             gt (Deposit.marketValue d) (Finite 7) = false).
Proof.
  split; [reflexivity |].
  match goal with
  | |- exists before after, ?l = _ /\ _ =>
      apply (proj1 (proj2 (proj2 (selectDeposit_takes_the_first_greatest l))))
  end.
  - intros d [<- | [<- | [<- | [<- | []]]]]; discriminate.
  - reflexivity.
Defined.

Section Program.

Context {Chain Reserves Account Client : Type}.
Variable X : Externals Chain Reserves Account Client.
Variable payer : Account.

(** *** What the run submits *)

Lemma pass_submits_for_cause (market : MarketConfig.t)
    (tokensOracle : list TokenOracleData.t) (allReserves : Reserves)
    (o : ParsedObligation.t) :
  appends (submitted_for_cause X payer)
    (pass X payer market tokensOracle allReserves o).
Proof.
  unfold pass.
  apply appends_bind; [now apply appends_record | intros _].
  apply appends_bind_call. intros refreshed Hcalc. cbv beta zeta.
  destruct (isLessThanOrEqualTo
              (RefreshedObligation.borrowedValue refreshed)
              (RefreshedObligation.unhealthyBorrowValue refreshed)) eqn:Hle;
    [apply appends_ret |].
  destruct (hd_error (sortBorrows X (RefreshedObligation.borrows refreshed)))
    as [b |] eqn:Hb; [| apply appends_ret].
  destruct (selectDeposit (RefreshedObligation.deposits refreshed))
    as [d |] eqn:Hd; [| apply appends_ret].
  apply appends_bind; [apply appends_console_write | intros _].
  apply appends_bind_read. intros balanceBase c Hbal. cbv beta.
  destruct (is_zero balanceBase) eqn:Hz.
  { apply appends_bind; [apply appends_console_write | intros _].
    apply appends_ret. }
  destruct (is_negative balanceBase) eqn:Hn.
  { apply appends_bind; [apply appends_console_write | intros _].
    apply appends_ret. }
  apply appends_bind.
  { apply appends_record. simpl. split; [exact Hz |]. split; [exact Hn |].
    exists tokensOracle, allReserves, refreshed, b, d, c.
    repeat split; assumption. }
  intros _. apply appends_bind; [apply appends_get | intros w].
  apply appends_bind.
  { destruct (liquidateAndRedeem _ _ _ _ _ _ _ _) as [r c'].
    apply appends_bind; [apply appends_set_chain | intros _].
    apply appends_call. }
  intros _. apply appends_bind_read. intros post c' _.
  apply appends_bind_call. intros parsed _.
  apply appends_bind; [apply appends_set_obligation | intros _].
  apply appends_ret.
Qed.

Lemma readPriceData_submits_nothing (P : Call -> Prop)
    (reserve : MarketConfigReserve.t) :
  appends P (readPriceData X reserve).
Proof.
  unfold readPriceData.
  apply appends_bind_read. intros [i |] c _.
  - destruct (String.eqb _ SWITCHBOARD_V1_ADDRESS); [apply appends_call |].
    destruct (String.eqb _ SWITCHBOARD_V2_ADDRESS).
    + apply appends_bind; [apply appends_get | intros w].
      apply appends_bind; [| intros p; apply appends_call].
      destruct (switchboardV2 w); [apply appends_ret |].
      apply appends_bind_read. intros p c' _.
      apply appends_bind; [apply appends_set_switchboardV2 | intros _].
      apply appends_ret.
    + apply appends_bind; [apply appends_console_write | intros _].
      apply appends_ret.
  - apply appends_bind; [apply appends_console_write | intros _].
    apply appends_ret.
Qed.

Lemma getTokensOracleData_submits_nothing (P : Call -> Prop)
    (market : MarketConfig.t) :
  appends P (getTokensOracleData X market).
Proof.
  unfold getTokensOracleData.
  induction (MarketConfig.reserves market) as [| r rest IH]; simpl.
  - apply appends_ret.
  - apply appends_bind.
    + unfold getTokenOracleData.
      apply appends_bind; [apply readPriceData_submits_nothing | intros p].
      apply appends_bind; [| intros q; apply appends_ret].
      destruct (falsy p); [| apply appends_ret].
      apply appends_bind; [apply appends_console_write | intros _].
      apply appends_ret.
    + intros d. apply appends_bind; [exact IH | intros ds].
      apply appends_ret.
Qed.

Lemma while_submits_for_cause (market : MarketConfig.t)
    (tokensOracle : list TokenOracleData.t) (allReserves : Reserves)
    (fuel : nat) :
  appends (submitted_for_cause X payer)
    (while_obligation X payer market tokensOracle allReserves fuel).
Proof.
  induction fuel as [| fuel IH]; simpl.
  - apply appends_bind; [apply appends_get | intros w].
    destruct (obligation w); [apply appends_throw | apply appends_ret].
  - apply appends_bind; [apply appends_get | intros w].
    destruct (obligation w) as [o |]; [| apply appends_ret].
    apply appends_bind; [apply pass_submits_for_cause | intros p].
    destruct p; [apply appends_ret | exact IH].
Qed.

Lemma scan_submits_for_cause (fuel : nat) (market : MarketConfig.t) :
  appends (submitted_for_cause X payer) (scan_market X payer fuel market).
Proof.
  unfold scan_market.
  apply appends_bind; [apply getTokensOracleData_submits_nothing |].
  intros tokensOracle.
  apply appends_bind_read. intros allObligations c _.
  apply appends_bind_read. intros allReserves c' _.
  apply appends_bind.
  - unfold for_obligations. apply appends_for_of. intros o.
    apply appends_bind; [apply appends_set_obligation | intros _].
    apply appends_try_catch;
      [apply while_submits_for_cause | intros e; apply appends_on_error].
  - intros _. destruct (THROTTLE X) as [[| a ms] |]; try apply appends_ret.
    apply appends_bind; [apply appends_get | intros w].
    apply appends_set_chain.
Qed.

(** X19.  Through any number of epochs over any markets, whatever the
    calls return or throw, the liquidator only adds to the record of its
    calls, and every liquidation it submits is submitted for cause: an
    evaluation of that obligation found it not healthy, the repay symbol is
    that of the first borrow in the order of [sortBorrows], the withdraw
    symbol that of the deposit [selectDeposit] gives, and the amount is the
    wallet balance read for that borrow, which is neither zero nor
    negative. *)
Theorem liquidations_are_submitted_for_cause (fuel : nat)
    (markets : list MarketConfig.t) (epochs : nat) :
  appends (submitted_for_cause X payer)
    (run_epochs X payer fuel markets epochs).
Proof.
  induction epochs as [| n IH]; simpl.
  - apply appends_throw.
  - apply appends_bind; [| intros _; exact IH].
    apply appends_for_of. intros market. apply scan_submits_for_cause.
Qed.

(** *** The run and the errors of a market *)

Lemma for_of_throws {A} (x : A) (rest : list A)
    (body : A -> Run Chain Client unit) (w w' : World Chain Client)
    (s : Signal) :
  body x w = (Throw s, w') -> for_of (x :: rest) body w = (Throw s, w').
Proof. intros H. simpl. unfold bind. now rewrite H. Qed.

(** X20.  The run has no normal end: [for (let epoch = 0; ; epoch += 1)]
    goes on until something throws outside the [try] of an obligation.
    That is what an error of a read made for the whole market does: when
    the oracle data, the obligations or the reserves of a market cannot be
    read, the error is caught nowhere, the scan of that market evaluates
    no obligation and the run ends with that error. *)
Theorem the_run_ends_only_by_an_error (fuel : nat)
    (market : MarketConfig.t) (rest : list MarketConfig.t) (n : nat)
    (w : World Chain Client) :
  (forall markets epochs,
     exists s, fst (run_epochs X payer fuel markets epochs w) = Throw s)
  /\ (forall s w1,
        getTokensOracleData X market w = (Throw s, w1) ->
        run_epochs X payer fuel (market :: rest) (S n) w = (Throw s, w1))
  /\ (forall tokensOracle w1 e,
        getTokensOracleData X market w = (Ok tokensOracle, w1) ->
        getObligations X (MarketConfig.address market) (chain w1) = Throw e ->
        run_epochs X payer fuel (market :: rest) (S n) w
        = (Throw (Exception e), w1))
  /\ (forall tokensOracle w1 allObligations e,
        getTokensOracleData X market w = (Ok tokensOracle, w1) ->
        getObligations X (MarketConfig.address market) (chain w1)
        = Ok allObligations ->
        getReserves X (MarketConfig.address market) (chain w1) = Throw e ->
        run_epochs X payer fuel (market :: rest) (S n) w
        = (Throw (Exception e), w1)).
Proof.
  split; [| split; [| split]].
  - intros markets epochs. revert w.
    induction epochs as [| k IH]; intros w0; simpl.
    + now exists OutOfFuel.
    + unfold bind at 1.
      destruct (for_of markets (scan_market X payer fuel) w0)
        as [[[] | s] w1]; [apply IH | now exists s].
  - intros s w1 H. cbn [run_epochs]. unfold bind at 1.
    rewrite (for_of_throws market rest _ w w1 s); [reflexivity |].
    unfold scan_market, bind. now rewrite H.
  - intros tokensOracle w1 e H Hobs. cbn [run_epochs]. unfold bind at 1.
    rewrite (for_of_throws market rest _ w w1 (Exception e));
      [reflexivity |].
    unfold scan_market. unfold bind at 1. rewrite H.
    unfold bind at 1. unfold read, bind, get, call. now rewrite Hobs.
  - intros tokensOracle w1 allObligations e H Hobs Hres. cbn [run_epochs].
    unfold bind at 1.
    rewrite (for_of_throws market rest _ w w1 (Exception e));
      [reflexivity |].
    unfold scan_market. unfold bind at 1. rewrite H.
    unfold bind at 1. unfold read at 1. unfold bind at 1, get at 1, call at 1.
    rewrite Hobs. unfold bind at 1. unfold read, bind, get, call.
    now rewrite Hres.
Qed.

(** *** The oracle reader *)

Lemma console_grows_refl (w : World Chain Client) : console_grows w w.
Proof. exists []. now rewrite app_nil_r. Qed.

Lemma console_grows_trans (w1 w2 w3 : World Chain Client) :
  console_grows w1 w2 -> console_grows w2 w3 -> console_grows w1 w3.
Proof.
  intros (l1 & E1) (l2 & E2). exists (l1 ++ l2).
  now rewrite E2, E1, app_assoc.
Qed.

Lemma reads_only_ret {A} (a : A) : reads_only (ret a : Run Chain Client A).
Proof.
  intros w. simpl. repeat split; auto using console_grows_refl.
  discriminate.
Qed.

Lemma reads_only_console_write (line : string) :
  reads_only (console_write line : Run Chain Client unit).
Proof.
  intros w. simpl. repeat split; auto; [now exists [line] | discriminate].
Qed.

Lemma reads_only_bind {A B} (c : Run Chain Client A)
    (k : A -> Run Chain Client B) :
  reads_only c -> (forall a, reads_only (k a)) -> reads_only (bind c k).
Proof.
  intros Hc Hk w. unfold bind. specialize (Hc w).
  destruct (c w) as [[a | s] w1]; simpl in *.
  - destruct Hc as (C1 & O1 & L1 & G1 & S1 & _).
    destruct (Hk a w1) as (C2 & O2 & L2 & G2 & S2 & F2).
    repeat split; try congruence.
    + now apply console_grows_trans with w1.
    + intros p Hp. now apply S2, S1.
  - destruct Hc as (C1 & O1 & L1 & G1 & S1 & F1).
    repeat split; auto. intros E. apply F1. now injection E as ->.
Qed.

Lemma readPriceData_reads_only (reserve : MarketConfigReserve.t) :
  reads_only (readPriceData X reserve).
Proof.
  intros w. unfold readPriceData, read, call, bind, get.
  destruct (getAccountInfo X _ (chain w)) as [[i |] | e]; simpl;
    [| settle_frame | settle_frame].
  destruct (String.eqb _ SWITCHBOARD_V1_ADDRESS).
  { destruct (decodeDelimited_result X _); settle_frame. }
  destruct (String.eqb _ SWITCHBOARD_V2_ADDRESS); [| settle_frame].
  destruct (switchboardV2 w) as [p |] eqn:Hp; simpl.
  - destruct (decodeLatestAggregatorValue X p i); settle_frame.
  - destruct (SwitchboardProgram_loadMainnet X (chain w)) as [p | e];
      simpl; [| settle_frame].
    destruct (decodeLatestAggregatorValue X p i); settle_frame.
Qed.

Lemma getTokenOracleData_reads_only (reserve : MarketConfigReserve.t) :
  reads_only (getTokenOracleData X reserve).
Proof.
  unfold getTokenOracleData.
  apply reads_only_bind; [apply readPriceData_reads_only | intros p].
  apply reads_only_bind; [| intros q; apply reads_only_ret].
  destruct (falsy p); [| apply reads_only_ret].
  apply reads_only_bind; [apply reads_only_console_write | intros _].
  apply reads_only_ret.
Qed.

Lemma getTokenOracleData_describes (reserve : MarketConfigReserve.t)
    (w w' : World Chain Client) (d : TokenOracleData.t) :
  getTokenOracleData X reserve w = (Ok d, w') -> describes reserve d.
Proof.
  unfold getTokenOracleData. unfold bind at 1.
  destruct (readPriceData X reserve w) as [[p | s] w1]; [| discriminate].
  unfold bind at 1.
  destruct (falsy p) eqn:F.
  - simpl. intros H. injection H as <- _. unfold describes. simpl.
    repeat split. now left.
  - simpl. intros H. injection H as <- _. unfold describes. simpl.
    repeat split. right. destruct p; [exact F | discriminate F].
Qed.

(** X21.  The oracle data of a market.  [getTokensOracleData] only reads:
    the chain, the loop variable and the record of calls are as before,
    the console has only grown, and a Switchboard client already loaded is
    kept, not loaded again.  When it returns, it returns one entry for each
    reserve of the market, in the order of the reserves, carrying the names
    of the reserve and a price that is either the 0 put in place of a price
    that did not resolve or a number that is not zero and not [NaN]. *)
Theorem oracle_data_follows_the_reserves (market : MarketConfig.t)
    (w : World Chain Client) :
  reads_only (getTokensOracleData X market)
  /\ forall tokensOracle w',
       getTokensOracleData X market w = (Ok tokensOracle, w') ->
       Forall2 describes (MarketConfig.reserves market) tokensOracle
       /\ forall d, In d tokensOracle ->
            TokenOracleData.price d <> NaN.
Proof.
  unfold getTokensOracleData. split.
  - induction (MarketConfig.reserves market) as [| r rest IH]; simpl.
    + apply reads_only_ret.
    + apply reads_only_bind; [apply getTokenOracleData_reads_only |].
      intros d. apply reads_only_bind; [exact IH | intros ds].
      apply reads_only_ret.
  - assert (H : forall tokensOracle w',
              getTokensOracleData_list X (MarketConfig.reserves market) w
              = (Ok tokensOracle, w') ->
              Forall2 describes (MarketConfig.reserves market) tokensOracle).
    { revert w. induction (MarketConfig.reserves market) as [| r rest IH];
        intros w0 ds w'; simpl.
      - intros E. injection E as <- _. constructor.
      - unfold bind at 1.
        destruct (getTokenOracleData X r w0) as [[d | s] w1] eqn:Ed;
          [| discriminate].
        unfold bind at 1.
        destruct (getTokensOracleData_list X rest w1) as [[ds' | s] w2]
          eqn:Eds; [| discriminate].
        simpl. intros E. injection E as <- _. constructor.
        + exact (getTokenOracleData_describes r w0 w1 d Ed).
        + exact (IH w1 ds' w2 Eds). }
    intros tokensOracle w' E. split; [exact (H _ _ E) |].
    specialize (H _ _ E). clear E. intros d Hin.
    induction H as [| r d0 rs ds Hd _ IH]; [contradiction |].
    destruct Hin as [<- | Hin]; [| exact (IH Hin)].
    destruct Hd as (_ & _ & _ & _ & [-> | Hf]); [discriminate |].
    intros En. rewrite En in Hf. discriminate Hf.
Qed.

(** *** A pass and the chain *)

(** X22.  What a pass of the loop touches.  It never touches the
    Switchboard client and only adds to the console.  A pass that ends the
    loop ([break]) has recorded the evaluation and nothing else, and leaves
    the chain and the loop variable as they were: the chain changes, and
    the obligation is read again, only when a liquidation is submitted. *)
Theorem a_pass_without_liquidation_changes_nothing
    (market : MarketConfig.t) (tokensOracle : list TokenOracleData.t)
    (allReserves : Reserves) (o : ParsedObligation.t)
    (w : World Chain Client) :
  switchboardV2 (snd (pass X payer market tokensOracle allReserves o w))
  = switchboardV2 w
  /\ console_grows w (snd (pass X payer market tokensOracle allReserves o w))
  /\ (fst (pass X payer market tokensOracle allReserves o w) = Ok Break ->
      chain (snd (pass X payer market tokensOracle allReserves o w))
      = chain w
      /\ obligation (snd (pass X payer market tokensOracle allReserves o w))
         = obligation w
      /\ calls (snd (pass X payer market tokensOracle allReserves o w))
         = calls w ++ [Evaluate o])
  /\ (calls (snd (pass X payer market tokensOracle allReserves o w))
      = calls w ++ [Evaluate o] ->
      chain (snd (pass X payer market tokensOracle allReserves o w))
      = chain w
      /\ obligation (snd (pass X payer market tokensOracle allReserves o w))
         = obligation w).
Proof.
  assert (Hne : forall (l : list Call) a b, l ++ [a; b] = l ++ [a] -> False).
  { intros l a b E. apply app_inv_head in E. discriminate. }
  unfold pass, read, call, bind, get, record, console_write, set_chain,
    set_obligation, modify, ret.
  destruct (calculateRefreshedObligation X _ _ _) as [refreshed | e]; simpl;
    [| settle_frame].
  destruct (isLessThanOrEqualTo _ _); simpl; [settle_frame |].
  destruct (hd_error _) as [b |]; simpl; [| settle_frame].
  destruct (selectDeposit _) as [d |]; simpl; [| settle_frame].
  destruct (getWalletTokenData X _ _ _ _ _) as [balanceBase | e]; simpl;
    [| settle_frame].
  destruct (is_zero balanceBase); simpl; [settle_frame |].
  destruct (is_negative balanceBase); simpl; [settle_frame |].
  assert (Hliq : forall (c : Call) ws,
            (calls w ++ [Evaluate o]) ++ [c] = calls w ++ [Evaluate o] ->
            ws).
  { intros c ws E. rewrite <- app_assoc in E. now apply Hne in E. }
  destruct (liquidateAndRedeem X _ _ _ _ _ _ _) as [[[] | e] c]; simpl.
  - destruct (getAccountInfo X _ c) as [post | e]; simpl.
    + destruct (parseObligation X _ post) as [parsed | e]; simpl;
        (split; [reflexivity |]); (split; [eexists; reflexivity |]);
        (split; [discriminate | apply Hliq]).
    + (split; [reflexivity |]); (split; [eexists; reflexivity |]);
        (split; [discriminate | apply Hliq]).
  - (split; [reflexivity |]); (split; [eexists; reflexivity |]);
      (split; [discriminate | apply Hliq]).
Qed.

End Program.

(** *** On a concrete market *)

(** The node refuses to list the obligations: the run ends there, in its
    first epoch, with the error of the node. *)
Lemma the_run_ends_only_by_an_error_witness :
  exists tokensOracle w1,
    getTokensOracleData SpecMore.Bot.externals_down Fixtures.Bot.market
      Fixtures.Bot.start
    = (Ok tokensOracle, w1)
    /\ run_epochs SpecMore.Bot.externals_down tt 3
         [Fixtures.Bot.market] 5 Fixtures.Bot.start
       = (Throw (Exception (mkError "429 Too Many Requests")), w1).
Proof.
  eexists. eexists. split; [vm_compute; reflexivity |].
  refine (proj1 (proj2 (proj2
            (the_run_ends_only_by_an_error SpecMore.Bot.externals_down
               tt 3 Fixtures.Bot.market [] 4 Fixtures.Bot.start)))
            _ _ _ _ eq_refl).
  vm_compute. reflexivity.
Defined.

(** The market of the fixtures: a price for USDC, none for SOL. *)
Lemma oracle_data_follows_the_reserves_witness :
  exists usdc sol,
    fst (getTokensOracleData Fixtures.Bot.externals Fixtures.Bot.market
           Fixtures.Bot.start)
    = Ok [usdc; sol]
    /\ describes Fixtures.Bot.usdc_reserve usdc
    /\ describes Fixtures.Bot.sol_reserve sol
    /\ TokenOracleData.price usdc = Num 1
    /\ TokenOracleData.price sol = Num 0.
Proof.
  destruct (getTokensOracleData Fixtures.Bot.externals Fixtures.Bot.market
              Fixtures.Bot.start) as [r w'] eqn:E.
  pose proof (proj2 (oracle_data_follows_the_reserves Fixtures.Bot.externals
                       Fixtures.Bot.market Fixtures.Bot.start)) as H.
  rewrite E in H. vm_compute in E. injection E as <- <-.
  destruct (H _ _ eq_refl) as (HF & _).
  inversion HF as [| r1 d1 rs1 ds1 H1 HF1]; subst.
  inversion HF1 as [| r2 d2 rs2 ds2 H2 HF2]; subst.
  eexists. eexists. split; [reflexivity |].
  split; [exact H1 |]. split; [exact H2 |]. split; reflexivity.
Defined.

(** The pass on the solvent obligation ends the loop. *)
Lemma a_pass_without_liquidation_changes_nothing_witness :
  fst (pass Fixtures.Bot.externals tt Fixtures.Bot.market [] tt
         Fixtures.Bot.solvent
         (Fixtures.Bot.at_obligation Fixtures.Bot.solvent))
  = Ok Break
  /\ chain
       (snd (pass Fixtures.Bot.externals tt Fixtures.Bot.market [] tt
               Fixtures.Bot.solvent
               (Fixtures.Bot.at_obligation Fixtures.Bot.solvent)))
     = 0%nat.
Proof.
  split; [reflexivity |].
  exact (proj1
           (proj1 (proj2 (proj2
              (a_pass_without_liquidation_changes_nothing
                 Fixtures.Bot.externals tt Fixtures.Bot.market [] tt
                 Fixtures.Bot.solvent
                 (Fixtures.Bot.at_obligation Fixtures.Bot.solvent))))
              eq_refl)).
Defined.

End RunFacts.

(** ** The secret reader *)

Module SecretFacts.
Import Js Secret.

(** The [catch] block. *)
Lemma handler_writes_one_line (H : Host) (secretName : string)
    (err : ErrorObject) (c : Console) :
  exists level line,
    bind
      (if match code err with
          | Some c => negb (String.eqb c "ENOENT")
          | None => true
          end
       then
         console_write error
           (String.append
              "An error occurred while trying to read the secret path: "
              (String.append (secret_path H secretName)
                 (String.append ". Err: " (text err))))
       else
         console_write debug
           (String.append "Could not find the secret,: "
              (String.append secretName
                 (String.append ". Err: " (text err)))))
      (fun _ => ret (Some (JString ""))) c
    = (Ok (Some (JString "")), c ++ [(level, line)])
    /\ (level = debug <-> code err = Some "ENOENT").
Proof.
  destruct (code err) as [k |] eqn:Ek.
  - destruct (String.eqb_spec k "ENOENT") as [-> | Hne]; simpl.
    + eexists. eexists. split; [reflexivity |]. now split.
    + eexists. eexists. split; [reflexivity |].
      split; [discriminate |]. intros E. injection E as ->. now elim Hne.
  - simpl. eexists. eexists. split; [reflexivity |].
    split; discriminate.
Qed.

Lemma readSecret_steps (H : Host) (secretName : string) (c : Console) :
  readSecret H secretName c
  = let handler err :=
      bind
        (if match code err with
            | Some c => negb (String.eqb c "ENOENT")
            | None => true
            end
         then
           console_write error
             (String.append
                "An error occurred while trying to read the secret path: "
                (String.append (secret_path H secretName)
                   (String.append ". Err: " (text err))))
         else
           console_write debug
             (String.append "Could not find the secret,: "
                (String.append secretName
                   (String.append ". Err: " (text err)))))
        (fun _ => ret (Some (JString ""))) c in
    match readFileSync H (secret_path H secretName) with
    | Ok str =>
        match JSON_parse H str with
        | Ok json =>
            match privKey json with
            | Ok v => (Ok v, c)
            | Throw err => handler err
            end
        | Throw err => handler err
        end
    | Throw err => handler err
    end.
Proof.
  unfold readSecret, try_catch, bind, lift.
  destruct (readFileSync H _) as [str | err]; [| reflexivity].
  destruct (JSON_parse H str) as [json | err]; [| reflexivity].
  destruct (privKey json) as [v | err]; reflexivity.
Qed.

(** X23.  [readSecret] never throws.  When the file is read, parsed, and
    the parsed value is not [null], it returns the [privKey] field of the
    value ([undefined] when there is none) and writes nothing.  When any of
    the three steps throws, it returns the empty string and writes exactly
    one line to the console: at the debug level when the error carries the
    code [ENOENT], at the error level otherwise, which includes the errors
    of the parser and the [TypeError] of a file that holds [null].  A
    non-empty [SECRET_PATH] is the file read, whatever the name of the
    secret. *)
Theorem secret_is_read_or_empty (H : Host) (secretName : string)
    (c : Console) :
  (exists v lines,
     readSecret H secretName c = (Ok v, c ++ lines)
     /\ (lines = []
         \/ (v = Some (JString "")
             /\ exists level line, lines = [(level, line)])))
  /\ (forall str json,
        readFileSync H (secret_path H secretName) = Ok str ->
        JSON_parse H str = Ok json ->
        json <> JNull ->
        exists v,
          privKey json = Ok v /\ readSecret H secretName c = (Ok v, c))
  /\ (forall err,
        readFileSync H (secret_path H secretName) = Throw err
        \/ (exists str,
              readFileSync H (secret_path H secretName) = Ok str
              /\ (JSON_parse H str = Throw err
                  \/ exists json,
                       JSON_parse H str = Ok json
                       /\ privKey json = Throw err)) ->
        exists level line,
          readSecret H secretName c
          = (Ok (Some (JString "")), c ++ [(level, line)])
          /\ (level = debug <-> code err = Some "ENOENT"))
  /\ (forall path,
        SECRET_PATH H = Some path -> path <> EmptyString ->
        secret_path H secretName = path).
Proof.
  rewrite readSecret_steps. cbv zeta.
  split; [| split; [| split]].
  - destruct (readFileSync H _) as [str | err].
    + destruct (JSON_parse H str) as [json | err].
      * destruct (privKey json) as [v | err].
        -- exists v, []. rewrite app_nil_r. split; [reflexivity | now left].
        -- destruct (handler_writes_one_line H secretName err c)
             as (level & line & E & _).
           exists (Some (JString "")), [(level, line)].
           split; [exact E | right; eauto].
      * destruct (handler_writes_one_line H secretName err c)
          as (level & line & E & _).
        exists (Some (JString "")), [(level, line)].
        split; [exact E | right; eauto].
    + destruct (handler_writes_one_line H secretName err c)
        as (level & line & E & _).
      exists (Some (JString "")), [(level, line)].
      split; [exact E | right; eauto].
  - intros str json Hread Hparse Hnull. rewrite Hread, Hparse.
    destruct json; try (now elim Hnull); simpl; eexists; split; reflexivity.
  - intros err Hfail.
    destruct (handler_writes_one_line H secretName err c)
      as (level & line & E & Hlevel).
    exists level, line. split; [| exact Hlevel].
    destruct Hfail as [-> | (str & -> & [-> | (json & -> & ->)])]; exact E.
  - intros path Hp Hne. unfold secret_path. rewrite Hp.
    destruct path; [now elim Hne | reflexivity].
Qed.

(** The key pair is there, the secret ["wallet"] is not, and the file
    ["empty"] holds [null]. *)
Lemma secret_is_read_or_empty_witness :
  readSecret SpecMore.Secret.host "keypair" []
  = (Ok (Some (JString "4uQeVj5tqViQh7yWWGStvkEG1Zmhx6uasJtWCJziofM")), [])
  /\ readSecret SpecMore.Secret.host "wallet" []
     = (Ok (Some (JString "")),
        [(debug,
          "Could not find the secret,: wallet. Err: Error: ENOENT: no such file or directory, open '/run/secrets/wallet'")])
  /\ (exists line,
        readSecret SpecMore.Secret.host "empty" []
        = (Ok (Some (JString "")), [(error, line)])).
Proof.
  split; [| split].
  - destruct (proj1 (proj2
                (secret_is_read_or_empty SpecMore.Secret.host "keypair" []))
                _ _ eq_refl eq_refl) as (v & Ev & E).
    + discriminate.
    + rewrite E. vm_compute in Ev. now injection Ev as <-.
  - destruct (proj1 (proj2 (proj2
                (secret_is_read_or_empty SpecMore.Secret.host "wallet" [])))
                {| code := Some "ENOENT";
                   text := "Error: ENOENT: no such file or directory, open '/run/secrets/wallet'" |}
                (or_introl eq_refl)) as (level & line & E & _).
    rewrite E. vm_compute in E. now injection E as <- <-.
  - destruct (proj1 (proj2 (proj2
                (secret_is_read_or_empty SpecMore.Secret.host "empty" [])))
                {| code := None;
                   text := "TypeError: Cannot read properties of null (reading 'privKey')" |})
      as (level & line & E & Hl).
    + right. exists "null". split; [reflexivity |]. right.
      exists JNull. split; reflexivity.
    + rewrite E. exists line. destruct level; [reflexivity |].
      destruct Hl as [Hl _]. discriminate (Hl eq_refl).
Defined.

End SecretFacts.
